(** * CHIP-8 emulator (chip8.c): shallow embedding and verified properties

    The machine of [chip8.c] is embedded as a record of lists and integers.
    Fixed-width C integers are [Z] with the wrap-around written at every
    assignment ([uint8_t]: [mod 256], [uint16_t]: [mod 65536]).  A C array is
    a list whose length is the array's size; an access outside the array,
    which C leaves undefined, is an explicit outcome [OutOfBounds] of the
    step function, so that nothing is silently read or written there. *)

From Stdlib Require Import ZArith Lia Bool.
From Stdlib Require Strings.String.
From stdpp Require Import base list.

Local Open Scope Z_scope.

(** ** Outcomes of a piece of C code *)

Inductive array_id := Ram | Display | Stack | Regs | Keypad.

(** [Done a]: the code runs to its end with value [a].
    [OutOfBounds arr i]: the code accesses [arr[i]] with [i] outside the
    array; it is not an error return of the program (which has none), it
    records that the access is made. *)
Inductive result (A : Type) :=
  | Done (a : A)
  | OutOfBounds (arr : array_id) (idx : Z).
Arguments Done {A} a.
Arguments OutOfBounds {A} arr idx.

Definition bind {A B} (m : result A) (k : A -> result B) : result B :=
  match m with
  | Done a => k a
  | OutOfBounds arr i => OutOfBounds arr i
  end.

Notation "'let*' x ':=' m 'in' k" := (bind m (fun x => k))
  (at level 10, x pattern, m at level 100, k at level 200).

(** [arr[i]] *)
Definition load {A} (arr : array_id) (l : list A) (i : Z) : result A :=
  if 0 <=? i then
    match l !! Z.to_nat i with
    | Some v => Done v
    | None => OutOfBounds arr i
    end
  else OutOfBounds arr i.

(** [arr[i] = v] *)
Definition store {A} (arr : array_id) (l : list A) (i : Z) (v : A)
  : result (list A) :=
  if (0 <=? i) && (i <? Z.of_nat (length l)) then Done (<[Z.to_nat i := v]> l)
  else OutOfBounds arr i.

(** ** Data model (chip8.c lines 16-60) *)

Record config_t := mk_config {
  window_width : Z;
  window_height : Z;
  fg_color : Z;
  bg_color : Z;
  scale_factor : Z;
  pixel_outlines : bool;
  clock_speed : Z
}.

Inductive emulator_state_t := QUIT | RUNNING | PAUSED.

Record instruction_t := mk_inst {
  opcode : Z;
  NNN : Z;
  NN : Z;
  N : Z;
  X : Z;
  Y : Z
}.

(** [stack_ptr] is a pointer into [stack] in the source; here it is the
    index of the slot it points to, [stack_ptr - &stack[0]]. *)
Record chip8_t := mk_chip8 {
  state : emulator_state_t;
  ram : list Z;
  display : list bool;
  stack : list Z;
  stack_ptr : Z;
  V : list Z;
  PC : Z;
  I : Z;
  delay_timer : Z;
  sound_timer : Z;
  keypad : list bool;
  rom_name : String.string;
  inst : instruction_t;
  draw : bool
}.

Definition set_state v c := mk_chip8 v (ram c) (display c) (stack c) (stack_ptr c)
  (V c) (PC c) (I c) (delay_timer c) (sound_timer c) (keypad c) (rom_name c) (inst c) (draw c).
Definition set_ram v c := mk_chip8 (state c) v (display c) (stack c) (stack_ptr c)
  (V c) (PC c) (I c) (delay_timer c) (sound_timer c) (keypad c) (rom_name c) (inst c) (draw c).
Definition set_display v c := mk_chip8 (state c) (ram c) v (stack c) (stack_ptr c)
  (V c) (PC c) (I c) (delay_timer c) (sound_timer c) (keypad c) (rom_name c) (inst c) (draw c).
Definition set_stack v c := mk_chip8 (state c) (ram c) (display c) v (stack_ptr c)
  (V c) (PC c) (I c) (delay_timer c) (sound_timer c) (keypad c) (rom_name c) (inst c) (draw c).
Definition set_stack_ptr v c := mk_chip8 (state c) (ram c) (display c) (stack c) v
  (V c) (PC c) (I c) (delay_timer c) (sound_timer c) (keypad c) (rom_name c) (inst c) (draw c).
Definition set_V v c := mk_chip8 (state c) (ram c) (display c) (stack c) (stack_ptr c)
  v (PC c) (I c) (delay_timer c) (sound_timer c) (keypad c) (rom_name c) (inst c) (draw c).
Definition set_PC v c := mk_chip8 (state c) (ram c) (display c) (stack c) (stack_ptr c)
  (V c) v (I c) (delay_timer c) (sound_timer c) (keypad c) (rom_name c) (inst c) (draw c).
Definition set_I v c := mk_chip8 (state c) (ram c) (display c) (stack c) (stack_ptr c)
  (V c) (PC c) v (delay_timer c) (sound_timer c) (keypad c) (rom_name c) (inst c) (draw c).
Definition set_delay_timer v c := mk_chip8 (state c) (ram c) (display c) (stack c) (stack_ptr c)
  (V c) (PC c) (I c) v (sound_timer c) (keypad c) (rom_name c) (inst c) (draw c).
Definition set_sound_timer v c := mk_chip8 (state c) (ram c) (display c) (stack c) (stack_ptr c)
  (V c) (PC c) (I c) (delay_timer c) v (keypad c) (rom_name c) (inst c) (draw c).
Definition set_keypad v c := mk_chip8 (state c) (ram c) (display c) (stack c) (stack_ptr c)
  (V c) (PC c) (I c) (delay_timer c) (sound_timer c) v (rom_name c) (inst c) (draw c).
Definition set_rom_name v c := mk_chip8 (state c) (ram c) (display c) (stack c) (stack_ptr c)
  (V c) (PC c) (I c) (delay_timer c) (sound_timer c) (keypad c) v (inst c) (draw c).
Definition set_inst v c := mk_chip8 (state c) (ram c) (display c) (stack c) (stack_ptr c)
  (V c) (PC c) (I c) (delay_timer c) (sound_timer c) (keypad c) (rom_name c) v (draw c).
Definition set_draw v c := mk_chip8 (state c) (ram c) (display c) (stack c) (stack_ptr c)
  (V c) (PC c) (I c) (delay_timer c) (sound_timer c) (keypad c) (rom_name c) (inst c) v.

(** The sizes the C declarations give the arrays. *)
Record wf (c : chip8_t) : Prop := mk_wf {
  wf_ram : length (ram c) = 4096%nat;
  wf_display : length (display c) = 2048%nat;
  wf_stack : length (stack c) = 12%nat;
  wf_V : length (V c) = 16%nat;
  wf_keypad : length (keypad c) = 16%nat
}.

(** [chip8_t chip8 = {0};] in [main]. *)
Definition zero_inst : instruction_t := mk_inst 0 0 0 0 0 0.
Definition zero_chip8 : chip8_t :=
  mk_chip8 QUIT (replicate 4096 0) (replicate 2048 false) (replicate 12 0) 0
           (replicate 16 0) 0 0 0 0 (replicate 16 false) String.EmptyString zero_inst false.

(** ** set_config (lines 134-149): the defaults; the arguments are not used *)
Definition set_config : config_t :=
  mk_config 64 32 0xFFFFFFFF 0x000000FF 20 true 500.

(** ** init_chip8 (lines 86-131) *)

Definition entry_point : Z := 0x200.

Definition font : list Z :=
  [ 0xF0; 0x90; 0x90; 0x90; 0xF0;
    0x20; 0x60; 0x20; 0x20; 0x70;
    0xF0; 0x10; 0xF0; 0x80; 0xF0;
    0xF0; 0x10; 0xF0; 0x10; 0xF0;
    0x90; 0x90; 0xF0; 0x10; 0x10;
    0xF0; 0x80; 0xF0; 0x10; 0xF0;
    0xF0; 0x80; 0xF0; 0x90; 0xF0;
    0xF0; 0x10; 0x20; 0x40; 0x40;
    0xF0; 0x90; 0xF0; 0x90; 0xF0;
    0xF0; 0x90; 0xF0; 0x10; 0xF0;
    0xF0; 0x90; 0xF0; 0x90; 0x90;
    0xE0; 0x90; 0xE0; 0x90; 0xE0;
    0xF0; 0x80; 0x80; 0x80; 0xF0;
    0xE0; 0x90; 0x90; 0x90; 0xE0;
    0xF0; 0x80; 0xF0; 0x80; 0xF0;
    0xF0; 0x80; 0xF0; 0x80; 0x80 ].

(** The exits of [init_chip8]: [InitOk] is [return true]; the other three
    are the three [SDL_Log ...; return false] exits, told apart by their
    message. *)
Inductive init_status :=
  | InitOk
  | RomNotFound     (* "ROM file %s is invalid or does not exist" *)
  | RomTooBig       (* "ROM file %s is too big!" *)
  | RomReadFailed.  (* "Could not read ROM file %s into CHIP8 memory" *)

(** [fread(ptr, size, nmemb, stream)] on a stream positioned at the start of
    a file with contents [file]: the number of complete items read, which is
    zero when [size] or [nmemb] is zero. *)
Definition fread_items (size nmemb : Z) (file : list Z) : Z :=
  if (size =? 0) || (nmemb =? 0) then 0
  else Z.min nmemb (Z.of_nat (length file) / size).

(** [rom] is what [fopen(rom_name, "rb")] finds: [None] when the file cannot
    be opened, otherwise its bytes. *)
Definition init_chip8 (chip8 : chip8_t) (name : String.string) (rom : option (list Z))
  : chip8_t * init_status :=
  let chip8 := set_ram (list_inserts 0 font (ram chip8)) chip8 in
  match rom with
  | None => (chip8, RomNotFound)
  | Some file =>
    let rom_size := Z.of_nat (length file) in
    let max_size := Z.of_nat (length (ram chip8)) - entry_point in
    if rom_size >? max_size then (chip8, RomTooBig)
    else if negb (fread_items rom_size 1 file =? 1) then (chip8, RomReadFailed)
    else
      let chip8 := set_ram (list_inserts (Z.to_nat entry_point) file (ram chip8)) chip8 in
      let chip8 := set_state RUNNING chip8 in
      let chip8 := set_PC entry_point chip8 in
      let chip8 := set_rom_name name chip8 in
      let chip8 := set_stack_ptr 0 chip8 in
      (chip8, InitOk)
  end.

(** ** emulate_chip8 (lines 517-769) *)

(** Line 519: [ram[PC] << 8 | ram[PC+1]], stored in a [uint16_t]. *)
Definition fetch_opcode (chip8 : chip8_t) : result Z :=
  let* hi := load Ram (ram chip8) (PC chip8) in
  let* lo := load Ram (ram chip8) (PC chip8 + 1) in
  Done (Z.lor (Z.shiftl hi 8) lo mod 65536).

(** Lines 523-527.  The masks keep the 8-bit fields below 256. *)
Definition decode (opc : Z) : instruction_t :=
  mk_inst opc
          (Z.land opc 0x0FFF)
          (Z.land opc 0x00FF)
          (Z.land opc 0x000F)
          (Z.shiftr (Z.land opc 0x0F00) 8)
          (Z.shiftr (Z.land opc 0x00F0) 4).

Definition getV (chip8 : chip8_t) (x : Z) : result Z := load Regs (V chip8) x.

Definition setV (chip8 : chip8_t) (x v : Z) : result chip8_t :=
  let* l := store Regs (V chip8) x v in Done (set_V l chip8).

Definition setRam (chip8 : chip8_t) (a v : Z) : result chip8_t :=
  let* l := store Ram (ram chip8) a v in Done (set_ram l chip8).

(** Lines 666-674, the loop over the columns of one sprite row:
    [n] is [j + 1], the number of iterations left when the loop runs to its
    end; [X_coord] and [Y_coord] are [uint8_t]. *)
Fixpoint draw_cols (n : nat) (sprite_data X_coord Y_coord : Z)
    (config : config_t) (chip8 : chip8_t) : result chip8_t :=
  match n with
  | O => Done chip8
  | S j =>
    let idx := Y_coord * window_width config + X_coord in
    let* pixel := load Display (display chip8) idx in
    let sprite_bit := negb (Z.land sprite_data (Z.shiftl 1 (Z.of_nat j)) =? 0) in
    let* chip8 := (if sprite_bit && pixel then setV chip8 0xF 1 else Done chip8) in
    let* d := store Display (display chip8) idx (xorb pixel sprite_bit) in
    let chip8 := set_display d chip8 in
    let X_coord := (X_coord + 1) mod 256 in
    if X_coord >=? window_width config then Done chip8
    else draw_cols j sprite_data X_coord Y_coord config chip8
  end.

(** Lines 661-676, the loop over the sprite rows: [n] is the number of rows
    left, [i] the loop counter (at most 15, so [i++] does not wrap). *)
Fixpoint draw_rows (n : nat) (i org_X Y_coord : Z)
    (config : config_t) (chip8 : chip8_t) : result chip8_t :=
  match n with
  | O => Done chip8
  | S n' =>
    let* sprite_data := load Ram (ram chip8) (I chip8 + i) in
    let* chip8 := draw_cols 8 sprite_data org_X Y_coord config chip8 in
    let Y_coord := (Y_coord + 1) mod 256 in
    if Y_coord >=? window_height config then Done chip8
    else draw_rows n' (i + 1) org_X Y_coord config chip8
  end.

(** Lines 705-712: [key_pressed] and the machine after the loop over the
    keypad; [n] is the number of keys left to look at. *)
Fixpoint scan_keypad (n : nat) (i : Z) (key_pressed : bool) (chip8 : chip8_t)
  : result (bool * chip8_t) :=
  match n with
  | O => Done (key_pressed, chip8)
  | S n' =>
    let* k := load Keypad (keypad chip8) i in
    if k : bool then
      let* chip8 := setV chip8 (X (inst chip8)) i in
      Done (true, chip8)
    else scan_keypad n' (i + 1) key_pressed chip8
  end.

(** Lines 753-755: [n] registers left, starting at [i]. *)
Fixpoint store_regs (n : nat) (i : Z) (chip8 : chip8_t) : result chip8_t :=
  match n with
  | O => Done chip8
  | S n' =>
    let* v := getV chip8 i in
    let* chip8 := setRam chip8 (I chip8 + i) v in
    store_regs n' (i + 1) chip8
  end.

(** Lines 759-761. *)
Fixpoint load_regs (n : nat) (i : Z) (chip8 : chip8_t) : result chip8_t :=
  match n with
  | O => Done chip8
  | S n' =>
    let* v := load Ram (ram chip8) (I chip8 + i) in
    let* chip8 := setV chip8 i v in
    load_regs n' (i + 1) chip8
  end.

(** Lines 583-628. *)
Definition execute_alu (chip8 : chip8_t) : result chip8_t :=
  let x := X (inst chip8) in
  let y := Y (inst chip8) in
  match N (inst chip8) with
  | 0x0 =>
    let* vy := getV chip8 y in setV chip8 x vy
  | 0x1 =>
    let* vx := getV chip8 x in let* vy := getV chip8 y in
    setV chip8 x (Z.lor vx vy)
  | 0x2 =>
    let* vx := getV chip8 x in let* vy := getV chip8 y in
    setV chip8 x (Z.land vx vy)
  | 0x3 =>
    let* vx := getV chip8 x in let* vy := getV chip8 y in
    setV chip8 x (Z.lxor vx vy)
  | 0x4 =>
    let* vy := getV chip8 y in let* vx := getV chip8 x in
    let* chip8 := setV chip8 0xF (Z.b2z (vy >? 0xFF - vx)) in
    let* vx := getV chip8 x in let* vy := getV chip8 y in
    setV chip8 x ((vx + vy) mod 256)
  | 0x5 =>
    let* vy := getV chip8 y in let* vx := getV chip8 x in
    let* chip8 := setV chip8 0xF (Z.b2z (vy <=? vx)) in
    let* vx := getV chip8 x in let* vy := getV chip8 y in
    setV chip8 x ((vx - vy) mod 256)
  | 0x6 =>
    let* vx := getV chip8 x in
    let* chip8 := setV chip8 0xF (Z.land vx 1) in
    let* vx := getV chip8 x in
    setV chip8 x (Z.shiftr vx 1)
  | 0x7 =>
    let* vx := getV chip8 x in let* vy := getV chip8 y in
    let* chip8 := setV chip8 0xF (Z.b2z (vx <=? vy)) in
    let* vy := getV chip8 y in let* vx := getV chip8 x in
    setV chip8 x ((vy - vx) mod 256)
  | 0xE =>
    let* vx := getV chip8 x in
    let* chip8 := setV chip8 0xF (Z.shiftr (Z.land vx 0x80) 7) in
    let* vx := getV chip8 x in
    setV chip8 x (Z.shiftl vx 1 mod 256)
  | _ => Done chip8
  end.

(** Lines 696-765.  The operands of [/] and [%] are unsigned. *)
Definition execute_misc (chip8 : chip8_t) : result chip8_t :=
  let x := X (inst chip8) in
  match NN (inst chip8) with
  | 0x07 => setV chip8 x (delay_timer chip8)
  | 0x0A =>
    let* (key_pressed, chip8) := scan_keypad 16 0 true chip8 in
    if negb key_pressed then Done (set_PC ((PC chip8 - 2) mod 65536) chip8)
    else Done chip8
  | 0x15 => let* vx := getV chip8 x in Done (set_delay_timer vx chip8)
  | 0x18 => let* vx := getV chip8 x in Done (set_sound_timer vx chip8)
  | 0x1E => let* vx := getV chip8 x in Done (set_I ((I chip8 + vx) mod 65536) chip8)
  | 0x29 =>
    let* vx := getV chip8 x in
    let character := Z.land vx 0x0F in
    Done (set_I (character * 5) chip8)
  | 0x33 =>
    let* value := getV chip8 x in
    let* chip8 := setRam chip8 (I chip8 + 2) (value mod 10) in
    let value := value / 10 in
    let* chip8 := setRam chip8 (I chip8 + 1) (value mod 10) in
    let value := value / 10 in
    setRam chip8 (I chip8) value
  | 0x55 => store_regs (Z.to_nat (x + 1)) 0 chip8
  | 0x65 => load_regs (Z.to_nat (x + 1)) 0 chip8
  | _ => Done chip8
  end.

(** Lines 534-768, the dispatch on the top four bits.  [rnd] is the value
    [rand()] returns, between 0 and [RAND_MAX]. *)
Definition execute (chip8 : chip8_t) (config : config_t) (rnd : Z) : result chip8_t :=
  let i := inst chip8 in
  match Z.land (Z.shiftr (opcode i) 12) 0x0F with
  | 0x0 =>
    if NN i =? 0xE0 then
      Done (set_draw true (set_display (replicate (length (display chip8)) false) chip8))
    else if NN i =? 0xEE then
      let chip8 := set_stack_ptr (stack_ptr chip8 - 1) chip8 in
      let* a := load Stack (stack chip8) (stack_ptr chip8) in
      Done (set_PC a chip8)
    else Done chip8
  | 0x1 => Done (set_PC (NNN i) chip8)
  | 0x2 =>
    let* s := store Stack (stack chip8) (stack_ptr chip8) (PC chip8) in
    let chip8 := set_stack_ptr (stack_ptr chip8 + 1) (set_stack s chip8) in
    Done (set_PC (NNN i) chip8)
  | 0x3 =>
    let* vx := getV chip8 (X i) in
    if vx =? NN i then Done (set_PC ((PC chip8 + 2) mod 65536) chip8) else Done chip8
  | 0x4 =>
    let* vx := getV chip8 (X i) in
    if negb (vx =? NN i) then Done (set_PC ((PC chip8 + 2) mod 65536) chip8) else Done chip8
  | 0x5 =>
    let* vx := getV chip8 (X i) in let* vy := getV chip8 (Y i) in
    if vx =? vy then Done (set_PC ((PC chip8 + 2) mod 65536) chip8) else Done chip8
  | 0x6 => setV chip8 (X i) (NN i)
  | 0x7 =>
    let* vx := getV chip8 (X i) in setV chip8 (X i) ((vx + NN i) mod 256)
  | 0x8 => execute_alu chip8
  | 0x9 =>
    let* vx := getV chip8 (X i) in let* vy := getV chip8 (Y i) in
    if negb (vx =? vy) then Done (set_PC ((PC chip8 + 2) mod 65536) chip8) else Done chip8
  | 0xA => Done (set_I (NNN i) chip8)
  | 0xB => let* v0 := getV chip8 0 in Done (set_PC ((v0 + NNN i) mod 65536) chip8)
  | 0xC => setV chip8 (X i) (Z.land (rnd mod 256) (NN i))
  | 0xD =>
    let* vx := getV chip8 (X i) in let* vy := getV chip8 (Y i) in
    let X_coord := (vx mod window_width config) mod 256 in
    let Y_coord := (vy mod window_height config) mod 256 in
    let org_X := X_coord in
    let* chip8 := setV chip8 0xF 0 in
    let* chip8 := draw_rows (Z.to_nat (N i)) 0 org_X Y_coord config chip8 in
    Done (set_draw true chip8)
  | 0xE =>
    if NN i =? 0x9E then
      let* vx := getV chip8 (X i) in
      let* k := load Keypad (keypad chip8) (Z.land vx 0x0F) in
      if k : bool then Done (set_PC ((PC chip8 + 2) mod 65536) chip8) else Done chip8
    else if NN i =? 0xA1 then
      let* vx := getV chip8 (X i) in
      let* k := load Keypad (keypad chip8) (Z.land vx 0x0F) in
      if negb k then Done (set_PC ((PC chip8 + 2) mod 65536) chip8) else Done chip8
    else Done chip8
  | 0xF => execute_misc chip8
  | _ => Done chip8
  end.

(** Lines 517-527 then the dispatch: fetch, advance [PC], decode, execute. *)
Definition emulate_chip8 (chip8 : chip8_t) (config : config_t) (rnd : Z)
  : result chip8_t :=
  let* opc := fetch_opcode chip8 in
  let chip8 := set_PC ((PC chip8 + 2) mod 65536) chip8 in
  let chip8 := set_inst (decode opc) chip8 in
  execute chip8 config rnd.

(** Lines 813-814: [n] calls of [emulate_chip8] in a row; [rnds k] is what
    [rand()] returns in the [k]-th call. *)
Fixpoint emulate_many (n : nat) (chip8 : chip8_t) (config : config_t)
    (rnds : nat -> Z) : result chip8_t :=
  match n with
  | O => Done chip8
  | S n' =>
    let* chip8 := emulate_chip8 chip8 config (rnds O) in
    emulate_many n' chip8 config (fun k => rnds (S k))
  end.

(** ** update_timers (lines 772-777) *)
Definition update_timers (chip8 : chip8_t) : chip8_t :=
  let chip8 := if delay_timer chip8 >? 0
               then set_delay_timer (delay_timer chip8 - 1) chip8 else chip8 in
  if sound_timer chip8 >? 0
  then set_sound_timer (sound_timer chip8 - 1) chip8 else chip8.


(** ** init_sdl (lines 63-83): the size asked of [SDL_CreateWindow] *)

Definition window_size (config : config_t) : Z * Z :=
  ((window_width config * scale_factor config) mod 2 ^ 32,
   (window_height config * scale_factor config) mod 2 ^ 32).

(** ** clear_screen and redraw_screen (lines 159-208)

    The two functions only call SDL; they are embedded as the list of the
    calls they make on the renderer, in order. *)

Record SDL_Rect := mk_rect { rect_x : Z; rect_y : Z; rect_w : Z; rect_h : Z }.

Inductive sdl_call :=
  | SDL_SetRenderDrawColor (r g b a : Z)
  | SDL_RenderFillRect (rect : SDL_Rect)
  | SDL_RenderDrawRect (rect : SDL_Rect)
  | SDL_RenderClear
  | SDL_RenderPresent.

(** The four [uint8_t] channels of an RGBA8888 colour (lines 161-164 and
    174-182). *)
Definition channels (color : Z) : Z * Z * Z * Z :=
  (Z.land (Z.shiftr color 24) 0xFF,
   Z.land (Z.shiftr color 16) 0xFF,
   Z.land (Z.shiftr color 8) 0xFF,
   Z.land (Z.shiftr color 0) 0xFF).

Definition set_color (color : Z) : sdl_call :=
  let '(r, g, b, a) := channels color in SDL_SetRenderDrawColor r g b a.

Definition clear_screen (config : config_t) : list sdl_call :=
  [set_color (bg_color config); SDL_RenderClear].

(** Lines 184-206: the loop over [display], here over the cells left, with
    [i] the index of the first of them.  [i], the width and the scale factor
    are [uint32_t]. *)
Fixpoint redraw_cells (config : config_t) (pixels : list bool) (i : Z)
  : list sdl_call :=
  match pixels with
  | [] => []
  | pixel :: rest =>
    let rect :=
      mk_rect (((i mod window_width config) * scale_factor config) mod 2 ^ 32)
              (((i / window_width config) * scale_factor config) mod 2 ^ 32)
              (scale_factor config) (scale_factor config) in
    (if pixel then
       [set_color (fg_color config); SDL_RenderFillRect rect]
       ++ (if pixel_outlines config
           then [set_color (bg_color config); SDL_RenderDrawRect rect]
           else [])
     else [set_color (bg_color config); SDL_RenderFillRect rect])
    ++ redraw_cells config rest ((i + 1) mod 2 ^ 32)
  end.

Definition redraw_screen (config : config_t) (chip8 : chip8_t) : list sdl_call :=
  redraw_cells config (display chip8) 0 ++ [SDL_RenderPresent].

(** ** handle_input (lines 216-286)

    The SDL event queue is a list; [SDL_PollEvent] takes its head.  Of an
    event only the type and, for key events, the key matter. *)

Inductive SDL_Keycode :=
  | SDLK_ESCAPE
  | SDLK_1 | SDLK_2 | SDLK_3 | SDLK_4
  | SDLK_q | SDLK_w | SDLK_e | SDLK_r
  | SDLK_a | SDLK_s | SDLK_d | SDLK_f
  | SDLK_z | SDLK_x | SDLK_c | SDLK_v
  | SDLK_other.

Inductive SDL_Event :=
  | SDL_QUIT
  | SDL_KEYDOWN (sym : SDL_Keycode)
  | SDL_KEYUP (sym : SDL_Keycode)
  | SDL_other.

(** [chip8->keypad[k] = b] with a constant [k] below 16. *)
Definition set_key (k : nat) (b : bool) (chip8 : chip8_t) : chip8_t :=
  set_keypad (<[k := b]> (keypad chip8)) chip8.

(** The body of the loop for one event (lines 219-284): the machine, and
    whether [handle_input] returns at once.  The two [puts] of the pause
    toggle write to the terminal only. *)
Definition handle_event (chip8 : chip8_t) (event : SDL_Event) : chip8_t * bool :=
  match event with
  | SDL_QUIT => (set_state QUIT chip8, true)
  | SDL_KEYDOWN sym =>
    match sym with
    | SDLK_ESCAPE =>
      (match state chip8 with
       | RUNNING => set_state PAUSED chip8
       | _ => set_state RUNNING chip8
       end, true)
    | SDLK_1 => (set_key 0x1 true chip8, false)
    | SDLK_2 => (set_key 0x2 true chip8, false)
    | SDLK_3 => (set_key 0x3 true chip8, false)
    | SDLK_4 => (set_key 0xC true chip8, false)
    | SDLK_q => (set_key 0x4 true chip8, false)
    | SDLK_w => (set_key 0x5 true chip8, false)
    | SDLK_e => (set_key 0x6 true chip8, false)
    | SDLK_r => (set_key 0xD true chip8, false)
    | SDLK_a => (set_key 0x7 true chip8, false)
    | SDLK_s => (set_key 0x8 true chip8, false)
    | SDLK_d => (set_key 0x9 true chip8, false)
    | SDLK_f => (set_key 0xE true chip8, false)
    | SDLK_z => (set_key 0xA true chip8, false)
    | SDLK_x => (set_key 0x0 true chip8, false)
    | SDLK_c => (set_key 0xB true chip8, false)
    | SDLK_v => (set_key 0xF true chip8, false)
    | SDLK_other => (chip8, false)
    end
  | SDL_KEYUP sym =>
    match sym with
    | SDLK_1 => (set_key 0x1 false chip8, false)
    | SDLK_2 => (set_key 0x2 false chip8, false)
    | SDLK_3 => (set_key 0x3 false chip8, false)
    | SDLK_4 => (set_key 0xC false chip8, false)
    | SDLK_q => (set_key 0x4 false chip8, false)
    | SDLK_w => (set_key 0x5 false chip8, false)
    | SDLK_e => (set_key 0x6 false chip8, false)
    | SDLK_r => (set_key 0xD false chip8, false)
    | SDLK_a => (set_key 0x7 false chip8, false)
    | SDLK_s => (set_key 0x8 false chip8, false)
    | SDLK_d => (set_key 0x9 false chip8, false)
    | SDLK_f => (set_key 0xE false chip8, false)
    | SDLK_z => (set_key 0xA false chip8, false)
    | SDLK_x => (set_key 0x0 false chip8, false)
    | SDLK_c => (set_key 0xB false chip8, false)
    | SDLK_v => (set_key 0xF false chip8, false)
    | _ => (chip8, false)
    end
  | SDL_other => (chip8, false)
  end.

(** The machine when [handle_input] returns, and the events left in the
    queue. *)
Fixpoint handle_input (chip8 : chip8_t) (events : list SDL_Event)
  : chip8_t * list SDL_Event :=
  match events with
  | [] => (chip8, [])
  | event :: rest =>
    let (chip8, returns) := handle_event chip8 event in
    if returns then (chip8, rest) else handle_input chip8 rest
  end.
(** * Vocabulary of the statements *)

(** The opcode with the four hexadecimal digits [a x y n]. *)
Definition nibbles (a x y n : Z) : Z := 4096 * a + 256 * x + 16 * y + n.

(** The machine [emulate_chip8] dispatches on: [PC] advanced, [inst] decoded. *)
Definition fetched (c : chip8_t) (opc : Z) : chip8_t :=
  set_inst (decode opc) (set_PC ((PC c + 2) mod 65536) c).

(** The machine [main] runs: [chip8 = {0}] initialised by [init_chip8] from a
    ROM file with the bytes [rom]. *)
Definition boot (rom : list Z) : chip8_t :=
  fst (init_chip8 zero_chip8 String.EmptyString (Some rom)).

(** What a terminated run leaves in register [V[x]]. *)
Definition reg_after (x : nat) (r : result chip8_t) : option Z :=
  match r with
  | Done c => V c !! x
  | OutOfBounds _ _ => None
  end.

Definition PC_after (r : result chip8_t) : option Z :=
  match r with
  | Done c => Some (PC c)
  | OutOfBounds _ _ => None
  end.

(** 8F04 with [VF = 200] and [V0 = 100]. *)
Definition add_into_VF : chip8_t :=
  set_V (<[15%nat := 200]> (<[0%nat := 100]> (V (boot [0x8F; 0x04]))))
        (boot [0x8F; 0x04]).

(** 8124 with [V1 = 200] and [V2 = 100]. *)
Definition add_plain : chip8_t :=
  set_V (<[2%nat := 100]> (<[1%nat := 200]> (V (boot [0x81; 0x24]))))
        (boot [0x81; 0x24]).

(** *** The display as a grid

    Cell [(x, y)], [0 <= x < 64] and [0 <= y < 32], is [display[y*64 + x]]. *)

Definition cell (x y : Z) : nat := Z.to_nat (y * 64 + x).

(** [d'] is [d] with every cell XOR-ed with [mask]. *)
Definition xored (mask : Z -> Z -> bool) (d d' : list bool) : Prop :=
  forall x y, 0 <= x < 64 -> 0 <= y < 32 ->
    d' !! cell x y = (fun p => xorb p (mask x y)) <$> d !! cell x y.

(** Some cell under [mask] is on in [d]. *)
Definition hits (mask : Z -> Z -> bool) (d : list bool) : Prop :=
  exists x y, 0 <= x < 64 /\ 0 <= y < 32 /\
    mask x y = true /\ d !! cell x y = Some true.

(** The register file after the collision test: [V[0xF] = 1] if [b]. *)
Definition flagged (b : bool) (v : list Z) : list Z :=
  if b then <[15%nat := 1]> v else v.

(** [c] after drawing: the display is [d'] and the collision flag is raised
    if [b]; nothing else differs. *)
Definition drawn (d' : list bool) (b : bool) (c : chip8_t) : chip8_t :=
  set_V (flagged b (V c)) (set_display d' c).

(** The mask of the one cell [(X, Y)], if [b]. *)
Definition single (X Y : Z) (b : bool) (x y : Z) : bool :=
  (x =? X) && (y =? Y) && b.

(** The cells the column loop XORs, started with [n] columns left at
    [(X, Y)] on the row byte [s]. *)
Definition colmask (n : nat) (s X Y x y : Z) : bool :=
  (y =? Y) && (X <=? x) && (x <? X + Z.of_nat n) &&
  Z.testbit s (Z.of_nat n - 1 - (x - X)).

(** The sprite of [rows] bytes at [mem[base..]] laid at [(x0, y0)]: is the
    bit over cell [(x, y)] set?  Bit 7 of a row byte is its leftmost pixel. *)
Definition sprite_on (mem : list Z) (base x0 y0 rows x y : Z) : bool :=
  (y0 <=? y) && (y <? y0 + rows) && (x0 <=? x) && (x <? x0 + 8) &&
  Z.testbit (default 0 (mem !! Z.to_nat (base + (y - y0)))) (7 - (x - x0)).

(** The machine after the first [n] instructions of the ROM [rom] (the ROM
    as loaded if they do not all run). *)
Definition run (n : nat) (rom : list Z) : chip8_t :=
  match emulate_many n (boot rom) set_config (fun _ => 0) with
  | Done c => c
  | OutOfBounds _ _ => boot rom
  end.

(** 603F 6100 A20A D011 D011 then the sprite byte [0x01] at [0x20A]: the sprite is
    drawn twice at (63, 0), where only its leftmost column is on screen. *)
Definition rom_clipped : list Z :=
  [0x60; 0x3F; 0x61; 0x00; 0xA2; 0x0A; 0xD0; 0x11; 0xD0; 0x11; 0x01].

(** A208 D001 D001 D001 then the sprite byte [0x80] at [0x208]: the second
    and third draws are two draws in a row on a screen whose cell (0, 0) is
    on. *)
Definition rom_lit : list Z :=
  [0xA2; 0x08; 0xD0; 0x01; 0xD0; 0x01; 0xD0; 0x01; 0x80].

(** 6005 6103 A20A D013 D013 then a 3-row sprite at [0x20A], drawn twice at
    (5, 3) on a blank screen. *)
Definition rom_twice : list Z :=
  [0x60; 0x05; 0x61; 0x03; 0xA2; 0x0A; 0xD0; 0x13; 0xD0; 0x13; 0x3C; 0x42; 0x81].

(** What two instructions in a row leave in [V[0xF]], with the opcode and
    the registers [V[x]], [V[y]] and [I] found in between. *)
Definition two_steps (x y : nat) (c : chip8_t) :=
  let* c1 := emulate_chip8 c set_config 0 in
  let* c2 := emulate_chip8 c1 set_config 0 in
  Done (fetch_opcode c1, V c1 !! x, V c1 !! y, I c1, V c2 !! 15%nat).

(** 600B 6116 6221 A300 F255 F265: three registers saved at [0x300] and
    reloaded. *)
Definition rom_save_load : list Z :=
  [0x60; 0x0B; 0x61; 0x16; 0x62; 0x21; 0xA3; 0x00; 0xF2; 0x55; 0xF2; 0x65].

(** 600B 6116 6221 A300 F255 6000 6100 6200 F265: three registers saved at
    [0x300], overwritten with 0, and reloaded. *)
Definition rom_save_clobber_load : list Z :=
  [0x60; 0x0B; 0x61; 0x16; 0x62; 0x21; 0xA3; 0x00; 0xF2; 0x55;
   0x60; 0x00; 0x61; 0x00; 0x62; 0x00; 0xF2; 0x65].

(** 2200 at [0x200]: a subroutine that calls itself. *)
Definition rom_call_self : list Z := [0x22; 0x00].

(** 00EE at [0x200]: a return with nothing on the stack. *)
Definition rom_return : list Z := [0x00; 0xEE].

(** 2204 0000 00EE: a call of the subroutine at [0x204], which returns. *)
Definition rom_call_return : list Z := [0x22; 0x04; 0x00; 0x00; 0x00; 0xEE].

(** F50A at [0x200]: wait for a key, into [V5]. *)
Definition rom_wait_key : list Z := [0xF5; 0x0A].

(** The opcode fetched after one instruction. *)
Definition next_opcode (c : chip8_t) : result Z :=
  let* c1 := emulate_chip8 c set_config 0 in fetch_opcode c1.

(** The accesses outside an array that one instruction can make, for a
    machine with index register [I0] and stack pointer [sp]: a memory access
    at one of [I0 .. I0 + 15], or a stack access at [sp] or [sp - 1]. *)
Definition may_fault (I0 sp : Z) (arr : array_id) (a : Z) : Prop :=
  (arr = Ram /\ ~ (0 <= a < 4096) /\ I0 <= a <= I0 + 15) \/
  (arr = Stack /\ ~ (0 <= a < 12) /\ (a = sp \/ a = sp - 1)).

(** The result is a machine whose arrays have their sizes, or one of the
    accesses of [may_fault]. *)
Definition safe (I0 sp : Z) (r : result chip8_t) : Prop :=
  match r with
  | Done c' => wf c'
  | OutOfBounds arr a => may_fault I0 sp arr a
  end.

(** [c] with the registers [V[x] = a] and [V[y] = b]. *)
Definition with_VxVy (x : nat) (a : Z) (y : nat) (b : Z) (c : chip8_t) : chip8_t :=
  set_V (<[y := b]> (<[x := a]> (V c))) c.

(** 00E0 D015: clear the screen, then draw the glyph of the digit 0 (the
    font bytes at [I = 0]) at (0, 0). *)
Definition rom_clear_draw : list Z := [0x00; 0xE0; 0xD0; 0x15].

(** D010: a draw of no rows. *)
Definition rom_draw_nothing : list Z := [0xD0; 0x10].

(** E59E at [0x200] with [V5 = 0x13] and key 3 down. *)
Definition key3_down : chip8_t :=
  set_keypad (<[3%nat := true]> (keypad (boot [0xE5; 0x9E])))
    (set_V (<[5%nat := 0x13]> (V (boot [0xE5; 0x9E]))) (boot [0xE5; 0x9E])).

(** *** Rendering *)

(** The rectangles filled by a list of SDL calls, each with the colour it is
    filled with: the one of the last [SDL_SetRenderDrawColor] before it
    ([col] if there is none). *)
Fixpoint fills_from (col : Z * Z * Z * Z) (calls : list sdl_call)
  : list (SDL_Rect * (Z * Z * Z * Z)) :=
  match calls with
  | [] => []
  | SDL_SetRenderDrawColor r g b a :: rest => fills_from (r, g, b, a) rest
  | SDL_RenderFillRect rect :: rest => (rect, col) :: fills_from col rest
  | _ :: rest => fills_from col rest
  end.

Definition fills (calls : list sdl_call) : list (SDL_Rect * (Z * Z * Z * Z)) :=
  fills_from (0, 0, 0, 0) calls.

(** The window pixel [(wx, wy)] lies in [rect]. *)
Definition covers (rect : SDL_Rect) (wx wy : Z) : Prop :=
  rect_x rect <= wx < rect_x rect + rect_w rect /\
  rect_y rect <= wy < rect_y rect + rect_h rect.

(** The square of display cell number [i] and the colour of a cell, under
    [set_config]. *)
Definition square (i : Z) : SDL_Rect := mk_rect (20 * (i mod 64)) (20 * (i / 64)) 20 20.

Definition cell_colour (p : bool) : Z * Z * Z * Z :=
  if p then (255, 255, 255, 255) else (0, 0, 0, 255).

(** *** Input *)

(** The layout the comment above [handle_input] gives (lines 211-215):
    keys 1234 / qwer / asdf / zxcv stand for the keypad rows 123C / 456D /
    789E / A0BF. *)
Definition keypad_layout (sym : SDL_Keycode) : option nat :=
  match sym with
  | SDLK_1 => Some 0x1%nat | SDLK_2 => Some 0x2%nat
  | SDLK_3 => Some 0x3%nat | SDLK_4 => Some 0xC%nat
  | SDLK_q => Some 0x4%nat | SDLK_w => Some 0x5%nat
  | SDLK_e => Some 0x6%nat | SDLK_r => Some 0xD%nat
  | SDLK_a => Some 0x7%nat | SDLK_s => Some 0x8%nat
  | SDLK_d => Some 0x9%nat | SDLK_f => Some 0xE%nat
  | SDLK_z => Some 0xA%nat | SDLK_x => Some 0x0%nat
  | SDLK_c => Some 0xB%nat | SDLK_v => Some 0xF%nat
  | SDLK_ESCAPE | SDLK_other => None
  end.

(** The events at which [handle_input] returns. *)
Definition stops (event : SDL_Event) : bool :=
  match event with
  | SDL_QUIT | SDL_KEYDOWN SDLK_ESCAPE => true
  | _ => false
  end.

(** The pause toggle of the Escape key. *)
Definition toggle_pause (c : chip8_t) : chip8_t :=
  match state c with
  | RUNNING => set_state PAUSED c
  | _ => set_state RUNNING c
  end.

(** F50A at [0x200] with the keys 3 and 9 down. *)
Definition keys_3_9_down : chip8_t :=
  set_keypad (<[9%nat := true]> (<[3%nat := true]> (keypad (boot rom_wait_key))))
    (boot rom_wait_key).

(** 1200 at [0x200]: a jump to itself. *)
Definition rom_halt : list Z := [0x12; 0x00].

(** * Properties *)

(** Goals about concrete machines are settled by running the model. *)
Ltac conjs := repeat match goal with |- _ /\ _ => split end.
Ltac by_run :=
  vm_compute; first [reflexivity | congruence | split; congruence | lia].
Ltac wf_run := apply mk_wf; vm_compute; reflexivity.

(** The runs the examples below start from are complete runs. *)
Example runs_complete :
  emulate_many 3 (boot rom_clipped) set_config (fun _ => 0)
  = Done (run 3 rom_clipped) /\
  emulate_many 2 (boot rom_lit) set_config (fun _ => 0)
  = Done (run 2 rom_lit) /\
  emulate_many 3 (boot rom_twice) set_config (fun _ => 0)
  = Done (run 3 rom_twice) /\
  emulate_many 4 (boot rom_save_load) set_config (fun _ => 0)
  = Done (run 4 rom_save_load) /\
  emulate_many 12 (boot rom_call_self) set_config (fun _ => 0)
  = Done (run 12 rom_call_self) /\
  emulate_many 1 (boot rom_call_return) set_config (fun _ => 0)
  = Done (run 1 rom_call_return).
Proof. conjs; by_run. Qed.

(** ** Array accesses *)

Lemma load_inside {A} arr (l : list A) i :
  0 <= i < Z.of_nat (length l) ->
  exists v, l !! Z.to_nat i = Some v /\ load arr l i = Done v.
Proof.
  intros Hi. unfold load.
  destruct (Z.leb_spec 0 i); [|lia].
  destruct (lookup_lt_is_Some_2 l (Z.to_nat i)) as [v Hv]; [lia|].
  exists v. by rewrite Hv.
Qed.

Lemma load_lookup {A} arr (l : list A) i v :
  0 <= i -> l !! Z.to_nat i = Some v -> load arr l i = Done v.
Proof.
  intros Hi Hv. unfold load.
  destruct (Z.leb_spec 0 i); [|lia]. by rewrite Hv.
Qed.

Lemma load_Done_inv {A} arr (l : list A) i v :
  load arr l i = Done v ->
  0 <= i < Z.of_nat (length l) /\ l !! Z.to_nat i = Some v.
Proof.
  unfold load. destruct (Z.leb_spec 0 i); [|done].
  destruct (l !! Z.to_nat i) as [w|] eqn:E; [|done].
  intros [= ->]. apply lookup_lt_Some in E as Hlt. split; [lia|done].
Qed.

Lemma load_outside {A} arr (l : list A) i :
  ~ (0 <= i < Z.of_nat (length l)) -> load arr l i = OutOfBounds arr i.
Proof.
  intros Hi. unfold load. destruct (Z.leb_spec 0 i); [|done].
  rewrite (lookup_ge_None_2 l (Z.to_nat i)); [done|lia].
Qed.

Lemma store_inside {A} arr (l : list A) i v :
  0 <= i < Z.of_nat (length l) -> store arr l i v = Done (<[Z.to_nat i := v]> l).
Proof.
  intros Hi. unfold store.
  destruct (Z.leb_spec 0 i); [|lia].
  destruct (Z.ltb_spec i (Z.of_nat (length l))); [done|lia].
Qed.

Lemma store_outside {A} arr (l : list A) i v :
  ~ (0 <= i < Z.of_nat (length l)) -> store arr l i v = OutOfBounds arr i.
Proof.
  intros Hi. unfold store.
  destruct (Z.leb_spec 0 i); destruct (Z.ltb_spec i (Z.of_nat (length l)));
    simpl; try done; lia.
Qed.

Lemma getV_inside c x :
  length (V c) = 16%nat -> 0 <= x < 16 ->
  exists v, V c !! Z.to_nat x = Some v /\ getV c x = Done v.
Proof. intros HV Hx. apply load_inside. lia. Qed.

Lemma setV_inside c x v :
  length (V c) = 16%nat -> 0 <= x < 16 ->
  setV c x v = Done (set_V (<[Z.to_nat x := v]> (V c)) c).
Proof. intros HV Hx. unfold setV. rewrite store_inside by lia. done. Qed.

Lemma setRam_inside c a v :
  length (ram c) = 4096%nat -> 0 <= a < 4096 ->
  setRam c a v = Done (set_ram (<[Z.to_nat a := v]> (ram c)) c).
Proof. intros HR Ha. unfold setRam. rewrite store_inside by lia. done. Qed.

(** ** Decoding *)

Section decode_facts.
Variables a x y n : Z.
Hypothesis Ha : 0 <= a < 16.
Hypothesis Hx : 0 <= x < 16.
Hypothesis Hy : 0 <= y < 16.
Hypothesis Hn : 0 <= n < 16.

Lemma decode_top :
  Z.land (Z.shiftr (opcode (decode (nibbles a x y n))) 12) 0x0F = a.
Proof.
  cbn [opcode decode]. change 0x0F with (Z.ones 4).
  rewrite Z.land_ones, Z.shiftr_div_pow2 by lia. unfold nibbles.
  change (2 ^ 12) with 4096. change (2 ^ 4) with 16.
  Z.to_euclidean_division_equations. lia.
Qed.

Lemma decode_NNN : NNN (decode (nibbles a x y n)) = 256 * x + 16 * y + n.
Proof.
  cbn [NNN decode]. change 0x0FFF with (Z.ones 12).
  rewrite Z.land_ones by lia. unfold nibbles. change (2 ^ 12) with 4096.
  Z.to_euclidean_division_equations. lia.
Qed.

Lemma decode_NN : NN (decode (nibbles a x y n)) = 16 * y + n.
Proof.
  cbn [NN decode]. change 0x00FF with (Z.ones 8).
  rewrite Z.land_ones by lia. unfold nibbles. change (2 ^ 8) with 256.
  Z.to_euclidean_division_equations. lia.
Qed.

Lemma decode_N : N (decode (nibbles a x y n)) = n.
Proof.
  cbn [N decode]. change 0x000F with (Z.ones 4).
  rewrite Z.land_ones by lia. unfold nibbles. change (2 ^ 4) with 16.
  Z.to_euclidean_division_equations. lia.
Qed.

Lemma decode_X : X (decode (nibbles a x y n)) = x.
Proof.
  cbn [X decode]. rewrite Z.shiftr_land.
  change (Z.shiftr 0x0F00 8) with (Z.ones 4).
  rewrite Z.land_ones, Z.shiftr_div_pow2 by lia. unfold nibbles.
  change (2 ^ 8) with 256. change (2 ^ 4) with 16.
  Z.to_euclidean_division_equations. lia.
Qed.

Lemma decode_Y : Y (decode (nibbles a x y n)) = y.
Proof.
  cbn [Y decode]. rewrite Z.shiftr_land.
  change (Z.shiftr 0x00F0 4) with (Z.ones 4).
  rewrite Z.land_ones, Z.shiftr_div_pow2 by lia. unfold nibbles.
  change (2 ^ 4) with 16.
  Z.to_euclidean_division_equations. lia.
Qed.
End decode_facts.

Lemma emulate_fetched c cfg rnd opc :
  fetch_opcode c = Done opc ->
  emulate_chip8 c cfg rnd = execute (fetched c opc) cfg rnd.
Proof. intros H. unfold emulate_chip8. rewrite H. done. Qed.

Lemma wf_fetched c opc : wf c -> wf (fetched c opc).
Proof. intros [? ? ? ? ?]. by split. Qed.

(** ** 8XY4: addition with carry *)

Lemma inst_fetched c opc : inst (fetched c opc) = decode opc.
Proof. done. Qed.

(** C8, as stated, fails when [X] is [F]: the flag is written first and the
    sum then lands on it.  With [VF = 200] and [V0 = 100], 8F04 leaves
    [VF = 101], which is neither the carry [1] nor the sum [44]. *)
Lemma add_carry_into_VF :
  fetch_opcode add_into_VF = Done (nibbles 8 15 0 4) /\
  V add_into_VF !! 15%nat = Some 200 /\
  V add_into_VF !! 0%nat = Some 100 /\
  200 + 100 > 255 /\
  reg_after 15 (emulate_chip8 add_into_VF set_config 0) = Some 101 /\
  reg_after 15 (emulate_chip8 add_into_VF set_config 0) <> Some 1 /\
  reg_after 15 (emulate_chip8 add_into_VF set_config 0) <> Some ((200 + 100) mod 256).
Proof. conjs; by_run. Qed.

(** C8 (amended): for [X] and [Y] other than [F] and all bytes [a], [b],
    8XY4 run with [V[X] = a] and [V[Y] = b] leaves [V[F] = 1] exactly when
    [a + b > 255], and [V[X] = (a + b) mod 256]; the flag is written before
    the sum. *)
Theorem add_carry_law c cfg rnd x y a b :
  wf c -> 0 <= x < 15 -> 0 <= y < 15 ->
  fetch_opcode c = Done (nibbles 8 x y 4) ->
  V c !! Z.to_nat x = Some a -> V c !! Z.to_nat y = Some b ->
  0 <= a < 256 -> 0 <= b < 256 ->
  exists c',
    emulate_chip8 c cfg rnd = Done c' /\
    V c' = <[Z.to_nat x := (a + b) mod 256]>
             (<[15%nat := Z.b2z (a + b >? 255)]> (V c)) /\
    (V c' !! 15%nat = Some 1 <-> a + b > 255) /\
    V c' !! Z.to_nat x = Some ((a + b) mod 256).
Proof.
  intros Hwf Hx Hy Hf Ha Hb Hra Hrb.
  rewrite (emulate_fetched _ _ _ _ Hf).
  unfold execute. rewrite inst_fetched, decode_top by lia.
  unfold execute_alu. rewrite inst_fetched, decode_N, decode_X, decode_Y by lia.
  set (c1 := fetched c _).
  assert (HV : length (V c1) = 16%nat) by apply Hwf.
  unfold getV at 1 2.
  rewrite (load_lookup _ _ _ _ (proj1 Hy) Hb), (load_lookup _ _ _ _ (proj1 Hx) Ha).
  cbn [bind]. rewrite setV_inside by (done || lia). cbn [bind].
  set (c2 := set_V _ c1).
  assert (Ha2 : V c2 !! Z.to_nat x = Some a).
  { cbn. by rewrite list_lookup_insert_ne by lia. }
  assert (Hb2 : V c2 !! Z.to_nat y = Some b).
  { cbn. by rewrite list_lookup_insert_ne by lia. }
  unfold getV.
  rewrite (load_lookup _ _ _ _ (proj1 Hx) Ha2), (load_lookup _ _ _ _ (proj1 Hy) Hb2).
  cbn [bind]. rewrite setV_inside; [|cbn; rewrite length_insert; apply Hwf|lia].
  eexists. split; [done|].
  assert (Hfl : (b >? 255 - a) = (a + b >? 255)).
  { destruct (Z.gtb_spec b (255 - a)), (Z.gtb_spec (a + b) 255); done || lia. }
  cbn [V set_V c2 c1 fetched set_inst set_PC]. rewrite Hfl.
  split; [done|]. split.
  - rewrite list_lookup_insert_ne by lia.
    rewrite list_lookup_insert_eq by (destruct Hwf; lia).
    destruct (Z.gtb_spec (a + b) 255); cbn; split; intros; try done; try lia.
  - rewrite list_lookup_insert_eq; [done|]. rewrite length_insert. destruct Hwf; lia.
Qed.

(** An instance: 8124 with [V1 = 200] and [V2 = 100]. *)
Lemma add_carry_law_witness :
  exists c',
    emulate_chip8 add_plain set_config 0 = Done c' /\
    V c' = <[Z.to_nat 1 := (200 + 100) mod 256]>
             (<[15%nat := Z.b2z (200 + 100 >? 255)]> (V add_plain)) /\
    (V c' !! 15%nat = Some 1 <-> 200 + 100 > 255) /\
    V c' !! Z.to_nat 1 = Some ((200 + 100) mod 256).
Proof.
  apply (add_carry_law add_plain set_config 0 1 2 200 100);
    first [ wf_run | lia | by_run ].
Defined.

(** ** 3XNN / 4XNN and 5XY0 / 9XY0: the conditional skips *)

Lemma skip_moves_PC pc : (pc + 2) mod 65536 <> pc.
Proof. Z.to_euclidean_division_equations. lia. Qed.

Section skips.
Variables (c : chip8_t) (cfg : config_t) (rnd : Z) (x y n : Z).
Hypothesis Hwf : wf c.
Hypothesis Hx : 0 <= x < 16.
Hypothesis Hy : 0 <= y < 16.
Hypothesis Hn : 0 <= n < 16.

(** The machine after the fetch of the opcode [a x y n]: [c] is the
    machine with [PC] already advanced, shared by the runs compared. *)
Let at_op (a : Z) : chip8_t := set_inst (decode (nibbles a x y n)) c.
Let skipped (a : Z) : chip8_t := set_PC ((PC c + 2) mod 65536) (at_op a).

Lemma skip_eq_imm vx :
  V c !! Z.to_nat x = Some vx ->
  execute (at_op 3) cfg rnd
    = if vx =? 16 * y + n then Done (skipped 3) else Done (at_op 3).
Proof.
  intros Hvx. unfold execute. cbn [inst at_op set_inst].
  rewrite decode_top, decode_X, decode_NN by lia.
  unfold getV. by rewrite (load_lookup _ _ _ _ (proj1 Hx) Hvx).
Qed.

Lemma skip_ne_imm vx :
  V c !! Z.to_nat x = Some vx ->
  execute (at_op 4) cfg rnd
    = if vx =? 16 * y + n then Done (at_op 4) else Done (skipped 4).
Proof.
  intros Hvx. unfold execute. cbn [inst at_op set_inst].
  rewrite decode_top, decode_X, decode_NN by lia.
  unfold getV. rewrite (load_lookup _ _ _ _ (proj1 Hx) Hvx). cbn [bind].
  by destruct (vx =? 16 * y + n).
Qed.

Lemma skip_eq_reg vx vy :
  V c !! Z.to_nat x = Some vx -> V c !! Z.to_nat y = Some vy ->
  execute (at_op 5) cfg rnd
    = if vx =? vy then Done (skipped 5) else Done (at_op 5).
Proof.
  intros Hvx Hvy. unfold execute. cbn [inst at_op set_inst].
  rewrite decode_top, decode_X, decode_Y by lia.
  unfold getV.
  by rewrite (load_lookup _ _ _ _ (proj1 Hx) Hvx), (load_lookup _ _ _ _ (proj1 Hy) Hvy).
Qed.

Lemma skip_ne_reg vx vy :
  V c !! Z.to_nat x = Some vx -> V c !! Z.to_nat y = Some vy ->
  execute (at_op 9) cfg rnd
    = if vx =? vy then Done (at_op 9) else Done (skipped 9).
Proof.
  intros Hvx Hvy. unfold execute. cbn [inst at_op set_inst].
  rewrite decode_top, decode_X, decode_Y by lia.
  unfold getV.
  rewrite (load_lookup _ _ _ _ (proj1 Hx) Hvx), (load_lookup _ _ _ _ (proj1 Hy) Hvy).
  cbn [bind]. by destruct (vx =? vy).
Qed.
End skips.

(** C9: from one post-fetch machine [c] (of which only the decoded
    instruction differs between the runs), exactly one of 3XNN and 4XNN
    moves [PC] by a further 2 and the other leaves [PC] where the fetch put
    it; each result is the machine it started from with at most [PC]
    replaced.  The same holds of 5XY0 and 9XY0. *)
Theorem skips_are_complements c cfg rnd x y n :
  wf c -> 0 <= x < 16 -> 0 <= y < 16 -> 0 <= n < 16 ->
  let at_op a n := set_inst (decode (nibbles a x y n)) c in
  let skipped a n := set_PC ((PC c + 2) mod 65536) (at_op a n) in
  PC (skipped 3 n) <> PC (at_op 3 n) /\
  (execute (at_op 3 n) cfg rnd = Done (skipped 3 n) /\
   execute (at_op 4 n) cfg rnd = Done (at_op 4 n)
   \/
   execute (at_op 3 n) cfg rnd = Done (at_op 3 n) /\
   execute (at_op 4 n) cfg rnd = Done (skipped 4 n)) /\
  (execute (at_op 5 0) cfg rnd = Done (skipped 5 0) /\
   execute (at_op 9 0) cfg rnd = Done (at_op 9 0)
   \/
   execute (at_op 5 0) cfg rnd = Done (at_op 5 0) /\
   execute (at_op 9 0) cfg rnd = Done (skipped 9 0)).
Proof.
  intros Hwf Hx Hy Hn at_op skipped.
  destruct (getV_inside c x (wf_V _ Hwf) Hx) as (vx & Hvx & _).
  destruct (getV_inside c y (wf_V _ Hwf) Hy) as (vy & Hvy & _).
  split; [apply skip_moves_PC|]. split.
  - unfold at_op, skipped.
    rewrite (skip_eq_imm c cfg rnd x y n Hx Hy Hn vx Hvx).
    rewrite (skip_ne_imm c cfg rnd x y n Hx Hy Hn vx Hvx).
    destruct (vx =? 16 * y + n); [by left | by right].
  - unfold at_op, skipped.
    rewrite (skip_eq_reg c cfg rnd x y 0 Hx Hy ltac:(lia) vx vy Hvx Hvy).
    rewrite (skip_ne_reg c cfg rnd x y 0 Hx Hy ltac:(lia) vx vy Hvx Hvy).
    destruct (vx =? vy); [by left | by right].
Qed.

(** An instance: the machine after the fetch of 3107 from a fresh boot. *)
Lemma skips_are_complements_witness :
  let c := fetched (boot [0x31; 0x07]) 0x3107 in
  let at_op a n := set_inst (decode (nibbles a 1 0 n)) c in
  let skipped a n := set_PC ((PC c + 2) mod 65536) (at_op a n) in
  PC (skipped 3 7) <> PC (at_op 3 7) /\
  (execute (at_op 3 7) set_config 0 = Done (skipped 3 7) /\
   execute (at_op 4 7) set_config 0 = Done (at_op 4 7)
   \/
   execute (at_op 3 7) set_config 0 = Done (at_op 3 7) /\
   execute (at_op 4 7) set_config 0 = Done (skipped 4 7)) /\
  (execute (at_op 5 0) set_config 0 = Done (skipped 5 0) /\
   execute (at_op 9 0) set_config 0 = Done (at_op 9 0)
   \/
   execute (at_op 5 0) set_config 0 = Done (at_op 5 0) /\
   execute (at_op 9 0) set_config 0 = Done (skipped 9 0)).
Proof.
  apply (skips_are_complements (fetched (boot [0x31; 0x07]) 0x3107) set_config 0 1 0 7);
    first [ wf_run | lia ].
Defined.

(** ** CXNN: random byte under a mask *)

(** C10: CX00 stores 0 in [V[X]] whatever [rand()] returns: two runs from
    the same machine with the draws [r1] and [r2] end in the same machine. *)
Theorem rand_masked_by_zero c cfg r1 r2 x :
  wf c -> 0 <= x < 16 ->
  fetch_opcode c = Done (nibbles 0xC x 0 0) ->
  exists c',
    emulate_chip8 c cfg r1 = Done c' /\
    emulate_chip8 c cfg r2 = Done c' /\
    V c' !! Z.to_nat x = Some 0 /\
    c' = set_V (<[Z.to_nat x := 0]> (V c)) (fetched c (nibbles 0xC x 0 0)).
Proof.
  intros Hwf Hx Hf.
  rewrite !(emulate_fetched _ _ _ _ Hf).
  unfold execute. rewrite inst_fetched, decode_top, decode_X, decode_NN by lia.
  change (16 * 0 + 0) with 0. rewrite !Z.land_0_r.
  rewrite setV_inside by (apply Hwf || lia).
  eexists. repeat split.
  cbn. rewrite list_lookup_insert_eq; [done|]. destruct Hwf; lia.
Qed.

(** An instance: C300 run with the draws 17 and 200. *)
Lemma rand_masked_by_zero_witness :
  exists c',
    emulate_chip8 (boot [0xC3; 0x00]) set_config 17 = Done c' /\
    emulate_chip8 (boot [0xC3; 0x00]) set_config 200 = Done c' /\
    V c' !! Z.to_nat 3 = Some 0 /\
    c' = set_V (<[Z.to_nat 3 := 0]> (V (boot [0xC3; 0x00])))
               (fetched (boot [0xC3; 0x00]) (nibbles 0xC 3 0 0)).
Proof.
  apply (rand_masked_by_zero (boot [0xC3; 0x00]) set_config 17 200 3);
    first [ wf_run | lia | by_run ].
Defined.

(** With another mask the draw shows: CXFF with the draws 17 and 200. *)
Example rand_shows_through_mask :
  reg_after 3 (emulate_chip8 (boot [0xC3; 0xFF]) set_config 17) = Some 17 /\
  reg_after 3 (emulate_chip8 (boot [0xC3; 0xFF]) set_config 200) = Some 200.
Proof. split; vm_compute; reflexivity. Qed.

(** ** FX33: binary-coded decimal *)

Lemma bcd_arith v :
  0 <= v <= 255 ->
  v / 10 / 10 = v / 100 /\
  0 <= v / 100 <= 9 /\ 0 <= v / 10 mod 10 <= 9 /\ 0 <= v mod 10 <= 9 /\
  v / 100 * 100 + v / 10 mod 10 * 10 + v mod 10 = v.
Proof. intros Hv. Z.to_euclidean_division_equations. lia. Qed.

(** C6: FX33 with [V[X]] a byte and [I + 2 < 4096] writes the hundreds, tens
    and units digits of [V[X]] to [ram[I]], [ram[I+1]], [ram[I+2]]; every
    other byte of memory, the registers and [I] are as before. *)
Theorem bcd_digits c cfg rnd x vx :
  wf c -> 0 <= x < 16 ->
  fetch_opcode c = Done (nibbles 0xF x 3 3) ->
  V c !! Z.to_nat x = Some vx -> 0 <= vx <= 255 ->
  0 <= I c -> I c + 2 < 4096 ->
  exists c',
    emulate_chip8 c cfg rnd = Done c' /\
    ram c' !! Z.to_nat (I c) = Some (vx / 100) /\
    ram c' !! Z.to_nat (I c + 1) = Some (vx / 10 mod 10) /\
    ram c' !! Z.to_nat (I c + 2) = Some (vx mod 10) /\
    (0 <= vx / 100 <= 9 /\ 0 <= vx / 10 mod 10 <= 9 /\ 0 <= vx mod 10 <= 9) /\
    vx / 100 * 100 + vx / 10 mod 10 * 10 + vx mod 10 = vx /\
    (forall a : nat,
        ~ (I c <= Z.of_nat a <= I c + 2) -> ram c' !! a = ram c !! a) /\
    V c' = V c /\ I c' = I c /\
    c' = set_ram (ram c') (fetched c (nibbles 0xF x 3 3)).
Proof.
  intros Hwf Hx Hf Hvx Hr HI0 HI2.
  destruct (bcd_arith vx Hr) as (Hh & Hd1 & Hd2 & Hd3 & Hsum).
  pose proof (wf_ram _ Hwf) as Hlen.
  rewrite (emulate_fetched _ _ _ _ Hf).
  unfold execute. rewrite inst_fetched, decode_top by lia.
  unfold execute_misc. rewrite inst_fetched, decode_NN, decode_X by lia.
  change (16 * 3 + 3) with 0x33. cbv iota.
  unfold getV. rewrite (load_lookup _ _ _ _ (proj1 Hx) Hvx). cbn [bind].
  rewrite setRam_inside by (done || cbn; lia). cbn [bind].
  rewrite setRam_inside by (cbn; rewrite ?length_insert; done || lia). cbn [bind].
  rewrite setRam_inside by (cbn; rewrite ?length_insert; done || lia).
  eexists. split; [done|]. cbn. rewrite Hh.
  repeat split; try lia.
  - rewrite list_lookup_insert_eq; [done|]. rewrite !length_insert. lia.
  - rewrite list_lookup_insert_ne by lia.
    rewrite list_lookup_insert_eq; [done|]. rewrite !length_insert. lia.
  - rewrite !list_lookup_insert_ne by lia.
    rewrite list_lookup_insert_eq; [done|]. lia.
  - intros a Ha. rewrite !list_lookup_insert_ne by lia. done.
Qed.

(** An instance: F433 with [V4 = 237] and [I = 0x300]. *)
Lemma bcd_digits_witness :
  let c := set_I 0x300 (set_V (<[4%nat := 237]> (V (boot [0xF4; 0x33])))
                              (boot [0xF4; 0x33])) in
  exists c',
    emulate_chip8 c set_config 0 = Done c' /\
    ram c' !! Z.to_nat (I c) = Some (237 / 100) /\
    ram c' !! Z.to_nat (I c + 1) = Some (237 / 10 mod 10) /\
    ram c' !! Z.to_nat (I c + 2) = Some (237 mod 10) /\
    (0 <= 237 / 100 <= 9 /\ 0 <= 237 / 10 mod 10 <= 9 /\ 0 <= 237 mod 10 <= 9) /\
    237 / 100 * 100 + 237 / 10 mod 10 * 10 + 237 mod 10 = 237 /\
    (forall a : nat,
        ~ (I c <= Z.of_nat a <= I c + 2) -> ram c' !! a = ram c !! a) /\
    V c' = V c /\ I c' = I c /\
    c' = set_ram (ram c') (fetched c (nibbles 0xF 4 3 3)).
Proof.
  intros c.
  apply (bcd_digits c set_config 0 4 237);
    first [ wf_run | lia | by_run ].
Defined.

(** ** FX55 and FX65: registers to memory and back *)

Lemma store_regs_spec n : forall i c,
  wf c -> 0 <= i -> i + Z.of_nat n <= 16 ->
  0 <= I c -> I c + i + Z.of_nat n <= 4096 ->
  exists c',
    store_regs n i c = Done c' /\
    c' = set_ram (ram c') c /\
    length (ram c') = 4096%nat /\
    (forall k, i <= k < i + Z.of_nat n ->
       ram c' !! Z.to_nat (I c + k) = V c !! Z.to_nat k) /\
    (forall a : nat,
       ~ (I c + i <= Z.of_nat a < I c + i + Z.of_nat n) ->
       ram c' !! a = ram c !! a).
Proof.
  induction n as [|n IH]; intros i c Hwf Hi Hn HI0 HI.
  - exists c. cbn. repeat split; try apply Hwf; [by destruct c | lia].
  - cbn [store_regs].
    destruct (getV_inside c i (wf_V _ Hwf)) as (v & Hv & ->); [lia|]. cbn [bind].
    rewrite setRam_inside by (apply Hwf || lia). cbn [bind].
    set (c1 := set_ram _ c).
    assert (Hwf1 : wf c1).
    { destruct Hwf. split; cbn; rewrite ?length_insert; done. }
    destruct (IH (i + 1) c1 Hwf1) as (c' & -> & Hc' & Hlen & Hin & Hout);
      [lia | lia | cbn; lia | cbn; lia |].
    exists c'. split; [done|]. split; [by rewrite Hc'|]. split; [done|].
    change (I c1) with (I c) in *. change (V c1) with (V c) in *. split.
    + intros k Hk. destruct (decide (k = i)) as [->|Hne].
      * rewrite Hout by lia. cbn. rewrite list_lookup_insert_eq; [done|].
        destruct Hwf; lia.
      * apply Hin. lia.
    + intros a Ha. rewrite Hout by lia. cbn.
      rewrite list_lookup_insert_ne by lia. done.
Qed.

Lemma load_regs_spec n : forall i c,
  wf c -> 0 <= i -> i + Z.of_nat n <= 16 ->
  0 <= I c -> I c + i + Z.of_nat n <= 4096 ->
  exists c',
    load_regs n i c = Done c' /\
    c' = set_V (V c') c /\
    length (V c') = 16%nat /\
    (forall k, i <= k < i + Z.of_nat n ->
       V c' !! Z.to_nat k = ram c !! Z.to_nat (I c + k)) /\
    (forall k : nat,
       ~ (i <= Z.of_nat k < i + Z.of_nat n) -> V c' !! k = V c !! k).
Proof.
  induction n as [|n IH]; intros i c Hwf Hi Hn HI0 HI.
  - exists c. cbn. repeat split; try apply Hwf; [by destruct c | lia].
  - cbn [load_regs].
    destruct (load_inside Ram (ram c) (I c + i)) as (v & Hv & ->);
      [destruct Hwf; lia|]. cbn [bind].
    rewrite setV_inside by (apply Hwf || lia). cbn [bind].
    set (c1 := set_V _ c).
    assert (Hwf1 : wf c1).
    { destruct Hwf. split; cbn; rewrite ?length_insert; done. }
    destruct (IH (i + 1) c1 Hwf1) as (c' & -> & Hc' & Hlen & Hin & Hout);
      [lia | lia | cbn; lia | cbn; lia |].
    exists c'. split; [done|]. split; [by rewrite Hc'|]. split; [done|].
    change (I c1) with (I c) in *. change (ram c1) with (ram c) in *. split.
    + intros k Hk. destruct (decide (k = i)) as [->|Hne].
      * rewrite Hout by lia. cbn. rewrite list_lookup_insert_eq; [done|].
        destruct Hwf; lia.
      * apply Hin. lia.
    + intros k Hk. rewrite Hout by lia. cbn.
      rewrite list_lookup_insert_ne by lia. done.
Qed.

(** FX55 from any machine with [I + X < 4096]. *)
Lemma save_registers c cfg rnd x :
  wf c -> 0 <= x < 16 -> 0 <= I c -> I c + x < 4096 ->
  fetch_opcode c = Done (nibbles 0xF x 5 5) ->
  exists c',
    emulate_chip8 c cfg rnd = Done c' /\
    c' = set_ram (ram c') (fetched c (nibbles 0xF x 5 5)) /\
    wf c' /\
    (forall k, 0 <= k <= x -> ram c' !! Z.to_nat (I c + k) = V c !! Z.to_nat k) /\
    (forall a : nat, ~ (I c <= Z.of_nat a <= I c + x) -> ram c' !! a = ram c !! a).
Proof.
  intros Hwf Hx HI0 HI Hf.
  rewrite (emulate_fetched _ _ _ _ Hf).
  unfold execute. rewrite inst_fetched, decode_top by lia.
  unfold execute_misc. rewrite inst_fetched, decode_NN, decode_X by lia.
  change (16 * 5 + 5) with 0x55. cbv iota.
  destruct (store_regs_spec (Z.to_nat (x + 1)) 0 (fetched c (nibbles 0xF x 5 5)))
    as (c' & -> & Hc' & Hlen & Hin & Hout);
    [by apply wf_fetched | lia | lia | cbn; lia | cbn; lia |].
  exists c'. split; [done|]. split; [done|]. split.
  { rewrite Hc'. destruct Hwf. split; cbn; done. }
  split.
  - intros k Hk. apply Hin. lia.
  - intros a Ha. apply Hout. cbn. lia.
Qed.

(** FX65 from any machine with [I + X < 4096]. *)
Lemma load_registers c cfg rnd x :
  wf c -> 0 <= x < 16 -> 0 <= I c -> I c + x < 4096 ->
  fetch_opcode c = Done (nibbles 0xF x 6 5) ->
  exists c',
    emulate_chip8 c cfg rnd = Done c' /\
    c' = set_V (V c') (fetched c (nibbles 0xF x 6 5)) /\
    length (V c') = 16%nat /\
    (forall k, 0 <= k <= x -> V c' !! Z.to_nat k = ram c !! Z.to_nat (I c + k)) /\
    (forall k : nat, x < Z.of_nat k -> V c' !! k = V c !! k).
Proof.
  intros Hwf Hx HI0 HI Hf.
  rewrite (emulate_fetched _ _ _ _ Hf).
  unfold execute. rewrite inst_fetched, decode_top by lia.
  unfold execute_misc. rewrite inst_fetched, decode_NN, decode_X by lia.
  change (16 * 6 + 5) with 0x65. cbv iota.
  destruct (load_regs_spec (Z.to_nat (x + 1)) 0 (fetched c (nibbles 0xF x 6 5)))
    as (c' & -> & Hc' & Hlen & Hin & Hout);
    [by apply wf_fetched | lia | lia | cbn; lia | cbn; lia |].
  exists c'. split; [done|]. split; [done|]. split; [done|]. split.
  - intros k Hk. apply Hin. lia.
  - intros k Hk. apply Hout. lia.
Qed.

(** C7: for [X] in 0..15 and [I + X < 4096], FX55 copies [V[0..X]] to
    [ram[I..I+X]] and leaves the registers and [I] alone.  FX65 run
    afterwards on that memory and [I], whatever the registers hold by then,
    reloads [V[0..X]] from [ram[I..I+X]], so they are the values FX55 saved;
    it touches neither the registers above [X] nor [I] nor memory.  When the
    registers above [X] are still the original ones, the register file is
    exactly the original one. *)
Theorem save_then_load_registers c cfg r1 r2 x :
  wf c -> 0 <= x < 16 -> 0 <= I c -> I c + x < 4096 ->
  fetch_opcode c = Done (nibbles 0xF x 5 5) ->
  exists c1,
    emulate_chip8 c cfg r1 = Done c1 /\
    (forall k, 0 <= k <= x -> ram c1 !! Z.to_nat (I c + k) = V c !! Z.to_nat k) /\
    V c1 = V c /\ I c1 = I c /\
    forall c1',
      wf c1' -> ram c1' = ram c1 -> I c1' = I c1 ->
      fetch_opcode c1' = Done (nibbles 0xF x 6 5) ->
      exists c2,
        emulate_chip8 c1' cfg r2 = Done c2 /\
        (forall k, 0 <= k <= x ->
           V c2 !! Z.to_nat k = ram c1 !! Z.to_nat (I c + k)) /\
        (forall k, 0 <= k <= x -> V c2 !! Z.to_nat k = V c !! Z.to_nat k) /\
        (forall k : nat, x < Z.of_nat k -> V c2 !! k = V c1' !! k) /\
        I c2 = I c /\ ram c2 = ram c1 /\
        ((forall k : nat, x < Z.of_nat k -> V c1' !! k = V c !! k) ->
         V c2 = V c).
Proof.
  intros Hwf Hx HI0 HI Hf.
  destruct (save_registers c cfg r1 x Hwf Hx HI0 HI Hf)
    as (c1 & -> & Hc1 & Hwf1 & Hin & _).
  assert (HV1 : V c1 = V c) by (by rewrite Hc1).
  assert (HI1 : I c1 = I c) by (by rewrite Hc1).
  exists c1. do 4 (split; [done|]). intros c1' Hwf1' Hram HI1' Hf2.
  destruct (load_registers c1' cfg r2 x Hwf1' Hx) as (c2 & -> & Hc2 & Hlen & Hld & Hup);
    [lia | lia | done |].
  rewrite Hram, HI1', HI1 in Hld.
  assert (Hback : forall k, 0 <= k <= x -> V c2 !! Z.to_nat k = V c !! Z.to_nat k).
  { intros k Hk. rewrite Hld by done. by apply Hin. }
  exists c2. split; [done|]. split; [done|]. split; [done|]. split; [done|].
  split; [rewrite Hc2; cbn; lia|]. split; [by rewrite Hc2|].
  intros Habove. apply list_eq. intros k.
  destruct (decide (Z.of_nat k <= x)) as [Hk|Hk].
  - specialize (Hback (Z.of_nat k) ltac:(lia)). by rewrite Nat2Z.id in Hback.
  - rewrite Hup by lia. apply Habove. lia.
Qed.

(** An instance: in [rom_save_clobber_load] the registers [V0..V2] are saved
    by F255, set to 0 by the next three instructions and reloaded by F265,
    which brings back [0B 16 21]. *)
Lemma save_then_load_registers_witness :
  let c := run 4 rom_save_clobber_load in
  let c1' := run 8 rom_save_clobber_load in
  (emulate_many 8 (boot rom_save_clobber_load) set_config (fun _ => 0) = Done c1' /\
   emulate_chip8 c set_config 0 = Done (run 5 rom_save_clobber_load) /\
   wf c1' /\ ram c1' = ram (run 5 rom_save_clobber_load) /\
   I c1' = I (run 5 rom_save_clobber_load) /\
   fetch_opcode c1' = Done (nibbles 0xF 2 6 5) /\
   take 3 (V c) = [0x0B; 0x16; 0x21] /\ take 3 (V c1') = [0; 0; 0] /\
   (let* c2 := emulate_chip8 c1' set_config 0 in Done (take 3 (V c2)))
   = Done [0x0B; 0x16; 0x21]) /\
  exists c1,
    emulate_chip8 c set_config 0 = Done c1 /\
    (forall k, 0 <= k <= 2 -> ram c1 !! Z.to_nat (I c + k) = V c !! Z.to_nat k) /\
    V c1 = V c /\ I c1 = I c /\
    forall c1',
      wf c1' -> ram c1' = ram c1 -> I c1' = I c1 ->
      fetch_opcode c1' = Done (nibbles 0xF 2 6 5) ->
      exists c2,
        emulate_chip8 c1' set_config 0 = Done c2 /\
        (forall k, 0 <= k <= 2 ->
           V c2 !! Z.to_nat k = ram c1 !! Z.to_nat (I c + k)) /\
        (forall k, 0 <= k <= 2 -> V c2 !! Z.to_nat k = V c !! Z.to_nat k) /\
        (forall k : nat, 2 < Z.of_nat k -> V c2 !! k = V c1' !! k) /\
        I c2 = I c /\ ram c2 = ram c1 /\
        ((forall k : nat, 2 < Z.of_nat k -> V c1' !! k = V c !! k) ->
         V c2 = V c).
Proof.
  intros c c1'. split.
  - conjs; first [ wf_run | by_run ].
  - apply (save_then_load_registers c set_config 0 0 2);
      first [ wf_run | lia | by_run ].
Defined.

(** ** DXYN: drawing a sprite *)

Ltac zbool :=
  repeat match goal with
  | |- context [Z.eqb ?a ?b] => destruct (Z.eqb_spec a b)
  | |- context [Z.leb ?a ?b] => destruct (Z.leb_spec a b)
  | |- context [Z.ltb ?a ?b] => destruct (Z.ltb_spec a b)
  end; cbn [andb orb xorb negb]; try done; try lia.

Lemma cell_inj x y x' y' :
  0 <= x < 64 -> 0 <= x' < 64 -> 0 <= y -> 0 <= y' ->
  cell x y = cell x' y' -> x = x' /\ y = y'.
Proof. unfold cell. lia. Qed.

Lemma cell_lt x y : 0 <= x < 64 -> 0 <= y < 32 -> (cell x y < 2048)%nat.
Proof. unfold cell. lia. Qed.

Lemma cell_of_index (k : nat) :
  (k < 2048)%nat ->
  exists x y, 0 <= x < 64 /\ 0 <= y < 32 /\ k = cell x y.
Proof.
  intros Hk. exists (Z.of_nat k mod 64), (Z.of_nat k / 64). unfold cell.
  split; [|split]; Z.to_euclidean_division_equations; lia.
Qed.

Lemma xored_ext m m' d d' :
  (forall x y, 0 <= x < 64 -> 0 <= y < 32 -> m x y = m' x y) ->
  xored m d d' -> xored m' d d'.
Proof. intros He H x y Hx Hy. rewrite <- He by done. by apply H. Qed.

Lemma xored_none d : xored (fun _ _ => false) d d.
Proof. intros x y _ _. destruct (d !! cell x y) as [[]|]; done. Qed.

Lemma xored_then m1 m2 d d1 d2 :
  xored m1 d d1 -> xored m2 d1 d2 ->
  xored (fun x y => xorb (m1 x y) (m2 x y)) d d2.
Proof.
  intros H1 H2 x y Hx Hy. rewrite (H2 x y), (H1 x y) by done.
  destruct (d !! cell x y) as [p|]; [|done]. cbn. by rewrite xorb_assoc.
Qed.

(** XOR-ing the same mask twice gives the display back. *)
Lemma xored_twice m d d1 d2 :
  length d = 2048%nat -> length d2 = 2048%nat ->
  xored m d d1 -> xored m d1 d2 -> d2 = d.
Proof.
  intros Hl Hl2 H1 H2. apply list_eq. intros k.
  destruct (decide (k < 2048)%nat) as [Hk|Hk].
  - destruct (cell_of_index k Hk) as (x & y & Hx & Hy & ->).
    rewrite (H2 x y), (H1 x y) by done.
    destruct (d !! cell x y) as [p|]; [|done]. cbn.
    by rewrite xorb_assoc, xorb_nilpotent, xorb_false_r.
  - rewrite !lookup_ge_None_2 by lia. done.
Qed.

Lemma hits_ext m m' d :
  (forall x y, 0 <= x < 64 -> 0 <= y < 32 -> m x y = m' x y) ->
  hits m d <-> hits m' d.
Proof.
  intros He. split; intros (x & y & Hx & Hy & Hm & Hd); exists x, y;
    (split; [done|]; split; [done|]; split; [|done]).
  - by rewrite <- He.
  - by rewrite He.
Qed.

Lemma hits_none d : ~ hits (fun _ _ => false) d.
Proof. by intros (x & y & _ & _ & ? & _). Qed.

(** Collisions of two masks drawn one after the other, when no cell is under
    both. *)
Lemma hits_split m1 m2 d d1 :
  (forall x y, 0 <= x < 64 -> 0 <= y < 32 -> m1 x y && m2 x y = false) ->
  xored m1 d d1 ->
  hits (fun x y => xorb (m1 x y) (m2 x y)) d <-> hits m1 d \/ hits m2 d1.
Proof.
  intros Hdis Hx1. split.
  - intros (x & y & Hx & Hy & Hm & Hd).
    destruct (m1 x y) eqn:E1.
    + left. by exists x, y.
    + right. exists x, y. do 2 (split; [done|]). split; [by rewrite <- Hm|].
      rewrite (Hx1 x y), Hd, E1 by done. done.
  - intros [(x & y & Hx & Hy & Hm & Hd)|(x & y & Hx & Hy & Hm & Hd)];
      exists x, y; do 2 (split; [done|]);
      specialize (Hdis x y Hx Hy); rewrite Hm in Hdis.
    + split; [|done]. rewrite andb_true_l in Hdis. by rewrite Hm, Hdis.
    + rewrite andb_true_r in Hdis. rewrite Hm, Hdis. split; [done|].
      rewrite (Hx1 x y), Hdis in Hd by done.
      destruct (d !! cell x y) as [[]|]; done.
Qed.

Lemma flagged_flagged b1 b2 v : flagged b2 (flagged b1 v) = flagged (b1 || b2) v.
Proof.
  destruct b1, b2; cbn; try done. apply list_insert_insert_eq.
Qed.

Lemma length_flagged b v : length (flagged b v) = length v.
Proof. destruct b; cbn; [apply length_insert|done]. Qed.

(** Line 668: [sprite_data & (1 << j)] read as a [bool]. *)
Lemma sprite_bit_testbit s j :
  0 <= j -> negb (Z.land s (Z.shiftl 1 j) =? 0) = Z.testbit s j.
Proof.
  intros Hj. rewrite Z.shiftl_1_l.
  destruct (Z.testbit s j) eqn:E.
  - destruct (Z.eqb_spec (Z.land s (2 ^ j)) 0) as [H0|]; [|done].
    assert (Z.testbit (Z.land s (2 ^ j)) j = true) as Hb.
    { by rewrite Z.land_spec, E, Z.pow2_bits_true. }
    rewrite H0, Z.bits_0 in Hb. done.
  - replace (Z.land s (2 ^ j)) with 0; [done|].
    symmetry. apply Z.bits_inj'. intros k Hk.
    rewrite Z.land_spec, Z.bits_0, Z.pow2_bits_eqb by done.
    destruct (Z.eqb_spec j k) as [->|]; [by rewrite E|by rewrite andb_false_r].
Qed.

Lemma xored_single d X Y p b :
  0 <= X < 64 -> 0 <= Y < 32 -> d !! cell X Y = Some p ->
  xored (single X Y b) d (<[cell X Y := xorb p b]> d).
Proof.
  intros HX HY Hp x y Hx Hy.
  destruct (decide (cell x y = cell X Y)) as [He|Hne].
  - destruct (cell_inj x y X Y) as [-> ->]; try done; try lia.
    rewrite list_lookup_insert_eq by (by eapply lookup_lt_Some).
    rewrite Hp. unfold single. by rewrite !Z.eqb_refl.
  - rewrite list_lookup_insert_ne by done.
    assert (single X Y b x y = false) as ->.
    { unfold single. zbool. by subst. }
    destruct (d !! cell x y) as [[]|]; done.
Qed.

Lemma hits_single d X Y p b :
  0 <= X < 64 -> 0 <= Y < 32 -> d !! cell X Y = Some p ->
  hits (single X Y b) d <-> b && p = true.
Proof.
  intros HX HY Hp. split.
  - intros (x & y & Hx & Hy & Hm & Hd). unfold single in Hm.
    destruct (Z.eqb_spec x X) as [->|]; [|done].
    destruct (Z.eqb_spec y Y) as [->|]; [|done].
    cbn in Hm. rewrite Hp in Hd. injection Hd as ->. by rewrite Hm.
  - intros [-> ->]%andb_true_iff. exists X, Y.
    do 2 (split; [done|]). split; [|done]. unfold single. by rewrite !Z.eqb_refl.
Qed.

Lemma colmask_none s X Y x y : colmask 0 s X Y x y = false.
Proof. unfold colmask. zbool. Qed.

Lemma colmask_step j s X Y x y :
  0 <= X < 64 -> 0 <= x < 64 ->
  colmask (S j) s X Y x y
  = xorb (single X Y (Z.testbit s (Z.of_nat j)) x y)
         (if 64 <=? X + 1 then false else colmask j s (X + 1) Y x y).
Proof.
  intros HX Hx. unfold colmask, single.
  replace (Z.of_nat (S j) - 1 - (x - X)) with (Z.of_nat j - (x - X)) by lia.
  replace (Z.of_nat j - 1 - (x - (X + 1))) with (Z.of_nat j - (x - X)) by lia.
  destruct (Z.eqb_spec y Y) as [->|]; [|by zbool].
  destruct (Z.eqb_spec x X) as [->|].
  - replace (Z.of_nat j - (X - X)) with (Z.of_nat j) by lia.
    zbool; by rewrite xorb_false_r.
  - zbool.
Qed.

Lemma drawn_drawn d1 d2 b1 b2 c :
  drawn d2 b2 (drawn d1 b1 c) = drawn d2 (b1 || b2) c.
Proof. unfold drawn. cbn. by rewrite flagged_flagged. Qed.

Lemma wf_drawn d b c : wf c -> length d = 2048%nat -> wf (drawn d b c).
Proof. intros [] Hd. split; cbn; rewrite ?length_flagged; done. Qed.

(** The column loop (lines 666-674) on row [Y] from column [X]: it always
    runs to its end, XORs the cells of [colmask] and raises [V[0xF]] exactly
    when one of them was on under a set bit. *)
Lemma draw_cols_spec s Y n : forall X c,
  wf c -> 0 <= X < 64 -> 0 <= Y < 32 ->
  exists d' b,
    draw_cols n s X Y set_config c = Done (drawn d' b c) /\
    length d' = 2048%nat /\
    xored (colmask n s X Y) (display c) d' /\
    (b = true <-> hits (colmask n s X Y) (display c)).
Proof.
  induction n as [|j IH]; intros X c Hwf HX HY.
  - exists (display c), false. cbn [draw_cols].
    split; [f_equal; by destruct c|]. split; [apply Hwf|]. split.
    + eapply xored_ext; [|apply xored_none].
      intros x y _ _. by rewrite colmask_none.
    + split; [done|]. intros H. destruct (hits_none (display c)).
      eapply hits_ext; [|exact H]. intros x y _ _. by rewrite colmask_none.
  - cbn [draw_cols]. change (window_width set_config) with 64.
    destruct (load_inside Display (display c) (Y * 64 + X)) as (p & Hp & ->);
      [destruct Hwf; lia|]. cbn [bind].
    rewrite sprite_bit_testbit by lia. set (bit := Z.testbit s (Z.of_nat j)).
    assert (Ha : (if bit && p then setV c 0xF 1 else Done c)
                 = Done (set_V (flagged (bit && p) (V c)) c)).
    { destruct (bit && p); cbn [flagged];
        [apply setV_inside; [apply Hwf|lia] | by destruct c]. }
    rewrite Ha. cbn [bind].
    rewrite store_inside by (cbn; destruct Hwf; lia). cbn [bind].
    set (d1 := <[Z.to_nat (Y * 64 + X) := xorb p bit]> (display c)).
    change (set_display _ _) with (drawn d1 (bit && p) c).
    assert (Hl1 : length d1 = 2048%nat).
    { unfold d1. rewrite length_insert. apply Hwf. }
    assert (Hx1 : xored (single X Y bit) (display c) d1).
    { apply xored_single; done. }
    assert (Hh1 : hits (single X Y bit) (display c) <-> bit && p = true).
    { apply hits_single; done. }
    replace ((X + 1) mod 256) with (X + 1) by (rewrite Z.mod_small; lia).
    rewrite Z.geb_leb.
    assert (Hmask : forall x y, 0 <= x < 64 -> 0 <= y < 32 ->
              xorb (single X Y bit x y)
                   (if 64 <=? X + 1 then false else colmask j s (X + 1) Y x y)
              = colmask (S j) s X Y x y).
    { intros x y Hx Hy. by rewrite colmask_step. }
    destruct (Z.leb_spec 64 (X + 1)) as [Hlast|Hmore].
    + exists d1, (bit && p). split; [done|]. split; [done|]. split.
      * eapply xored_ext; [exact Hmask|].
        eapply xored_then; [exact Hx1|apply xored_none].
      * rewrite <- Hh1. rewrite <- (hits_ext _ _ _ Hmask).
        rewrite (hits_split _ _ _ _ ltac:(intros; apply andb_false_r) Hx1).
        pose proof (hits_none d1). tauto.
    + destruct (IH (X + 1) (drawn d1 (bit && p) c)
                   (wf_drawn _ _ _ Hwf Hl1) ltac:(lia) HY)
        as (d' & b' & -> & Hl' & Hx' & Hb').
      exists d', (bit && p || b'). split; [by rewrite drawn_drawn|].
      split; [done|]. split.
      * eapply xored_ext; [exact Hmask|].
        eapply xored_then; [exact Hx1|exact Hx'].
      * assert (Hdis : forall x y, 0 <= x < 64 -> 0 <= y < 32 ->
                  single X Y bit x y && colmask j s (X + 1) Y x y = false).
        { intros x y Hx Hy. unfold single, colmask. zbool. }
        rewrite <- (hits_ext _ _ _ Hmask).
        rewrite (hits_split _ _ _ _ Hdis Hx1).
        rewrite orb_true_iff, Hb', Hh1. done.
Qed.

Lemma sprite_on_none mem base x0 Y x y : sprite_on mem base x0 Y 0 x y = false.
Proof. unfold sprite_on. zbool. Qed.

Lemma sprite_on_step mem base x0 Y n s x y :
  0 <= base -> mem !! Z.to_nat base = Some s ->
  0 <= Y < 32 -> 0 <= y < 32 ->
  sprite_on mem base x0 Y (Z.of_nat (S n)) x y
  = xorb (colmask 8 s x0 Y x y)
         (if 32 <=? Y + 1 then false
          else sprite_on mem (base + 1) x0 (Y + 1) (Z.of_nat n) x y).
Proof.
  intros Hb Hs HY Hy. unfold sprite_on, colmask.
  replace (Z.of_nat 8 - 1 - (x - x0)) with (7 - (x - x0)) by lia.
  replace (base + 1 + (y - (Y + 1))) with (base + (y - Y)) by lia.
  destruct (Z.eqb_spec y Y) as [->|].
  - replace (base + (Y - Y)) with base by lia. rewrite Hs. cbn [default].
    zbool; by rewrite xorb_false_r.
  - zbool.
Qed.

(** The row loop (lines 661-676) from row [Y] with [n] rows left, reading
    the sprite at [ram[I + i ..]]: it stops only at a sprite byte outside
    memory; otherwise it XORs the cells under the sprite down to row 31 and
    raises [V[0xF]] exactly when one of them was on under a set bit. *)
Lemma draw_rows_spec x0 n : forall i Y c,
  wf c -> 0 <= x0 < 64 -> 0 <= Y < 32 ->
  match draw_rows n i x0 Y set_config c with
  | Done c' =>
    exists d' b,
      c' = drawn d' b c /\ length d' = 2048%nat /\
      xored (sprite_on (ram c) (I c + i) x0 Y (Z.of_nat n)) (display c) d' /\
      (b = true <->
       hits (sprite_on (ram c) (I c + i) x0 Y (Z.of_nat n)) (display c))
  | OutOfBounds arr a =>
    arr = Ram /\ I c + i <= a < I c + i + Z.of_nat n /\ ~ (0 <= a < 4096)
  end.
Proof.
  induction n as [|n IH]; intros i Y c Hwf Hx0 HY.
  - cbn [draw_rows]. exists (display c), false.
    split; [by destruct c|]. split; [apply Hwf|]. split.
    + eapply xored_ext; [|apply xored_none].
      intros x y _ _. by rewrite sprite_on_none.
    + split; [done|]. intros H. destruct (hits_none (display c)).
      eapply hits_ext; [|exact H]. intros x y _ _. by rewrite sprite_on_none.
  - cbn [draw_rows].
    destruct (decide (0 <= I c + i < 4096)) as [Hin|Hout]; cycle 1.
    { rewrite load_outside by (destruct Hwf; lia). cbn [bind].
      split; [done|]. split; [lia|done]. }
    destruct (load_inside Ram (ram c) (I c + i)) as (s & Hs & ->);
      [destruct Hwf; lia|]. cbn [bind].
    destruct (draw_cols_spec s Y 8 x0 c Hwf Hx0 HY)
      as (d1 & b1 & -> & Hl1 & Hx1 & Hb1). cbn [bind].
    replace ((Y + 1) mod 256) with (Y + 1) by (rewrite Z.mod_small; lia).
    change (window_height set_config) with 32. rewrite Z.geb_leb.
    assert (Hmask : forall x y, 0 <= x < 64 -> 0 <= y < 32 ->
              xorb (colmask 8 s x0 Y x y)
                   (if 32 <=? Y + 1 then false
                    else sprite_on (ram c) (I c + i + 1) x0 (Y + 1) (Z.of_nat n) x y)
              = sprite_on (ram c) (I c + i) x0 Y (Z.of_nat (S n)) x y).
    { intros x y Hx Hy. rewrite (sprite_on_step _ _ _ _ _ s); done || lia. }
    destruct (Z.leb_spec 32 (Y + 1)) as [Hlast|Hmore].
    + exists d1, b1. split; [done|]. split; [done|]. split.
      * eapply xored_ext; [exact Hmask|].
        eapply xored_then; [exact Hx1|apply xored_none].
      * rewrite Hb1. rewrite <- (hits_ext _ _ _ Hmask).
        rewrite (hits_split _ _ _ _ ltac:(intros; apply andb_false_r) Hx1).
        pose proof (hits_none d1). tauto.
    + specialize (IH (i + 1) (Y + 1) (drawn d1 b1 c)
                     (wf_drawn _ _ _ Hwf Hl1) Hx0 ltac:(lia)).
      destruct (draw_rows n (i + 1) x0 (Y + 1) set_config (drawn d1 b1 c))
        as [c'|arr a].
      * destruct IH as (d' & b' & -> & Hl' & Hx' & Hb').
        change (ram (drawn d1 b1 c)) with (ram c) in *.
        change (I (drawn d1 b1 c)) with (I c) in *.
        change (display (drawn d1 b1 c)) with d1 in *.
        replace (I c + (i + 1)) with (I c + i + 1) in * by lia.
        exists d', (b1 || b'). split; [by rewrite drawn_drawn|].
        split; [done|]. split.
        -- eapply xored_ext; [exact Hmask|].
           eapply xored_then; [exact Hx1|exact Hx'].
        -- assert (Hdis : forall x y, 0 <= x < 64 -> 0 <= y < 32 ->
                     colmask 8 s x0 Y x y
                     && sprite_on (ram c) (I c + i + 1) x0 (Y + 1) (Z.of_nat n) x y
                     = false).
           { intros x y Hx Hy. unfold sprite_on, colmask. zbool. }
           rewrite <- (hits_ext _ _ _ Hmask).
           rewrite (hits_split _ _ _ _ Hdis Hx1).
           rewrite orb_true_iff, Hb', Hb1. done.
      * change (I (drawn d1 b1 c)) with (I c) in IH.
        destruct IH as (-> & Ha & Hout). split; [done|]. split; [lia|done].
Qed.

Lemma flagged_cleared b v : flagged b (<[15%nat := 0]> v) = <[15%nat := Z.b2z b]> v.
Proof. destruct b; cbn; [apply list_insert_insert_eq|done]. Qed.

(** DXYN as a whole (lines 653-679), on the display of [set_config]. *)
Lemma draw_sprite_spec c rnd x y n vx vy :
  wf c -> 0 <= x < 16 -> 0 <= y < 16 -> 0 <= n < 16 ->
  fetch_opcode c = Done (nibbles 0xD x y n) ->
  V c !! Z.to_nat x = Some vx -> V c !! Z.to_nat y = Some vy ->
  match emulate_chip8 c set_config rnd with
  | Done c' =>
    exists d' b,
      c' = set_draw true (set_V (<[15%nat := Z.b2z b]> (V c))
             (set_display d' (fetched c (nibbles 0xD x y n)))) /\
      length d' = 2048%nat /\
      xored (sprite_on (ram c) (I c) (vx mod 64) (vy mod 32) n) (display c) d' /\
      (b = true <->
       hits (sprite_on (ram c) (I c) (vx mod 64) (vy mod 32) n) (display c))
  | OutOfBounds arr a =>
    arr = Ram /\ I c <= a < I c + n /\ ~ (0 <= a < 4096)
  end.
Proof.
  intros Hwf Hx Hy Hn Hf Hvx Hvy.
  rewrite (emulate_fetched _ _ _ _ Hf).
  unfold execute. rewrite inst_fetched, decode_top, decode_X, decode_Y, decode_N by lia.
  cbv iota. set (c0 := fetched c _).
  unfold getV.
  rewrite (load_lookup _ _ _ _ (proj1 Hx) Hvx), (load_lookup _ _ _ _ (proj1 Hy) Hvy).
  cbn [bind]. rewrite setV_inside by (apply Hwf || lia). cbn [bind].
  change (window_width set_config) with 64.
  change (window_height set_config) with 32.
  assert (Hx0 : 0 <= vx mod 64 < 64) by (apply Z.mod_pos_bound; lia).
  assert (Hy0 : 0 <= vy mod 32 < 32) by (apply Z.mod_pos_bound; lia).
  rewrite (Z.mod_small (vx mod 64) 256), (Z.mod_small (vy mod 32) 256) by lia.
  set (c1 := set_V _ c0).
  assert (Hwf1 : wf c1).
  { destruct Hwf. split; cbn; rewrite ?length_insert; done. }
  pose proof (draw_rows_spec (vx mod 64) (Z.to_nat n) 0 (vy mod 32) c1 Hwf1 Hx0 Hy0)
    as Hrows.
  rewrite Z2Nat.id in Hrows by lia.
  change (I c1) with (I c) in Hrows. change (ram c1) with (ram c) in Hrows.
  change (display c1) with (display c) in Hrows.
  rewrite Z.add_0_r in Hrows.
  destruct (draw_rows _ _ _ _ _ c1) as [c'|arr a]; cbn [bind]; [|done].
  destruct Hrows as (d' & b & -> & Hl & Hxor & Hb).
  exists d', b. split; [|done].
  unfold drawn. cbn. by rewrite flagged_cleared.
Qed.

Lemma sprite_on_inside mem base x0 y0 rows x y :
  sprite_on mem base x0 y0 rows x y = true ->
  x0 <= x < x0 + 8 /\ y0 <= y < y0 + rows.
Proof.
  unfold sprite_on. rewrite !andb_true_iff.
  intros ((((?%Z.leb_le & ?%Z.ltb_lt) & ?%Z.leb_le) & ?%Z.ltb_lt) & _). lia.
Qed.

(** C4: a DXYN draw never touches [display] outside its 2048 cells, and the
    only cells [(px, py)] of the 64x32 grid it can change lie at or right of
    [x0 = V[X] mod 64] and at or below [y0 = V[Y] mod 32] (and within the
    sprite's 8 columns and [N] rows); what would pass column 63 or row 31 is
    dropped, not wrapped.  The draw completes when the sprite's [N] bytes
    lie in memory. *)
Theorem draw_clips c rnd x y n vx vy :
  wf c -> 0 <= x < 16 -> 0 <= y < 16 -> 0 <= n < 16 ->
  fetch_opcode c = Done (nibbles 0xD x y n) ->
  V c !! Z.to_nat x = Some vx -> V c !! Z.to_nat y = Some vy ->
  (forall a, emulate_chip8 c set_config rnd <> OutOfBounds Display a) /\
  (forall c', emulate_chip8 c set_config rnd = Done c' ->
     length (display c') = 2048%nat /\
     forall px py, 0 <= px < 64 -> 0 <= py < 32 ->
       display c' !! cell px py <> display c !! cell px py ->
       vx mod 64 <= px <= 63 /\ vy mod 32 <= py <= 31 /\
       px < vx mod 64 + 8 /\ py < vy mod 32 + n) /\
  (0 <= I c -> I c + n <= 4096 ->
   exists c', emulate_chip8 c set_config rnd = Done c').
Proof.
  intros Hwf Hx Hy Hn Hf Hvx Hvy.
  pose proof (draw_sprite_spec c rnd x y n vx vy Hwf Hx Hy Hn Hf Hvx Hvy) as Hs.
  destruct (emulate_chip8 c set_config rnd) as [c1|arr a].
  - destruct Hs as (d' & b & -> & Hl & Hxor & _).
    split; [done|]. split; [|by eauto].
    intros c' [= <-]. split; [done|]. intros px py Hpx Hpy Hne.
    cbn [display set_draw set_V set_display] in Hne.
    rewrite (Hxor px py Hpx Hpy) in Hne.
    destruct (sprite_on (ram c) (I c) (vx mod 64) (vy mod 32) n px py) eqn:E.
    + apply sprite_on_inside in E. lia.
    + destruct Hne. destruct (display c !! cell px py) as [[]|]; done.
  - destruct Hs as (-> & Ha & Hout).
    split; [done|]. split; [done|]. intros HI0 HI. lia.
Qed.

(** C5, as stated, fails on the flag.  Drawn twice, a sprite whose set bits
    are all clipped (byte [0x01] at column 63 of a blank screen) collides
    with nothing, and a sprite drawn over cells that were on ([0x80] at
    (0, 0), on) turns them off and then on again: in both runs the second
    draw leaves [V[0xF] = 0]. *)
Lemma second_draw_without_collision :
  (fetch_opcode (run 3 rom_clipped) = Done (nibbles 0xD 0 1 1) /\
   V (run 3 rom_clipped) !! 0%nat = Some 63 /\
   V (run 3 rom_clipped) !! 1%nat = Some 0 /\
   ram (run 3 rom_clipped) !! Z.to_nat (I (run 3 rom_clipped)) = Some 0x01 /\
   display (run 3 rom_clipped) = replicate 2048 false /\
   two_steps 0 1 (run 3 rom_clipped)
   = Done (Done (nibbles 0xD 0 1 1), Some 63, Some 0,
           I (run 3 rom_clipped), Some 0)) /\
  (fetch_opcode (run 2 rom_lit) = Done (nibbles 0xD 0 0 1) /\
   V (run 2 rom_lit) !! 0%nat = Some 0 /\
   ram (run 2 rom_lit) !! Z.to_nat (I (run 2 rom_lit)) = Some 0x80 /\
   display (run 2 rom_lit) !! cell 0 0 = Some true /\
   two_steps 0 0 (run 2 rom_lit)
   = Done (Done (nibbles 0xD 0 0 1), Some 0, Some 0,
           I (run 2 rom_lit), Some 0)).
Proof. conjs; by_run. Qed.

(** C5 (amended): when the sprite's [N] bytes lie in memory, the first DXYN
    completes; if the same DXYN is fetched next with [V[X]] and [V[Y]] as
    before, the second draw completes and the display is again what it was
    before the first draw, and it leaves [V[F] = 1] exactly when some set
    sprite bit that falls on the screen lies over a cell that was off before
    the first draw (otherwise [V[F] = 0]). *)
Theorem draw_twice_restores c r1 r2 x y n vx vy :
  wf c -> 0 <= x < 16 -> 0 <= y < 16 -> 0 <= n < 16 ->
  fetch_opcode c = Done (nibbles 0xD x y n) ->
  V c !! Z.to_nat x = Some vx -> V c !! Z.to_nat y = Some vy ->
  0 <= I c -> I c + n <= 4096 ->
  exists c1,
    emulate_chip8 c set_config r1 = Done c1 /\ I c1 = I c /\
    (fetch_opcode c1 = Done (nibbles 0xD x y n) ->
     V c1 !! Z.to_nat x = Some vx -> V c1 !! Z.to_nat y = Some vy ->
     exists c2 (b : bool),
       emulate_chip8 c1 set_config r2 = Done c2 /\
       display c2 = display c /\
       V c2 !! 15%nat = Some (Z.b2z b) /\
       (b = true <->
        exists px py, 0 <= px < 64 /\ 0 <= py < 32 /\
          sprite_on (ram c) (I c) (vx mod 64) (vy mod 32) n px py = true /\
          display c !! cell px py = Some false)).
Proof.
  intros Hwf Hx Hy Hn Hf Hvx Hvy HI0 HI.
  pose proof (draw_sprite_spec c r1 x y n vx vy Hwf Hx Hy Hn Hf Hvx Hvy) as Hs.
  destruct (emulate_chip8 c set_config r1) as [c1|arr a]; [|lia].
  destruct Hs as (d1 & b1 & Hc1 & Hl1 & Hxor1 & _).
  exists c1. split; [done|]. split; [by rewrite Hc1|].
  intros Hf1 Hvx1 Hvy1.
  assert (Hwf1 : wf c1).
  { rewrite Hc1. destruct Hwf. split; cbn; rewrite ?length_insert; done. }
  pose proof (draw_sprite_spec c1 r2 x y n vx vy Hwf1 Hx Hy Hn Hf1 Hvx1 Hvy1) as Hs.
  assert (Hram : ram c1 = ram c) by (by rewrite Hc1).
  assert (HI1 : I c1 = I c) by (by rewrite Hc1).
  assert (Hd1 : display c1 = d1) by (by rewrite Hc1).
  rewrite Hram, HI1, Hd1 in Hs.
  destruct (emulate_chip8 c1 set_config r2) as [c2|arr a]; [|lia].
  destruct Hs as (d2 & b2 & Hc2 & Hl2 & Hxor2 & Hb2).
  exists c2, b2. split; [done|].
  assert (Hd2 : display c2 = d2) by (by rewrite Hc2).
  split; [|split].
  - rewrite Hd2. eapply xored_twice; [apply Hwf|done|exact Hxor1|exact Hxor2].
  - rewrite Hc2. cbn. apply list_lookup_insert_eq. destruct Hwf1; lia.
  - rewrite Hb2. split.
    + intros (px & py & Hpx & Hpy & Hm & Hon). exists px, py.
      do 3 (split; [done|]).
      rewrite (Hxor1 px py Hpx Hpy), Hm in Hon.
      destruct (display c !! cell px py) as [[]|]; done.
    + intros (px & py & Hpx & Hpy & Hm & Hoff). exists px, py.
      do 3 (split; [done|]).
      by rewrite (Hxor1 px py Hpx Hpy), Hm, Hoff.
Qed.

(** An instance: the two draws of [rom_twice]; the registers are as before
    in between and the second draw ends with [V[0xF] = 1]. *)
Lemma draw_twice_restores_witness :
  let c := run 3 rom_twice in
  two_steps 0 1 c = Done (Done (nibbles 0xD 0 1 3), Some 5, Some 3, I c, Some 1) /\
  exists c1,
    emulate_chip8 c set_config 0 = Done c1 /\ I c1 = I c /\
    (fetch_opcode c1 = Done (nibbles 0xD 0 1 3) ->
     V c1 !! Z.to_nat 0 = Some 5 -> V c1 !! Z.to_nat 1 = Some 3 ->
     exists c2 (b : bool),
       emulate_chip8 c1 set_config 0 = Done c2 /\
       display c2 = display c /\
       V c2 !! 15%nat = Some (Z.b2z b) /\
       (b = true <->
        exists px py, 0 <= px < 64 /\ 0 <= py < 32 /\
          sprite_on (ram c) (I c) (5 mod 64) (3 mod 32) 3 px py = true /\
          display c !! cell px py = Some false)).
Proof.
  intros c. split; [by_run|].
  apply (draw_twice_restores c 0 0 0 1 3 5 3); first [ wf_run | lia | by_run ].
Defined.

(** An instance: the sprite of [rom_clipped] at column 63. *)
Lemma draw_clips_witness :
  let c := run 3 rom_clipped in
  (forall a, emulate_chip8 c set_config 0 <> OutOfBounds Display a) /\
  (forall c', emulate_chip8 c set_config 0 = Done c' ->
     length (display c') = 2048%nat /\
     forall px py, 0 <= px < 64 -> 0 <= py < 32 ->
       display c' !! cell px py <> display c !! cell px py ->
       63 mod 64 <= px <= 63 /\ 0 mod 32 <= py <= 31 /\
       px < 63 mod 64 + 8 /\ py < 0 mod 32 + 1) /\
  (0 <= I c -> I c + 1 <= 4096 ->
   exists c', emulate_chip8 c set_config 0 = Done c').
Proof.
  intros c.
  apply (draw_clips c 0 0 1 1 63 0); first [ wf_run | lia | by_run ].
Defined.

(** ** 2NNN and 00EE: the subroutine stack *)

(** C2, as stated, fails: the code has no bounds check and no error result.
    After twelve nested calls the thirteenth 2NNN stores at [stack[12]],
    past the array, and 00EE on an empty stack loads [stack[-1]]. *)
Lemma stack_bounds_unchecked :
  (stack_ptr (run 12 rom_call_self) = 12 /\
   fetch_opcode (run 12 rom_call_self) = Done (nibbles 2 2 0 0) /\
   emulate_chip8 (run 12 rom_call_self) set_config 0 = OutOfBounds Stack 12) /\
  (stack_ptr (boot rom_return) = 0 /\
   fetch_opcode (boot rom_return) = Done (nibbles 0 0 0xE 0xE) /\
   emulate_chip8 (boot rom_return) set_config 0 = OutOfBounds Stack (-1)).
Proof. conjs; by_run. Qed.

(** C2 (amended): 2NNN with fewer than 12 return addresses on the stack
    pushes the current [PC] (already past the instruction) and sets [PC] to
    [NNN]; 00EE with a non-empty stack pops the top entry into [PC].  There
    is no StackOverflow or StackUnderflow result: with 12 entries 2NNN
    stores at [stack[12]] and with none 00EE loads [stack[-1]], both outside
    the array. *)
Theorem call_and_return c cfg rnd x y n :
  wf c -> 0 <= x < 16 -> 0 <= y < 16 -> 0 <= n < 16 ->
  (fetch_opcode c = Done (nibbles 2 x y n) ->
   let c0 := fetched c (nibbles 2 x y n) in
   (0 <= stack_ptr c < 12 ->
    emulate_chip8 c cfg rnd
    = Done (set_PC (256 * x + 16 * y + n)
             (set_stack_ptr (stack_ptr c + 1)
               (set_stack (<[Z.to_nat (stack_ptr c) := PC c0]> (stack c)) c0))) /\
    PC c0 = (PC c + 2) mod 65536) /\
   (stack_ptr c = 12 -> emulate_chip8 c cfg rnd = OutOfBounds Stack 12)) /\
  (fetch_opcode c = Done (nibbles 0 0 0xE 0xE) ->
   let c0 := fetched c (nibbles 0 0 0xE 0xE) in
   (0 < stack_ptr c <= 12 ->
    exists a,
      stack c !! Z.to_nat (stack_ptr c - 1) = Some a /\
      emulate_chip8 c cfg rnd
      = Done (set_PC a (set_stack_ptr (stack_ptr c - 1) c0))) /\
   (stack_ptr c = 0 -> emulate_chip8 c cfg rnd = OutOfBounds Stack (-1))).
Proof.
  intros Hwf Hx Hy Hn. pose proof (wf_stack _ Hwf) as Hlen. split.
  - intros Hf. cbv zeta. rewrite (emulate_fetched _ _ _ _ Hf).
    unfold execute. rewrite inst_fetched, decode_top, decode_NNN by lia.
    cbv iota. cbn [stack stack_ptr PC fetched set_inst set_PC].
    split.
    + intros Hsp. rewrite store_inside by lia. done.
    + intros Hsp. rewrite store_outside by lia. by rewrite Hsp.
  - intros Hf. cbv zeta. rewrite (emulate_fetched _ _ _ _ Hf).
    unfold execute. rewrite inst_fetched, decode_top, decode_NN by lia.
    cbv iota.
    change (16 * 0xE + 0xE =? 0xE0) with false.
    change (16 * 0xE + 0xE =? 0xEE) with true. cbv iota.
    cbn [stack stack_ptr set_stack_ptr fetched set_inst set_PC].
    split.
    + intros Hsp.
      destruct (load_inside Stack (stack c) (stack_ptr c - 1)) as (a & Ha & ->);
        [lia|]. exists a. done.
    + intros Hsp. rewrite load_outside by lia. by rewrite Hsp.
Qed.

(** An instance: the call in [rom_call_return] pushes [0x202] and jumps to
    [0x204]; the return there pops it. *)
Lemma call_and_return_witness :
  emulate_chip8 (boot rom_call_return) set_config 0
  = Done (run 1 rom_call_return) /\
  PC (run 1 rom_call_return) = 0x204 /\
  stack_ptr (run 1 rom_call_return) = 1 /\
  stack (run 1 rom_call_return) !! 0%nat = Some 0x202 /\
  exists a,
    stack (run 1 rom_call_return) !! Z.to_nat (stack_ptr (run 1 rom_call_return) - 1)
    = Some a /\
    emulate_chip8 (run 1 rom_call_return) set_config 0
    = Done (set_PC a (set_stack_ptr (stack_ptr (run 1 rom_call_return) - 1)
                        (fetched (run 1 rom_call_return) (nibbles 0 0 0xE 0xE)))).
Proof.
  do 4 (split; [vm_compute; reflexivity|]).
  refine (proj1 (proj2 (call_and_return (run 1 rom_call_return) set_config 0
                          0 0 0 _ _ _ _) _) _);
    first [ wf_run | lia | by_run ].
Defined.

(** ** init_chip8: loading the ROM *)

(** C3, as stated, fails for the empty image: [fread] of one item of size 0
    returns 0, which the loader takes for a read failure. *)
Lemma empty_rom_not_loaded :
  Z.of_nat (length (@nil Z)) <= 4096 - 512 /\
  snd (init_chip8 zero_chip8 String.EmptyString (Some [])) = RomReadFailed /\
  snd (init_chip8 zero_chip8 String.EmptyString (Some [])) <> InitOk.
Proof. conjs; by_run. Qed.

(** C3 (amended): a ROM file that opens, of [L] bytes, is refused as too
    big exactly when [L > 4096 - 512]; for [1 <= L <= 3584] loading succeeds,
    the bytes are at addresses 512 onwards in order, the font is at
    addresses 0..79 and the rest of memory is as before. *)
Theorem load_rom c name file :
  length (ram c) = 4096%nat ->
  (snd (init_chip8 c name (Some file)) = RomTooBig
   <-> Z.of_nat (length file) > 4096 - 512) /\
  (1 <= Z.of_nat (length file) <= 3584 ->
   snd (init_chip8 c name (Some file)) = InitOk /\
   let c' := fst (init_chip8 c name (Some file)) in
   (forall i : nat, (i < length file)%nat -> ram c' !! (512 + i)%nat = file !! i) /\
   (forall a : nat, (a < 80)%nat -> ram c' !! a = font !! a) /\
   (forall a : nat,
      (80 <= a < 512)%nat \/ (512 + length file <= a)%nat ->
      ram c' !! a = ram c !! a) /\
   length (ram c') = 4096%nat /\
   PC c' = 0x200 /\ stack_ptr c' = 0 /\ state c' = RUNNING).
Proof.
  intros Hlen. unfold init_chip8. cbn [ram set_ram].
  rewrite length_inserts, Hlen. change (Z.of_nat 4096 - entry_point) with 3584.
  set (L := Z.of_nat (length file)).
  assert (Hfont : length font = 80%nat) by reflexivity.
  split.
  - destruct (Z.gtb_spec L 3584) as [Hbig|Hfit]; cbn [snd]; [split; [lia|done]|].
    split; [|lia]. by destruct (negb _).
  - intros HL. destruct (Z.gtb_spec L 3584) as [Hbig|_]; [lia|].
    assert (fread_items L 1 file = 1) as ->.
    { unfold fread_items. fold L.
      destruct (Z.eqb_spec L 0) as [|_]; [lia|]. cbn [orb Z.eqb].
      rewrite Z.div_same by lia. done. }
    cbn [negb Z.eqb Pos.eqb fst snd]. split; [done|].
    cbn [ram set_ram set_state set_PC set_rom_name set_stack_ptr PC stack_ptr state].
    change (Z.to_nat entry_point) with 512%nat.
    split; [|split; [|split; [|split; [|done]]]].
    + intros i Hi. rewrite list_lookup_inserts by (rewrite ?length_inserts; lia).
      f_equal. lia.
    + intros a Ha. rewrite list_lookup_inserts_lt by lia.
      rewrite list_lookup_inserts by lia. f_equal. lia.
    + intros a [Ha|Ha].
      * rewrite list_lookup_inserts_lt by lia.
        rewrite list_lookup_inserts_ge by lia. done.
      * rewrite list_lookup_inserts_ge by lia.
        rewrite list_lookup_inserts_ge by lia. done.
    + by rewrite !length_inserts.
Qed.

(** An instance: [rom_twice] loaded into the zeroed machine. *)
Lemma load_rom_witness :
  (snd (init_chip8 zero_chip8 String.EmptyString (Some rom_twice)) = RomTooBig
   <-> Z.of_nat (length rom_twice) > 4096 - 512) /\
  (1 <= Z.of_nat (length rom_twice) <= 3584 ->
   snd (init_chip8 zero_chip8 String.EmptyString (Some rom_twice)) = InitOk /\
   let c' := fst (init_chip8 zero_chip8 String.EmptyString (Some rom_twice)) in
   (forall i : nat, (i < length rom_twice)%nat ->
      ram c' !! (512 + i)%nat = rom_twice !! i) /\
   (forall a : nat, (a < 80)%nat -> ram c' !! a = font !! a) /\
   (forall a : nat,
      (80 <= a < 512)%nat \/ (512 + length rom_twice <= a)%nat ->
      ram c' !! a = ram zero_chip8 !! a) /\
   length (ram c') = 4096%nat /\
   PC c' = 0x200 /\ stack_ptr c' = 0 /\ state c' = RUNNING).
Proof. apply (load_rom zero_chip8 String.EmptyString rom_twice). reflexivity. Defined.

(** ** FX0A: waiting for a key *)

(** The keypad loop (lines 706-712) when no key from [i] on is down. *)
Lemma scan_keypad_none n : forall i kp c,
  0 <= i ->
  (forall k, i <= k < i + Z.of_nat n -> keypad c !! Z.to_nat k = Some false) ->
  scan_keypad n i kp c = Done (kp, c).
Proof.
  induction n as [|n IH]; intros i kp c Hi Hup; [done|].
  cbn [scan_keypad].
  rewrite (load_lookup _ _ _ false Hi) by (apply Hup; lia). cbn [bind].
  apply IH; [lia|]. intros k Hk. apply Hup. lia.
Qed.

(** The keypad loop when [k] is the first key down from [i] on. *)
Lemma scan_keypad_first n : forall i kp c k,
  wf c -> 0 <= i <= k -> k < i + Z.of_nat n -> 0 <= X (inst c) < 16 ->
  (forall j, i <= j < k -> keypad c !! Z.to_nat j = Some false) ->
  keypad c !! Z.to_nat k = Some true ->
  scan_keypad n i kp c
  = Done (true, set_V (<[Z.to_nat (X (inst c)) := k]> (V c)) c).
Proof.
  induction n as [|n IH]; intros i kp c k Hwf Hi Hn HX Hup Hdown; [lia|].
  cbn [scan_keypad]. destruct (decide (i = k)) as [->|Hne].
  - rewrite (load_lookup _ _ _ true) by (done || lia). cbn [bind].
    rewrite setV_inside by (apply Hwf || done). done.
  - rewrite (load_lookup _ _ _ false) by (lia || apply Hup; lia). cbn [bind].
    apply IH; try done; try lia. intros j Hj. apply Hup. lia.
Qed.

(** FX0A with a key down: the lowest key down goes to [V[X]] and [PC] stays
    past the instruction. *)
Lemma wait_key_with_key_down c cfg rnd x k :
  wf c -> 0 <= x < 16 -> 0 <= k < 16 ->
  fetch_opcode c = Done (nibbles 0xF x 0 0xA) ->
  (forall j, 0 <= j < k -> keypad c !! Z.to_nat j = Some false) ->
  keypad c !! Z.to_nat k = Some true ->
  emulate_chip8 c cfg rnd
  = Done (set_V (<[Z.to_nat x := k]> (V c)) (fetched c (nibbles 0xF x 0 0xA))).
Proof.
  intros Hwf Hx Hk Hf Hup Hdown.
  rewrite (emulate_fetched _ _ _ _ Hf).
  unfold execute. rewrite inst_fetched, decode_top by lia.
  unfold execute_misc. rewrite inst_fetched, decode_NN by lia.
  change (16 * 0 + 0xA) with 0x0A. cbv iota.
  rewrite (scan_keypad_first 16 0 true _ k);
    rewrite ?inst_fetched, ?decode_X; try done; try lia.
  by apply wf_fetched.
Qed.

(** FX0A with no key down, on any machine: [key_pressed] starts [true]
    (line 705), so [PC -= 2] (line 714) is not run and the machine is the
    fetched one, [PC] past the instruction. *)
Lemma wait_key_never_rewinds c cfg rnd x :
  wf c -> 0 <= x < 16 ->
  fetch_opcode c = Done (nibbles 0xF x 0 0xA) ->
  (forall k, 0 <= k < 16 -> keypad c !! Z.to_nat k = Some false) ->
  emulate_chip8 c cfg rnd = Done (fetched c (nibbles 0xF x 0 0xA)) /\
  PC (fetched c (nibbles 0xF x 0 0xA)) = (PC c + 2) mod 65536.
Proof.
  intros Hwf Hx Hf Hup.
  rewrite (emulate_fetched _ _ _ _ Hf).
  unfold execute. rewrite inst_fetched, decode_top by lia.
  unfold execute_misc. rewrite inst_fetched, decode_NN by lia.
  change (16 * 0 + 0xA) with 0x0A. cbv iota.
  rewrite scan_keypad_none; [done|lia|]. intros k Hk. apply Hup. lia.
Qed.

(** C1 at the failing input: F50A at [0x200] with no key down.  The claim
    has [PC] back at [0x200] after the instruction; the code leaves it at
    [0x202], with [V5] as it was. *)
Theorem wait_key_falls_through :
  keypad (boot rom_wait_key) = replicate 16 false /\
  fetch_opcode (boot rom_wait_key) = Done (nibbles 0xF 5 0 0xA) /\
  PC (boot rom_wait_key) = 0x200 /\
  PC_after (emulate_chip8 (boot rom_wait_key) set_config 0) = Some 0x202 /\
  reg_after 5 (emulate_chip8 (boot rom_wait_key) set_config 0)
  = V (boot rom_wait_key) !! 5%nat.
Proof. conjs; by_run. Qed.

(** ** Which arrays an instruction can leave, and where *)

Ltac wf_tac :=
  match goal with
  | H : wf _ |- wf _ =>
    solve [ destruct H; split; cbn;
            rewrite ?length_insert, ?length_replicate; assumption ]
  end.

Section safe_steps.
Variables I0 sp : Z.

Lemma safe_Done c : wf c -> safe I0 sp (Done c).
Proof. done. Qed.

Lemma safe_getV c x k :
  wf c -> 0 <= x < 16 -> (forall v, safe I0 sp (k v)) ->
  safe I0 sp (bind (getV c x) k).
Proof.
  intros Hwf Hx Hk.
  destruct (getV_inside c x (wf_V _ Hwf) Hx) as (v & _ & ->). apply Hk.
Qed.

Lemma safe_setV_bind c x v k :
  wf c -> 0 <= x < 16 ->
  (forall c', wf c' -> I c' = I c -> safe I0 sp (k c')) ->
  safe I0 sp (bind (setV c x v) k).
Proof.
  intros Hwf Hx Hk. rewrite setV_inside by (apply Hwf || done).
  apply Hk; [wf_tac|done].
Qed.

Lemma safe_setV c x v : wf c -> 0 <= x < 16 -> safe I0 sp (setV c x v).
Proof.
  intros Hwf Hx. rewrite setV_inside by (apply Hwf || done). cbn. wf_tac.
Qed.

Lemma safe_setRam_bind c a v k :
  wf c -> I0 <= a <= I0 + 15 ->
  (forall c', wf c' -> I c' = I c -> safe I0 sp (k c')) ->
  safe I0 sp (bind (setRam c a v) k).
Proof.
  intros Hwf Ha Hk. unfold setRam. pose proof (wf_ram _ Hwf) as Hlen.
  destruct (decide (0 <= a < 4096)) as [Hin|Hout].
  - rewrite store_inside by lia. apply Hk; [wf_tac|done].
  - rewrite store_outside by lia. by left.
Qed.

Lemma safe_setRam c a v :
  wf c -> I0 <= a <= I0 + 15 -> safe I0 sp (setRam c a v).
Proof.
  intros Hwf Ha. unfold setRam. pose proof (wf_ram _ Hwf) as Hlen.
  destruct (decide (0 <= a < 4096)) as [Hin|Hout].
  - rewrite store_inside by lia. cbn. wf_tac.
  - rewrite store_outside by lia. by left.
Qed.

Lemma safe_load_ram c a k :
  wf c -> I0 <= a <= I0 + 15 -> (forall v, safe I0 sp (k v)) ->
  safe I0 sp (bind (load Ram (ram c) a) k).
Proof.
  intros Hwf Ha Hk. pose proof (wf_ram _ Hwf) as Hlen.
  destruct (decide (0 <= a < 4096)) as [Hin|Hout].
  - destruct (load_inside Ram (ram c) a) as (v & _ & ->); [lia|]. apply Hk.
  - rewrite load_outside by lia. by left.
Qed.

Lemma safe_load_stack c a k :
  wf c -> a = sp \/ a = sp - 1 -> (forall v, safe I0 sp (k v)) ->
  safe I0 sp (bind (load Stack (stack c) a) k).
Proof.
  intros Hwf Ha Hk. pose proof (wf_stack _ Hwf) as Hlen.
  destruct (decide (0 <= a < 12)) as [Hin|Hout].
  - destruct (load_inside Stack (stack c) a) as (v & _ & ->); [lia|]. apply Hk.
  - rewrite load_outside by lia. by right.
Qed.

Lemma safe_store_stack c a v k :
  wf c -> a = sp \/ a = sp - 1 ->
  (forall s, length s = 12%nat -> safe I0 sp (k s)) ->
  safe I0 sp (bind (store Stack (stack c) a v) k).
Proof.
  intros Hwf Ha Hk. pose proof (wf_stack _ Hwf) as Hlen.
  destruct (decide (0 <= a < 12)) as [Hin|Hout].
  - rewrite store_inside by lia. apply Hk. by rewrite length_insert.
  - rewrite store_outside by lia. by right.
Qed.

(** [V[X] & 0x0F] is a keypad index whatever [V[X]] holds (lines 683, 689). *)
Lemma low_nibble_bounds v : 0 <= Z.land v 0x0F < 16.
Proof.
  change 0x0F with (Z.ones 4). rewrite Z.land_ones by lia.
  apply Z.mod_pos_bound. lia.
Qed.

Lemma safe_load_key c v k :
  wf c -> (forall b, safe I0 sp (k b)) ->
  safe I0 sp (bind (load Keypad (keypad c) (Z.land v 0x0F)) k).
Proof.
  intros Hwf Hk. pose proof (low_nibble_bounds v).
  destruct (load_inside Keypad (keypad c) (Z.land v 0x0F)) as (b & _ & ->);
    [destruct Hwf; lia|]. apply Hk.
Qed.

Lemma safe_store_regs n : forall i c,
  wf c -> I c = I0 -> 0 <= i -> i + Z.of_nat n <= 16 ->
  safe I0 sp (store_regs n i c).
Proof.
  induction n as [|n IH]; intros i c Hwf HI Hi Hn; [done|].
  cbn [store_regs]. apply safe_getV; [done|lia|]. intros v.
  apply safe_setRam_bind; [done|lia|]. intros c' Hwf' HI'.
  apply IH; done || lia.
Qed.

Lemma safe_load_regs n : forall i c,
  wf c -> I c = I0 -> 0 <= i -> i + Z.of_nat n <= 16 ->
  safe I0 sp (load_regs n i c).
Proof.
  induction n as [|n IH]; intros i c Hwf HI Hi Hn; [done|].
  cbn [load_regs]. apply safe_load_ram; [done|lia|]. intros v.
  apply safe_setV_bind; [done|lia|]. intros c' Hwf' HI'.
  apply IH; done || lia.
Qed.

Lemma safe_scan_keypad n k : forall i kp c,
  wf c -> 0 <= i -> i + Z.of_nat n <= 16 -> 0 <= X (inst c) < 16 ->
  (forall kp' c', wf c' -> safe I0 sp (k (kp', c'))) ->
  safe I0 sp (bind (scan_keypad n i kp c) k).
Proof.
  induction n as [|n IH]; intros i kp c Hwf Hi Hn HX Hk; [by apply Hk|].
  cbn [scan_keypad].
  destruct (load_inside Keypad (keypad c) i) as ([] & _ & ->);
    [destruct Hwf; lia| |]; cbn [bind].
  - rewrite setV_inside by (apply Hwf || done). cbn [bind]. apply Hk. wf_tac.
  - apply IH; done || lia.
Qed.

Lemma safe_draw_rows n x0 y0 c :
  wf c -> I c = I0 -> (n <= 15)%nat -> 0 <= x0 < 64 -> 0 <= y0 < 32 ->
  safe I0 sp
    (let* c' := draw_rows n 0 x0 y0 set_config c in Done (set_draw true c')).
Proof.
  intros Hwf HI Hn Hx0 Hy0.
  pose proof (draw_rows_spec x0 n 0 y0 c Hwf Hx0 Hy0) as Hs.
  destruct (draw_rows n 0 x0 y0 set_config c) as [c'|arr a]; cbn [bind].
  - destruct Hs as (d' & b & -> & Hl & _). cbn.
    pose proof (wf_drawn d' b c Hwf Hl). wf_tac.
  - destruct Hs as (-> & Ha & Hout). left. split; [done|]. split; [done|lia].
Qed.

Lemma safe_draw c vx vy :
  wf c -> I c = I0 -> 0 <= N (inst c) < 16 ->
  safe I0 sp
    (let* chip8 := setV c 0xF 0 in
     let* chip8 :=
       draw_rows (Z.to_nat (N (inst c))) 0
         ((vx mod window_width set_config) mod 256)
         ((vy mod window_height set_config) mod 256) set_config chip8 in
     Done (set_draw true chip8)).
Proof.
  intros Hwf HI HN. apply safe_setV_bind; [done|lia|intros c' Hwf' HI'].
  change (window_width set_config) with 64.
  change (window_height set_config) with 32.
  assert (0 <= vx mod 64 < 64) by (apply Z.mod_pos_bound; lia).
  assert (0 <= vy mod 32 < 32) by (apply Z.mod_pos_bound; lia).
  rewrite (Z.mod_small (vx mod 64) 256), (Z.mod_small (vy mod 32) 256) by lia.
  apply safe_draw_rows; try done; try lia; congruence.
Qed.
End safe_steps.

Ltac safe_tac :=
  repeat first
    [ progress cbn [bind]
    | apply safe_Done; wf_tac
    | apply safe_getV; [assumption | lia | intros ?]
    | apply safe_setV; [assumption | lia]
    | apply safe_setV_bind; [assumption | lia | intros ? ? ?]
    | apply safe_setRam; [assumption | lia]
    | apply safe_setRam_bind; [assumption | lia | intros ? ? ?]
    | apply safe_load_key; [assumption | intros ?]
    | match goal with
      | |- safe _ _ (if ?b then _ else _) => destruct b
      end ].

Lemma safe_execute_alu c :
  wf c -> 0 <= X (inst c) < 16 -> 0 <= Y (inst c) < 16 ->
  safe (I c) (stack_ptr c) (execute_alu c).
Proof.
  intros Hwf HX HY. unfold execute_alu.
  destruct (N (inst c)) as [|p|p];
    [ | do 4 (try destruct p as [p|p|]) | ]; cbv iota; safe_tac.
Qed.

Lemma safe_execute_misc c :
  wf c -> 0 <= X (inst c) < 16 -> safe (I c) (stack_ptr c) (execute_misc c).
Proof.
  intros Hwf HX. unfold execute_misc.
  destruct (NN (inst c)) as [|p|p];
    [ | do 8 (try destruct p as [p|p|]) | ]; cbv iota;
    first
      [ apply safe_Done; assumption
      | apply safe_load_regs; done || lia
      | apply safe_store_regs; done || lia
      | apply safe_scan_keypad;
        [done | lia | lia | done
        | intros kp' c' Hwf'; destruct kp'; cbn; wf_tac]
      | solve [safe_tac] ].
Qed.

Lemma safe_execute c rnd :
  wf c -> 0 <= X (inst c) < 16 -> 0 <= Y (inst c) < 16 ->
  0 <= N (inst c) < 16 ->
  safe (I c) (stack_ptr c) (execute c set_config rnd).
Proof.
  intros Hwf HX HY HN. unfold execute.
  destruct (Z.land (Z.shiftr (opcode (inst c)) 12) 0x0F) as [|p|p];
    [ | do 4 (try destruct p as [p|p|]) | ]; cbv iota;
    first
      [ apply safe_Done; assumption
      | by apply safe_execute_misc
      | by apply safe_execute_alu
      | apply safe_getV; [done|done|intros vx];
        apply safe_getV; [done|done|intros vy];
        by apply safe_draw
      | apply safe_store_stack; [done|by left|]; intros s Hs; apply safe_Done;
        destruct Hwf; split; cbn; congruence
      | destruct (NN (inst c) =? 0xE0); [apply safe_Done; wf_tac|];
        destruct (NN (inst c) =? 0xEE); [|by apply safe_Done];
        apply safe_load_stack; [wf_tac|by right|];
        intros a; apply safe_Done; wf_tac
      | destruct (NN (inst c) =? 0x9E); [solve [safe_tac]|];
        destruct (NN (inst c) =? 0xA1); solve [safe_tac]
      | solve [safe_tac] ].
Qed.

Lemma decode_bounds opc :
  0 <= X (decode opc) < 16 /\ 0 <= Y (decode opc) < 16 /\
  0 <= N (decode opc) < 16.
Proof.
  cbn [X Y N decode]. rewrite !Z.shiftr_land.
  change (Z.shiftr 0x0F00 8) with 0x0F. change (Z.shiftr 0x00F0 4) with 0x0F.
  change 0x000F with 0x0F.
  split; [|split]; apply low_nibble_bounds.
Qed.

Lemma fetch_opcode_cases c :
  (exists hi lo,
     ram c !! Z.to_nat (PC c) = Some hi /\
     ram c !! Z.to_nat (PC c + 1) = Some lo /\
     0 <= PC c /\ PC c + 1 < Z.of_nat (length (ram c)) /\
     fetch_opcode c = Done (Z.lor (Z.shiftl hi 8) lo mod 65536)) \/
  (~ (0 <= PC c /\ PC c + 1 < Z.of_nat (length (ram c))) /\
   exists a, fetch_opcode c = OutOfBounds Ram a /\
             ~ (0 <= a < Z.of_nat (length (ram c))) /\
             (a = PC c \/ a = PC c + 1)).
Proof.
  unfold fetch_opcode.
  destruct (decide (0 <= PC c < Z.of_nat (length (ram c)))) as [H0|H0].
  - destruct (load_inside Ram (ram c) (PC c) H0) as (hi & Hhi & ->). cbn [bind].
    destruct (decide (PC c + 1 < Z.of_nat (length (ram c)))) as [H1|H1].
    + destruct (load_inside Ram (ram c) (PC c + 1)) as (lo & Hlo & ->); [lia|].
      left. exists hi, lo. cbn [bind]. repeat (split; [done || lia|]). done.
    + right. split; [lia|]. exists (PC c + 1).
      rewrite load_outside by lia. split; [done|]. split; [lia|by right].
  - right. split; [lia|]. exists (PC c).
    rewrite load_outside by lia. split; [done|]. split; [lia|by left].
Qed.

(** One instruction, whatever the opcode: the result and the only accesses
    outside an array. *)
Lemma emulate_outcome c rnd :
  wf c ->
  match emulate_chip8 c set_config rnd with
  | Done c' => wf c'
  | OutOfBounds arr a =>
    (arr = Ram /\ ~ (0 <= a < 4096) /\ (a = PC c \/ a = PC c + 1)) \/
    may_fault (I c) (stack_ptr c) arr a
  end.
Proof.
  intros Hwf. unfold emulate_chip8. pose proof (wf_ram _ Hwf) as Hlen.
  destruct (fetch_opcode_cases c)
    as [(hi & lo & _ & _ & _ & _ & ->)|(_ & a & -> & Hout & Ha)];
    [|left; split; [done|]; split; [lia|done]].
  cbn [bind].
  destruct (decode_bounds (Z.lor (Z.shiftl hi 8) lo mod 65536)) as (HX & HY & HN).
  set (c0 := set_inst _ _).
  pose proof (safe_execute c0 rnd ltac:(subst c0; wf_tac) HX HY HN) as Hs.
  change (I c0) with (I c) in Hs. change (stack_ptr c0) with (stack_ptr c) in Hs.
  destruct (execute c0 set_config rnd); [done|by right].
Qed.

(** ** Every instruction: where it can fail and when it completes *)

(** One instruction from a machine whose arrays have their sizes never
    reads or writes outside [display], [V] or [keypad], and leaves the sizes
    as they are.  Outside [ram] it can only touch the two opcode bytes at
    [PC], [PC + 1] or one of [I .. I + 15]; outside [stack] only
    [stack[stack_ptr]] or [stack[stack_ptr - 1]]. *)
Theorem instruction_faults c rnd :
  wf c ->
  (forall c', emulate_chip8 c set_config rnd = Done c' -> wf c') /\
  (forall arr a, emulate_chip8 c set_config rnd = OutOfBounds arr a ->
     (arr = Ram /\ ~ (0 <= a < 4096) /\
      (a = PC c \/ a = PC c + 1 \/ I c <= a <= I c + 15)) \/
     (arr = Stack /\ ~ (0 <= a < 12) /\
      (a = stack_ptr c \/ a = stack_ptr c - 1))).
Proof.
  intros Hwf. pose proof (emulate_outcome c rnd Hwf) as H.
  destruct (emulate_chip8 c set_config rnd) as [c1|arr1 a1].
  - split; [by intros c' [= <-]|done].
  - split; [done|]. intros arr a [= <- <-].
    destruct H as [(-> & ? & ?)|[(-> & ? & ?)|(-> & ? & ?)]];
      [left|left|right]; (split; [done|]); (split; [done|]); tauto.
Qed.

(** An instance: the machine booted from [rom_twice]. *)
Lemma instruction_faults_witness :
  (forall c', emulate_chip8 (boot rom_twice) set_config 0 = Done c' -> wf c') /\
  (forall arr a,
     emulate_chip8 (boot rom_twice) set_config 0 = OutOfBounds arr a ->
     (arr = Ram /\ ~ (0 <= a < 4096) /\
      (a = PC (boot rom_twice) \/ a = PC (boot rom_twice) + 1 \/
       I (boot rom_twice) <= a <= I (boot rom_twice) + 15)) \/
     (arr = Stack /\ ~ (0 <= a < 12) /\
      (a = stack_ptr (boot rom_twice) \/ a = stack_ptr (boot rom_twice) - 1))).
Proof. apply (instruction_faults (boot rom_twice) 0). wf_run. Defined.

(** With [PC] at most 4094, [I] at most 4080 and between 1 and 11 return
    addresses on the stack, an instruction completes whatever the opcode
    and the random draw. *)
Theorem instruction_completes c rnd :
  wf c -> 0 <= PC c <= 4094 -> 0 <= I c <= 4080 -> 1 <= stack_ptr c <= 11 ->
  exists c', emulate_chip8 c set_config rnd = Done c' /\ wf c'.
Proof.
  intros Hwf HPC HI Hsp. pose proof (emulate_outcome c rnd Hwf) as H.
  destruct (emulate_chip8 c set_config rnd) as [c1|arr1 a1]; [by exists c1|].
  destruct H as [(_ & ? & ?)|[(_ & ? & ?)|(_ & ? & ?)]]; lia.
Qed.

(** An instance: the machine after the call of [rom_call_return]. *)
Lemma instruction_completes_witness :
  exists c', emulate_chip8 (run 1 rom_call_return) set_config 0 = Done c' /\ wf c'.
Proof.
  apply (instruction_completes (run 1 rom_call_return) 0);
    first [ wf_run | by_run ].
Defined.

(** A batch of [n] instructions (the loop of [main]) keeps the sizes of the
    arrays, and can stop early only at an access outside [ram] or [stack]. *)
Theorem batch_faults n : forall c rnds,
  wf c ->
  match emulate_many n c set_config rnds with
  | Done c' => wf c'
  | OutOfBounds arr a => arr = Ram \/ arr = Stack
  end.
Proof.
  induction n as [|n IH]; intros c rnds Hwf; [done|].
  cbn [emulate_many]. pose proof (emulate_outcome c (rnds O) Hwf) as H.
  destruct (emulate_chip8 c set_config (rnds O)) as [c1|arr a]; cbn [bind].
  - by apply IH.
  - destruct H as [(-> & _)|[(-> & _)|(-> & _)]]; tauto.
Qed.

(** An instance: 13 instructions of [rom_call_self], which overflow the
    stack. *)
Lemma batch_faults_witness :
  match emulate_many 13 (boot rom_call_self) set_config (fun _ => 0) with
  | Done c' => wf c'
  | OutOfBounds arr a => arr = Ram \/ arr = Stack
  end.
Proof. apply (batch_faults 13 (boot rom_call_self) (fun _ => 0)). wf_run. Defined.

(** ** Fetch and decode *)

Lemma lor_bytes hi lo :
  0 <= hi -> 0 <= lo < 256 -> Z.lor (Z.shiftl hi 8) lo = 256 * hi + lo.
Proof.
  intros Hhi Hlo.
  assert (Hdis : Z.land (Z.shiftl hi 8) lo = 0).
  { apply Z.bits_inj'. intros k Hk. rewrite Z.land_spec, Z.bits_0.
    destruct (decide (k < 8)) as [Hlt|Hge].
    - by rewrite Z.shiftl_spec_low.
    - rewrite (Z.bits_above_log2 lo k), andb_false_r; [done|lia|].
      destruct (decide (lo = 0)) as [->|]; [cbn; lia|].
      apply Z.log2_lt_pow2; [lia|].
      apply Z.lt_le_trans with (2 ^ 8); [lia|]. apply Z.pow_le_mono_r; lia. }
  rewrite <- Z.lxor_lor, <- Z.add_nocarry_lxor by done.
  rewrite Z.shiftl_mul_pow2 by lia. lia.
Qed.

(** The opcode is the big-endian word at [PC]: fetching needs both bytes
    inside memory, so it succeeds exactly for [0 <= PC <= 4094]; at
    [PC = 4095] the second byte is read at [ram[4096]]. *)
Theorem fetch_big_endian c :
  wf c ->
  (forall a v, ram c !! a = Some v -> 0 <= v < 256) ->
  (0 <= PC c <= 4094 ->
   exists hi lo,
     ram c !! Z.to_nat (PC c) = Some hi /\
     ram c !! Z.to_nat (PC c + 1) = Some lo /\
     fetch_opcode c = Done (256 * hi + lo) /\ 0 <= 256 * hi + lo < 65536) /\
  (PC c = 4095 -> fetch_opcode c = OutOfBounds Ram 4096) /\
  (PC c < 0 \/ 4096 <= PC c -> fetch_opcode c = OutOfBounds Ram (PC c)).
Proof.
  intros Hwf Hbytes. pose proof (wf_ram _ Hwf) as Hlen. split; [|split].
  - intros HPC.
    destruct (fetch_opcode_cases c)
      as [(hi & lo & Hhi & Hlo & _ & _ & ->)|(Hout & _)]; [|lia].
    pose proof (Hbytes _ _ Hhi). pose proof (Hbytes _ _ Hlo).
    exists hi, lo. rewrite lor_bytes by lia.
    rewrite Z.mod_small by lia. repeat split; done || lia.
  - intros HPC. unfold fetch_opcode.
    destruct (load_inside Ram (ram c) (PC c)) as (hi & _ & ->); [lia|].
    cbn [bind]. rewrite load_outside by lia. by rewrite HPC.
  - intros HPC. unfold fetch_opcode. by rewrite load_outside by lia.
Qed.

(** An instance: the first opcode of [rom_twice] is 6005. *)
Lemma fetch_big_endian_witness :
  (0 <= PC (boot rom_twice) <= 4094 ->
   exists hi lo,
     ram (boot rom_twice) !! Z.to_nat (PC (boot rom_twice)) = Some hi /\
     ram (boot rom_twice) !! Z.to_nat (PC (boot rom_twice) + 1) = Some lo /\
     fetch_opcode (boot rom_twice) = Done (256 * hi + lo) /\
     0 <= 256 * hi + lo < 65536) /\
  (PC (boot rom_twice) = 4095 ->
   fetch_opcode (boot rom_twice) = OutOfBounds Ram 4096) /\
  (PC (boot rom_twice) < 0 \/ 4096 <= PC (boot rom_twice) ->
   fetch_opcode (boot rom_twice) = OutOfBounds Ram (PC (boot rom_twice))).
Proof.
  apply (fetch_big_endian (boot rom_twice)); [wf_run|].
  intros a v Hv. apply list_elem_of_lookup_2, list_elem_of_In in Hv.
  assert (Hall : forallb (fun v => (0 <=? v) && (v <? 256)) (ram (boot rom_twice))
                 = true) by by_run.
  rewrite forallb_forall in Hall. specialize (Hall v Hv). lia.
Defined.

(** Every 16-bit opcode splits into four hexadecimal digits: the fields of
    the decoded instruction are in range and put the opcode together again. *)
Theorem decode_reassembles opc :
  0 <= opc < 65536 ->
  let i := decode opc in
  let top := Z.land (Z.shiftr (opcode i) 12) 0x0F in
  (0 <= top < 16 /\ 0 <= X i < 16 /\ 0 <= Y i < 16 /\ 0 <= N i < 16) /\
  opc = 4096 * top + 256 * X i + 16 * Y i + N i /\
  NN i = 16 * Y i + N i /\
  NNN i = 256 * X i + 16 * Y i + N i.
Proof.
  intros Hopc.
  set (a := opc / 4096). set (x := opc / 256 mod 16).
  set (y := opc / 16 mod 16). set (n := opc mod 16).
  assert (Ha : 0 <= a < 16) by (unfold a; Z.to_euclidean_division_equations; lia).
  assert (Hx : 0 <= x < 16) by (unfold x; Z.to_euclidean_division_equations; lia).
  assert (Hy : 0 <= y < 16) by (unfold y; Z.to_euclidean_division_equations; lia).
  assert (Hn : 0 <= n < 16) by (unfold n; Z.to_euclidean_division_equations; lia).
  assert (He : opc = nibbles a x y n).
  { unfold nibbles, a, x, y, n. Z.to_euclidean_division_equations. lia. }
  rewrite He. cbv zeta.
  rewrite decode_top, decode_X, decode_Y, decode_N, decode_NN, decode_NNN by done.
  unfold nibbles. repeat split; lia.
Qed.

Lemma decode_reassembles_witness :
  let i := decode 0xD013 in
  let top := Z.land (Z.shiftr (opcode i) 12) 0x0F in
  (0 <= top < 16 /\ 0 <= X i < 16 /\ 0 <= Y i < 16 /\ 0 <= N i < 16) /\
  0xD013 = 4096 * top + 256 * X i + 16 * Y i + N i /\
  NN i = 16 * Y i + N i /\
  NNN i = 256 * X i + 16 * Y i + N i.
Proof. apply (decode_reassembles 0xD013). lia. Defined.

(** ** 8XY5, 8XY7, 8XY6, 8XYE *)

Ltac enter_alu Hf :=
  rewrite (emulate_fetched _ _ _ _ Hf);
  unfold execute; rewrite inst_fetched, decode_top by lia;
  unfold execute_alu; rewrite inst_fetched, decode_N, decode_X by lia;
  try rewrite decode_Y by lia; cbv iota.

Lemma getV_lookup c x v :
  0 <= x -> V c !! Z.to_nat x = Some v -> getV c x = Done v.
Proof. intros. by apply load_lookup. Qed.

Lemma V_after_flag c x f :
  0 <= x < 15 ->
  V (set_V (<[Z.to_nat 15 := f]> (V c)) c) !! Z.to_nat x = V c !! Z.to_nat x.
Proof. intros Hx. cbn. by rewrite list_lookup_insert_ne by lia. Qed.

(** The two writes of an ALU instruction with a flag, [X] not [F]: the
    flag [f] first, then the result [r]. *)
Lemma flag_then_result c x f r :
  wf c -> 0 <= x < 15 ->
  let c' := set_V (<[Z.to_nat x := r]> (<[15%nat := f]> (V c))) c in
  V c' !! Z.to_nat x = Some r /\ V c' !! 15%nat = Some f /\
  (forall k : nat, k <> Z.to_nat x -> k <> 15%nat -> V c' !! k = V c !! k).
Proof.
  intros Hwf Hx c'. pose proof (wf_V _ Hwf) as Hlen. subst c'. cbn.
  split; [|split].
  - rewrite list_lookup_insert_eq; [done|]. rewrite length_insert. lia.
  - rewrite list_lookup_insert_ne by lia. rewrite list_lookup_insert_eq; [done|lia].
  - intros k Hk1 Hk2. by rewrite !list_lookup_insert_ne by done.
Qed.

(** 8XY5, for [X] and [Y] other than [F] and bytes [a], [b]: [V[X]] becomes
    [(a - b) mod 256] and [V[F]] is 1 exactly when there is no borrow
    ([b <= a]); the difference itself is [V[X] - 256 * (1 - V[F])].  No
    other register changes. *)
Theorem sub_borrow_law c cfg rnd x y a b :
  wf c -> 0 <= x < 15 -> 0 <= y < 15 ->
  fetch_opcode c = Done (nibbles 8 x y 5) ->
  V c !! Z.to_nat x = Some a -> V c !! Z.to_nat y = Some b ->
  0 <= a < 256 -> 0 <= b < 256 ->
  exists c' r f,
    emulate_chip8 c cfg rnd = Done c' /\
    V c' !! Z.to_nat x = Some r /\ V c' !! 15%nat = Some f /\
    r = (a - b) mod 256 /\ (f = 1 <-> b <= a) /\ (f = 0 <-> a < b) /\
    a - b = r - 256 * (1 - f) /\
    (forall k : nat, k <> Z.to_nat x -> k <> 15%nat -> V c' !! k = V c !! k).
Proof.
  intros Hwf Hx Hy Hf Ha Hb Hra Hrb. enter_alu Hf.
  set (c1 := fetched c _).
  assert (Hwf1 : wf c1) by (by apply wf_fetched).
  rewrite (getV_lookup c1 y b), (getV_lookup c1 x a) by (done || lia).
  cbn [bind]. rewrite setV_inside by (apply Hwf || lia). cbn [bind].
  rewrite (getV_lookup _ x a), (getV_lookup _ y b)
    by (lia || by rewrite V_after_flag by lia).
  cbn [bind]. rewrite setV_inside; [|cbn; rewrite length_insert; apply Hwf|lia].
  destruct (flag_then_result c1 x (Z.b2z (b <=? a)) ((a - b) mod 256) Hwf1 Hx)
    as (Hr & Hfl & Hk).
  eexists _, ((a - b) mod 256), (Z.b2z (b <=? a)).
  split; [done|]. split; [exact Hr|]. split; [exact Hfl|].
  split; [done|]. split; [|split; [|split; [|exact Hk]]];
    destruct (Z.leb_spec b a); cbn [Z.b2z];
    try (split; intros; lia || done);
    Z.to_euclidean_division_equations; lia.
Qed.

(** An instance: 8125 with [V1 = 5] and [V2 = 7]. *)
Lemma sub_borrow_law_witness :
  let c := with_VxVy 1 5 2 7 (boot [0x81; 0x25]) in
  exists c' r f,
    emulate_chip8 c set_config 0 = Done c' /\
    V c' !! Z.to_nat 1 = Some r /\ V c' !! 15%nat = Some f /\
    r = (5 - 7) mod 256 /\ (f = 1 <-> 7 <= 5) /\ (f = 0 <-> 5 < 7) /\
    5 - 7 = r - 256 * (1 - f) /\
    (forall k : nat, k <> Z.to_nat 1 -> k <> 15%nat -> V c' !! k = V c !! k).
Proof.
  intros c. apply (sub_borrow_law c set_config 0 1 2 5 7);
    first [ wf_run | lia | by_run ].
Defined.

(** 8XY7, for [X] and [Y] other than [F] and bytes [a], [b]: [V[X]] becomes
    [(b - a) mod 256] and [V[F]] is 1 exactly when [a <= b]; the difference
    is [V[X] - 256 * (1 - V[F])].  No other register changes. *)
Theorem reverse_sub_borrow_law c cfg rnd x y a b :
  wf c -> 0 <= x < 15 -> 0 <= y < 15 ->
  fetch_opcode c = Done (nibbles 8 x y 7) ->
  V c !! Z.to_nat x = Some a -> V c !! Z.to_nat y = Some b ->
  0 <= a < 256 -> 0 <= b < 256 ->
  exists c' r f,
    emulate_chip8 c cfg rnd = Done c' /\
    V c' !! Z.to_nat x = Some r /\ V c' !! 15%nat = Some f /\
    r = (b - a) mod 256 /\ (f = 1 <-> a <= b) /\ (f = 0 <-> b < a) /\
    b - a = r - 256 * (1 - f) /\
    (forall k : nat, k <> Z.to_nat x -> k <> 15%nat -> V c' !! k = V c !! k).
Proof.
  intros Hwf Hx Hy Hf Ha Hb Hra Hrb. enter_alu Hf.
  set (c1 := fetched c _).
  assert (Hwf1 : wf c1) by (by apply wf_fetched).
  rewrite (getV_lookup c1 x a), (getV_lookup c1 y b) by (done || lia).
  cbn [bind]. rewrite setV_inside by (apply Hwf || lia). cbn [bind].
  rewrite (getV_lookup _ y b), (getV_lookup _ x a)
    by (lia || by rewrite V_after_flag by lia).
  cbn [bind]. rewrite setV_inside; [|cbn; rewrite length_insert; apply Hwf|lia].
  destruct (flag_then_result c1 x (Z.b2z (a <=? b)) ((b - a) mod 256) Hwf1 Hx)
    as (Hr & Hfl & Hk).
  eexists _, ((b - a) mod 256), (Z.b2z (a <=? b)).
  split; [done|]. split; [exact Hr|]. split; [exact Hfl|].
  split; [done|]. split; [|split; [|split; [|exact Hk]]];
    destruct (Z.leb_spec a b); cbn [Z.b2z];
    try (split; intros; lia || done);
    Z.to_euclidean_division_equations; lia.
Qed.

(** An instance: 8127 with [V1 = 5] and [V2 = 7]. *)
Lemma reverse_sub_borrow_law_witness :
  let c := with_VxVy 1 5 2 7 (boot [0x81; 0x27]) in
  exists c' r f,
    emulate_chip8 c set_config 0 = Done c' /\
    V c' !! Z.to_nat 1 = Some r /\ V c' !! 15%nat = Some f /\
    r = (7 - 5) mod 256 /\ (f = 1 <-> 5 <= 7) /\ (f = 0 <-> 7 < 5) /\
    7 - 5 = r - 256 * (1 - f) /\
    (forall k : nat, k <> Z.to_nat 1 -> k <> 15%nat -> V c' !! k = V c !! k).
Proof.
  intros c. apply (reverse_sub_borrow_law c set_config 0 1 2 5 7);
    first [ wf_run | lia | by_run ].
Defined.

Lemma byte_low_bit a : Z.land a 1 = a mod 2.
Proof. change 1 with (Z.ones 1) at 1. by rewrite Z.land_ones by lia. Qed.

Lemma byte_high_bit a : 0 <= a < 256 -> Z.shiftr (Z.land a 0x80) 7 = a / 128.
Proof.
  intros Ha. rewrite Z.shiftr_land. change (Z.shiftr 0x80 7) with (Z.ones 1).
  rewrite Z.land_ones, Z.shiftr_div_pow2 by lia.
  change (2 ^ 7) with 128. change (2 ^ 1) with 2.
  Z.to_euclidean_division_equations. lia.
Qed.

(** 8XY6, for [X] other than [F] and a byte [a] in [V[X]]: [V[X]] becomes
    [a / 2] and [V[F]] the bit shifted out, so [a = 2 * V[X] + V[F]];
    [V[Y]] plays no part and no other register changes. *)
Theorem shift_right_law c cfg rnd x y a :
  wf c -> 0 <= x < 15 -> 0 <= y < 16 ->
  fetch_opcode c = Done (nibbles 8 x y 6) ->
  V c !! Z.to_nat x = Some a -> 0 <= a < 256 ->
  exists c' r f,
    emulate_chip8 c cfg rnd = Done c' /\
    V c' !! Z.to_nat x = Some r /\ V c' !! 15%nat = Some f /\
    r = a / 2 /\ (f = 0 \/ f = 1) /\ a = 2 * r + f /\
    (forall k : nat, k <> Z.to_nat x -> k <> 15%nat -> V c' !! k = V c !! k).
Proof.
  intros Hwf Hx Hy Hf Ha Hra. enter_alu Hf.
  set (c1 := fetched c _).
  assert (Hwf1 : wf c1) by (by apply wf_fetched).
  rewrite (getV_lookup c1 x a) by (done || lia).
  cbn [bind]. rewrite setV_inside by (apply Hwf || lia). cbn [bind].
  rewrite (getV_lookup _ x a) by (lia || by rewrite V_after_flag by lia).
  cbn [bind]. rewrite setV_inside; [|cbn; rewrite length_insert; apply Hwf|lia].
  rewrite byte_low_bit, Z.shiftr_div_pow2 by lia. change (2 ^ 1) with 2.
  destruct (flag_then_result c1 x (a mod 2) (a / 2) Hwf1 Hx) as (Hr & Hfl & Hk).
  eexists _, (a / 2), (a mod 2).
  split; [done|]. split; [exact Hr|]. split; [exact Hfl|].
  split; [done|]. split; [|split; [|exact Hk]];
    Z.to_euclidean_division_equations; lia.
Qed.

(** An instance: 8126 with [V1 = 0x35]. *)
Lemma shift_right_law_witness :
  let c := with_VxVy 1 0x35 2 7 (boot [0x81; 0x26]) in
  exists c' r f,
    emulate_chip8 c set_config 0 = Done c' /\
    V c' !! Z.to_nat 1 = Some r /\ V c' !! 15%nat = Some f /\
    r = 0x35 / 2 /\ (f = 0 \/ f = 1) /\ 0x35 = 2 * r + f /\
    (forall k : nat, k <> Z.to_nat 1 -> k <> 15%nat -> V c' !! k = V c !! k).
Proof.
  intros c. apply (shift_right_law c set_config 0 1 2 0x35);
    first [ wf_run | lia | by_run ].
Defined.

(** 8XYE, for [X] other than [F] and a byte [a] in [V[X]]: [V[F]] becomes
    the top bit of [a] and [V[X]] the low eight bits of [2 * a], so
    [2 * a = 256 * V[F] + V[X]]; [V[Y]] plays no part and no other register
    changes. *)
Theorem shift_left_law c cfg rnd x y a :
  wf c -> 0 <= x < 15 -> 0 <= y < 16 ->
  fetch_opcode c = Done (nibbles 8 x y 0xE) ->
  V c !! Z.to_nat x = Some a -> 0 <= a < 256 ->
  exists c' r f,
    emulate_chip8 c cfg rnd = Done c' /\
    V c' !! Z.to_nat x = Some r /\ V c' !! 15%nat = Some f /\
    0 <= r < 256 /\ (f = 0 \/ f = 1) /\ 2 * a = 256 * f + r /\
    (forall k : nat, k <> Z.to_nat x -> k <> 15%nat -> V c' !! k = V c !! k).
Proof.
  intros Hwf Hx Hy Hf Ha Hra. enter_alu Hf.
  set (c1 := fetched c _).
  assert (Hwf1 : wf c1) by (by apply wf_fetched).
  rewrite (getV_lookup c1 x a) by (done || lia).
  cbn [bind]. rewrite setV_inside by (apply Hwf || lia). cbn [bind].
  rewrite (getV_lookup _ x a) by (lia || by rewrite V_after_flag by lia).
  cbn [bind]. rewrite setV_inside; [|cbn; rewrite length_insert; apply Hwf|lia].
  rewrite byte_high_bit, Z.shiftl_mul_pow2 by lia. change (2 ^ 1) with 2.
  destruct (flag_then_result c1 x (a / 128) (a * 2 mod 256) Hwf1 Hx)
    as (Hr & Hfl & Hk).
  eexists _, (a * 2 mod 256), (a / 128).
  split; [done|]. split; [exact Hr|]. split; [exact Hfl|].
  split; [|split; [|split; [|exact Hk]]];
    Z.to_euclidean_division_equations; lia.
Qed.

(** An instance: 812E with [V1 = 0xB5]. *)
Lemma shift_left_law_witness :
  let c := with_VxVy 1 0xB5 2 7 (boot [0x81; 0x2E]) in
  exists c' r f,
    emulate_chip8 c set_config 0 = Done c' /\
    V c' !! Z.to_nat 1 = Some r /\ V c' !! 15%nat = Some f /\
    0 <= r < 256 /\ (f = 0 \/ f = 1) /\ 2 * 0xB5 = 256 * f + r /\
    (forall k : nat, k <> Z.to_nat 1 -> k <> 15%nat -> V c' !! k = V c !! k).
Proof.
  intros c. apply (shift_left_law c set_config 0 1 2 0xB5);
    first [ wf_run | lia | by_run ].
Defined.

(** ** 2NNN followed by 00EE *)

Lemma call_step c cfg rnd x y n :
  wf c -> 0 <= x < 16 -> 0 <= y < 16 -> 0 <= n < 16 ->
  fetch_opcode c = Done (nibbles 2 x y n) -> 0 <= stack_ptr c < 12 ->
  emulate_chip8 c cfg rnd
  = Done (set_PC (256 * x + 16 * y + n)
           (set_stack_ptr (stack_ptr c + 1)
             (set_stack (<[Z.to_nat (stack_ptr c) := (PC c + 2) mod 65536]> (stack c))
                (fetched c (nibbles 2 x y n))))).
Proof.
  intros Hwf Hx Hy Hn Hf Hsp. pose proof (wf_stack _ Hwf) as Hlen.
  rewrite (emulate_fetched _ _ _ _ Hf).
  unfold execute. rewrite inst_fetched, decode_top, decode_NNN by lia.
  cbv iota. cbn [stack stack_ptr PC fetched set_inst set_PC].
  by rewrite store_inside by lia.
Qed.

Lemma return_step c cfg rnd a :
  wf c -> fetch_opcode c = Done (nibbles 0 0 0xE 0xE) ->
  0 < stack_ptr c <= 12 -> stack c !! Z.to_nat (stack_ptr c - 1) = Some a ->
  emulate_chip8 c cfg rnd
  = Done (set_PC a (set_stack_ptr (stack_ptr c - 1)
                      (fetched c (nibbles 0 0 0xE 0xE)))).
Proof.
  intros Hwf Hf Hsp Ha.
  rewrite (emulate_fetched _ _ _ _ Hf).
  unfold execute. rewrite inst_fetched, decode_top, decode_NN by lia.
  cbv iota.
  change (16 * 0xE + 0xE =? 0xE0) with false.
  change (16 * 0xE + 0xE =? 0xEE) with true. cbv iota.
  cbn [stack stack_ptr set_stack_ptr fetched set_inst set_PC].
  by rewrite (load_lookup _ _ _ a) by (done || lia).
Qed.

(** A call with room on the stack whose target holds 00EE comes back: after
    the two instructions [PC] is just past the 2NNN, the stack pointer is
    where it was, and registers, [I], memory and display are untouched. *)
Theorem call_then_return c cfg r1 r2 x y n :
  wf c -> 0 <= x < 16 -> 0 <= y < 16 -> 0 <= n < 16 ->
  fetch_opcode c = Done (nibbles 2 x y n) -> 0 <= stack_ptr c < 12 ->
  exists c1,
    emulate_chip8 c cfg r1 = Done c1 /\
    PC c1 = 256 * x + 16 * y + n /\ stack_ptr c1 = stack_ptr c + 1 /\
    (fetch_opcode c1 = Done (nibbles 0 0 0xE 0xE) ->
     exists c2,
       emulate_chip8 c1 cfg r2 = Done c2 /\
       PC c2 = (PC c + 2) mod 65536 /\ stack_ptr c2 = stack_ptr c /\
       V c2 = V c /\ I c2 = I c /\ ram c2 = ram c /\ display c2 = display c /\
       delay_timer c2 = delay_timer c /\ sound_timer c2 = sound_timer c).
Proof.
  intros Hwf Hx Hy Hn Hf Hsp. pose proof (wf_stack _ Hwf) as Hlen.
  rewrite (call_step c cfg r1 x y n) by done.
  eexists. split; [done|]. split; [done|]. split; [done|]. intros Hf1.
  rewrite (return_step _ cfg r2 ((PC c + 2) mod 65536)); try done.
  - eexists. split; [done|]. repeat split. cbn. lia.
  - destruct Hwf. split; cbn; rewrite ?length_insert; done.
  - cbn. lia.
  - cbn. replace (stack_ptr c + 1 - 1) with (stack_ptr c) by lia.
    apply list_lookup_insert_eq. lia.
Qed.

(** An instance: the call and the return of [rom_call_return]. *)
Lemma call_then_return_witness :
  let c := boot rom_call_return in
  next_opcode c = Done (nibbles 0 0 0xE 0xE) /\
  exists c1,
    emulate_chip8 c set_config 0 = Done c1 /\
    PC c1 = 256 * 2 + 16 * 0 + 4 /\ stack_ptr c1 = stack_ptr c + 1 /\
    (fetch_opcode c1 = Done (nibbles 0 0 0xE 0xE) ->
     exists c2,
       emulate_chip8 c1 set_config 0 = Done c2 /\
       PC c2 = (PC c + 2) mod 65536 /\ stack_ptr c2 = stack_ptr c /\
       V c2 = V c /\ I c2 = I c /\ ram c2 = ram c /\ display c2 = display c /\
       delay_timer c2 = delay_timer c /\ sound_timer c2 = sound_timer c).
Proof.
  intros c. split; [by_run|].
  apply (call_then_return c set_config 0 0 2 0 4);
    first [ wf_run | lia | by_run ].
Defined.

(** ** DXYN: one draw *)

(** A mask that is off on the whole grid leaves the display as it is. *)
Lemma xored_nothing m d d' :
  length d = 2048%nat -> length d' = 2048%nat ->
  (forall x y, 0 <= x < 64 -> 0 <= y < 32 -> m x y = false) ->
  xored m d d' -> d' = d.
Proof.
  intros Hl Hl' Hm Hx. apply list_eq. intros k.
  destruct (decide (k < 2048)%nat) as [Hk|Hk].
  - destruct (cell_of_index k Hk) as (x & y & Hx0 & Hy0 & ->).
    rewrite (Hx x y), (Hm x y) by done.
    destruct (d !! cell x y) as [[]|]; done.
  - rewrite !lookup_ge_None_2 by lia. done.
Qed.

(** One DXYN with the sprite's [N] bytes in memory: every cell of the
    64x32 grid is XOR-ed with the sprite bit over it (clipped at the right
    and bottom edges); [V[F]] ends 1 exactly when a set sprite bit fell on a
    cell that was on, and 0 otherwise; the other registers, [I] and memory
    are unchanged and the redraw flag is raised. *)
Theorem draw_collision_law c rnd x y n vx vy :
  wf c -> 0 <= x < 16 -> 0 <= y < 16 -> 0 <= n < 16 ->
  fetch_opcode c = Done (nibbles 0xD x y n) ->
  V c !! Z.to_nat x = Some vx -> V c !! Z.to_nat y = Some vy ->
  0 <= I c -> I c + n <= 4096 ->
  exists c' (b : bool),
    emulate_chip8 c set_config rnd = Done c' /\
    (forall px py, 0 <= px < 64 -> 0 <= py < 32 ->
       display c' !! cell px py
       = (fun p => xorb p (sprite_on (ram c) (I c) (vx mod 64) (vy mod 32) n px py))
           <$> display c !! cell px py) /\
    V c' !! 15%nat = Some (Z.b2z b) /\
    (b = true <->
     exists px py, 0 <= px < 64 /\ 0 <= py < 32 /\
       sprite_on (ram c) (I c) (vx mod 64) (vy mod 32) n px py = true /\
       display c !! cell px py = Some true) /\
    (forall k : nat, k <> 15%nat -> V c' !! k = V c !! k) /\
    ram c' = ram c /\ I c' = I c /\ draw c' = true.
Proof.
  intros Hwf Hx Hy Hn Hf Hvx Hvy HI0 HI.
  pose proof (draw_sprite_spec c rnd x y n vx vy Hwf Hx Hy Hn Hf Hvx Hvy) as Hs.
  destruct (emulate_chip8 c set_config rnd) as [c1|arr a]; [|lia].
  destruct Hs as (d1 & b & -> & Hl & Hxor & Hb).
  eexists _, b. split; [done|]. cbn.
  split; [exact Hxor|]. split.
  { apply list_lookup_insert_eq. destruct Hwf; lia. }
  split; [exact Hb|]. split; [|done].
  intros k Hk. by rewrite list_lookup_insert_ne.
Qed.

(** An instance: the first draw of [rom_twice]. *)
Lemma draw_collision_law_witness :
  let c := run 3 rom_twice in
  exists c' (b : bool),
    emulate_chip8 c set_config 0 = Done c' /\
    (forall px py, 0 <= px < 64 -> 0 <= py < 32 ->
       display c' !! cell px py
       = (fun p => xorb p (sprite_on (ram c) (I c) (5 mod 64) (3 mod 32) 3 px py))
           <$> display c !! cell px py) /\
    V c' !! 15%nat = Some (Z.b2z b) /\
    (b = true <->
     exists px py, 0 <= px < 64 /\ 0 <= py < 32 /\
       sprite_on (ram c) (I c) (5 mod 64) (3 mod 32) 3 px py = true /\
       display c !! cell px py = Some true) /\
    (forall k : nat, k <> 15%nat -> V c' !! k = V c !! k) /\
    ram c' = ram c /\ I c' = I c /\ draw c' = true.
Proof.
  intros c. apply (draw_collision_law c 0 0 1 3 5 3);
    first [ wf_run | lia | by_run ].
Defined.

(** DXY0 draws nothing: whatever [I] is, no sprite byte is read, the display
    is unchanged, [V[F]] is 0 and the redraw flag is raised. *)
Theorem draw_no_rows c rnd x y :
  wf c -> 0 <= x < 16 -> 0 <= y < 16 ->
  fetch_opcode c = Done (nibbles 0xD x y 0) ->
  emulate_chip8 c set_config rnd
  = Done (set_draw true (set_V (<[15%nat := 0]> (V c))
            (fetched c (nibbles 0xD x y 0)))).
Proof.
  intros Hwf Hx Hy Hf.
  destruct (getV_inside c x (wf_V _ Hwf) Hx) as (vx & Hvx & _).
  destruct (getV_inside c y (wf_V _ Hwf) Hy) as (vy & Hvy & _).
  pose proof (draw_sprite_spec c rnd x y 0 vx vy Hwf Hx Hy ltac:(lia) Hf Hvx Hvy)
    as Hs.
  destruct (emulate_chip8 c set_config rnd) as [c1|arr a]; [|lia].
  destruct Hs as (d1 & b & -> & Hl & Hxor & Hb).
  assert (d1 = display c) as ->.
  { eapply xored_nothing; [apply Hwf|done| |exact Hxor].
    intros px py _ _. apply sprite_on_none. }
  assert (b = false) as ->.
  { destruct b; [|done]. destruct (proj1 Hb eq_refl) as (px & py & _ & _ & Hm & _).
    by rewrite sprite_on_none in Hm. }
  done.
Qed.

(** An instance: D010 on a fresh boot. *)
Lemma draw_no_rows_witness :
  emulate_chip8 (boot rom_draw_nothing) set_config 0
  = Done (set_draw true (set_V (<[15%nat := 0]> (V (boot rom_draw_nothing)))
            (fetched (boot rom_draw_nothing) (nibbles 0xD 0 1 0)))).
Proof.
  apply (draw_no_rows (boot rom_draw_nothing) 0 0 1);
    first [ wf_run | lia | by_run ].
Defined.

(** ** 00E0, and a draw on the cleared screen *)

Lemma clear_step c cfg rnd x :
  wf c -> 0 <= x < 16 ->
  fetch_opcode c = Done (nibbles 0 x 0xE 0) ->
  emulate_chip8 c cfg rnd
  = Done (set_draw true (set_display (replicate 2048 false)
            (fetched c (nibbles 0 x 0xE 0)))).
Proof.
  intros Hwf Hx Hf.
  rewrite (emulate_fetched _ _ _ _ Hf).
  unfold execute. rewrite inst_fetched, decode_top, decode_NN by lia.
  cbv iota. change (16 * 0xE + 0 =? 0xE0) with true. cbv iota.
  cbn [display fetched set_inst set_PC]. by rewrite (wf_display _ Hwf).
Qed.

(** 00E0 turns every cell off and raises the redraw flag (the high digit
    [X] of 0XE0 is not looked at); a DXYN run next, with its sprite in
    memory, never collides and shows exactly the clipped sprite. *)
Theorem clear_then_draw c r1 r2 x0 x y n vx vy :
  wf c -> 0 <= x0 < 16 -> 0 <= x < 16 -> 0 <= y < 16 -> 0 <= n < 16 ->
  fetch_opcode c = Done (nibbles 0 x0 0xE 0) ->
  V c !! Z.to_nat x = Some vx -> V c !! Z.to_nat y = Some vy ->
  0 <= I c -> I c + n <= 4096 ->
  exists c1,
    emulate_chip8 c set_config r1 = Done c1 /\
    display c1 = replicate 2048 false /\ draw c1 = true /\
    V c1 = V c /\ I c1 = I c /\ ram c1 = ram c /\
    (fetch_opcode c1 = Done (nibbles 0xD x y n) ->
     exists c2,
       emulate_chip8 c1 set_config r2 = Done c2 /\
       V c2 !! 15%nat = Some 0 /\
       forall px py, 0 <= px < 64 -> 0 <= py < 32 ->
         display c2 !! cell px py
         = Some (sprite_on (ram c) (I c) (vx mod 64) (vy mod 32) n px py)).
Proof.
  intros Hwf Hx0 Hx Hy Hn Hf Hvx Hvy HI0 HI.
  rewrite (clear_step c set_config r1 x0) by done.
  eexists. split; [done|]. do 5 (split; [done|]). intros Hf1.
  set (c1 := set_draw _ _) in *.
  assert (Hwf1 : wf c1).
  { destruct Hwf. split; cbn; rewrite ?length_replicate; done. }
  pose proof (draw_sprite_spec c1 r2 x y n vx vy Hwf1 Hx Hy Hn Hf1 Hvx Hvy) as Hs.
  change (I c1) with (I c) in Hs. change (ram c1) with (ram c) in Hs.
  change (display c1) with (replicate 2048 false) in Hs.
  destruct (emulate_chip8 c1 set_config r2) as [c2|arr a]; [|lia].
  destruct Hs as (d2 & b & -> & Hl & Hxor & Hb).
  assert (b = false) as ->.
  { destruct b; [|done].
    destruct (proj1 Hb eq_refl) as (px & py & Hpx & Hpy & _ & Hon).
    apply lookup_replicate in Hon. by destruct Hon. }
  eexists. split; [done|]. cbn. split.
  { apply list_lookup_insert_eq. destruct Hwf; lia. }
  intros px py Hpx Hpy. rewrite (Hxor px py Hpx Hpy).
  rewrite lookup_replicate_2 by (by apply cell_lt). done.
Qed.

(** An instance: [rom_clear_draw], which draws the glyph of 0 at (0, 0). *)
Lemma clear_then_draw_witness :
  let c := boot rom_clear_draw in
  next_opcode c = Done (nibbles 0xD 0 1 5) /\
  exists c1,
    emulate_chip8 c set_config 0 = Done c1 /\
    display c1 = replicate 2048 false /\ draw c1 = true /\
    V c1 = V c /\ I c1 = I c /\ ram c1 = ram c /\
    (fetch_opcode c1 = Done (nibbles 0xD 0 1 5) ->
     exists c2,
       emulate_chip8 c1 set_config 0 = Done c2 /\
       V c2 !! 15%nat = Some 0 /\
       forall px py, 0 <= px < 64 -> 0 <= py < 32 ->
         display c2 !! cell px py
         = Some (sprite_on (ram c) (I c) (0 mod 64) (0 mod 32) 5 px py)).
Proof.
  intros c. split; [by_run|].
  apply (clear_then_draw c 0 0 0 0 1 5 0 0); first [ wf_run | lia | by_run ].
Defined.

(** ** update_timers *)

(** [n] ticks of [update_timers]: each timer goes down by one per tick and
    stops at 0; nothing else changes. *)
Theorem timers_count_down n : forall c,
  0 <= delay_timer c -> 0 <= sound_timer c ->
  Nat.iter n update_timers c
  = set_sound_timer (Z.max 0 (sound_timer c - Z.of_nat n))
      (set_delay_timer (Z.max 0 (delay_timer c - Z.of_nat n)) c).
Proof.
  induction n as [|n IH]; intros c Hd Hs.
  - change (Nat.iter 0 update_timers c) with c. cbn [Z.of_nat].
    rewrite !Z.sub_0_r, !Z.max_r by lia. by destruct c.
  - rewrite Nat.iter_succ, IH by done. rewrite Nat2Z.inj_succ.
    unfold update_timers.
    cbn [delay_timer sound_timer set_delay_timer set_sound_timer].
    destruct (Z.gtb_spec (Z.max 0 (delay_timer c - Z.of_nat n)) 0);
      cbn [delay_timer sound_timer set_delay_timer set_sound_timer];
      destruct (Z.gtb_spec (Z.max 0 (sound_timer c - Z.of_nat n)) 0);
      unfold set_delay_timer, set_sound_timer;
      cbn [delay_timer sound_timer state ram display stack stack_ptr V PC I
           keypad rom_name inst draw];
      f_equal; lia.
Qed.

(** An instance: three ticks from timers 2 and 200. *)
Lemma timers_count_down_witness :
  let c := set_sound_timer 200 (set_delay_timer 2 zero_chip8) in
  Nat.iter 3 update_timers c
  = set_sound_timer (Z.max 0 (sound_timer c - Z.of_nat 3))
      (set_delay_timer (Z.max 0 (delay_timer c - Z.of_nat 3)) c).
Proof.
  intros c. apply (timers_count_down 3 c); by_run.
Defined.

(** ** Opcodes without a case *)

(** An opcode that no case of the dispatch takes only advances [PC]: 0NNN
    with a low byte other than E0 and EE, 8XYN with [N] in 8..D or F, EXNN
    with a low byte other than 9E and A1, FXNN with a low byte outside the
    nine handled ones. *)
Theorem unhandled_opcodes_only_advance c cfg rnd a x y n :
  wf c -> 0 <= x < 16 -> 0 <= y < 16 -> 0 <= n < 16 ->
  fetch_opcode c = Done (nibbles a x y n) ->
  (a = 0x0 /\ 16 * y + n <> 0xE0 /\ 16 * y + n <> 0xEE) \/
  (a = 0x8 /\ (8 <= n <= 0xD \/ n = 0xF)) \/
  (a = 0xE /\ 16 * y + n <> 0x9E /\ 16 * y + n <> 0xA1) \/
  (a = 0xF /\ 16 * y + n <> 0x07 /\ 16 * y + n <> 0x0A /\
   16 * y + n <> 0x15 /\ 16 * y + n <> 0x18 /\ 16 * y + n <> 0x1E /\
   16 * y + n <> 0x29 /\ 16 * y + n <> 0x33 /\ 16 * y + n <> 0x55 /\
   16 * y + n <> 0x65) ->
  emulate_chip8 c cfg rnd = Done (fetched c (nibbles a x y n)) /\
  PC (fetched c (nibbles a x y n)) = (PC c + 2) mod 65536.
Proof.
  intros Hwf Hx Hy Hn Hf Hop. split; [|done].
  rewrite (emulate_fetched _ _ _ _ Hf). unfold execute.
  destruct Hop as [(-> & H1 & H2)|[(-> & Hn8)|[(-> & H1 & H2)|(-> & Hnn)]]];
    rewrite inst_fetched, decode_top by lia; cbv iota.
  - rewrite ?inst_fetched, decode_NN by lia.
    by rewrite (proj2 (Z.eqb_neq _ _) H1), (proj2 (Z.eqb_neq _ _) H2).
  - unfold execute_alu. rewrite ?inst_fetched, decode_N by lia.
    assert (n = 8 \/ n = 9 \/ n = 10 \/ n = 11 \/ n = 12 \/ n = 13 \/ n = 15)
      as Hcases by lia.
    destruct Hcases as [->|[->|[->|[->|[->|[->| ->]]]]]]; done.
  - rewrite ?inst_fetched, decode_NN by lia.
    by rewrite (proj2 (Z.eqb_neq _ _) H1), (proj2 (Z.eqb_neq _ _) H2).
  - unfold execute_misc. rewrite ?inst_fetched, decode_NN by lia.
    remember (16 * y + n) as nn eqn:E. clear E.
    destruct nn as [|p|p]; [done| |done].
    do 8 (try destruct p as [p|p|]); cbv iota; try reflexivity; exfalso; lia.
Qed.

(** An instance: F2FF at [0x200]. *)
Lemma unhandled_opcodes_only_advance_witness :
  emulate_chip8 (boot [0xF2; 0xFF]) set_config 0
  = Done (fetched (boot [0xF2; 0xFF]) (nibbles 0xF 2 0xF 0xF)) /\
  PC (fetched (boot [0xF2; 0xFF]) (nibbles 0xF 2 0xF 0xF))
  = (PC (boot [0xF2; 0xFF]) + 2) mod 65536.
Proof.
  apply (unhandled_opcodes_only_advance (boot [0xF2; 0xFF]) set_config 0
           0xF 2 0xF 0xF); first [ wf_run | lia | by_run ].
Defined.

(** ** EX9E and EXA1: skips on a key *)

(** From one post-fetch machine, EX9E and EXA1 look at the same key, the
    one numbered by the low four bits of [V[X]] (so the index is always
    inside the keypad); EX9E moves [PC] by 2 exactly when it is down and
    EXA1 exactly when it is up.  Nothing but [PC] changes. *)
Theorem key_skips_are_complements c cfg rnd x vx :
  wf c -> 0 <= x < 16 -> V c !! Z.to_nat x = Some vx ->
  let at_op y n := set_inst (decode (nibbles 0xE x y n)) c in
  let skipped y n := set_PC ((PC c + 2) mod 65536) (at_op y n) in
  exists k : bool,
    keypad c !! Z.to_nat (vx mod 16) = Some k /\
    execute (at_op 9 0xE) cfg rnd
    = Done (if k then skipped 9 0xE else at_op 9 0xE) /\
    execute (at_op 0xA 1) cfg rnd
    = Done (if k then at_op 0xA 1 else skipped 0xA 1).
Proof.
  intros Hwf Hx Hvx at_op skipped.
  assert (Hidx : Z.land vx 0x0F = vx mod 16).
  { change 0x0F with (Z.ones 4). by rewrite Z.land_ones by lia. }
  assert (Hr : 0 <= vx mod 16 < 16) by (apply Z.mod_pos_bound; lia).
  destruct (load_inside Keypad (keypad c) (vx mod 16)) as (k & Hk & Hload);
    [destruct Hwf; lia|].
  exists k. split; [done|]. split.
  - unfold execute. cbn [inst at_op set_inst].
    rewrite decode_top, decode_NN, decode_X by lia. cbv iota.
    change (16 * 9 + 0xE =? 0x9E) with true. cbv iota.
    rewrite (getV_lookup _ x vx) by (done || lia). cbn [bind].
    change (keypad (at_op _ _)) with (keypad c).
    change (PC (at_op _ _)) with (PC c). rewrite Hidx, Hload.
    cbn [bind]. by destruct k.
  - unfold execute. cbn [inst at_op set_inst].
    rewrite decode_top, decode_NN, decode_X by lia. cbv iota.
    change (16 * 0xA + 1 =? 0x9E) with false.
    change (16 * 0xA + 1 =? 0xA1) with true. cbv iota.
    rewrite (getV_lookup _ x vx) by (done || lia). cbn [bind].
    change (keypad (at_op _ _)) with (keypad c).
    change (PC (at_op _ _)) with (PC c). rewrite Hidx, Hload.
    cbn [bind]. by destruct k.
Qed.

(** An instance: [V5 = 0x13] looks at key 3. *)
Lemma key_skips_are_complements_witness :
  let c := fetched key3_down 0xE59E in
  let at_op y n := set_inst (decode (nibbles 0xE 5 y n)) c in
  let skipped y n := set_PC ((PC c + 2) mod 65536) (at_op y n) in
  keypad c !! 3%nat = Some true /\
  exists k : bool,
    keypad c !! Z.to_nat (0x13 mod 16) = Some k /\
    execute (at_op 9 0xE) set_config 0
    = Done (if k then skipped 9 0xE else at_op 9 0xE) /\
    execute (at_op 0xA 1) set_config 0
    = Done (if k then at_op 0xA 1 else skipped 0xA 1).
Proof.
  intros c at_op skipped. split; [by_run|].
  apply (key_skips_are_complements c set_config 0 5 0x13);
    first [ wf_run | lia | by_run ].
Defined.

(** ** init_chip8: when it succeeds, and what a failure leaves *)

(** [init_chip8] succeeds exactly for a ROM file that opens and has between
    1 and 3584 bytes.  When it fails the machine is not started: only the
    font has been written (addresses 0..79), memory from address 80 on,
    [PC], the run state and every other field are as they were. *)
Theorem init_succeeds_iff c name rom :
  length (ram c) = 4096%nat ->
  (snd (init_chip8 c name rom) = InitOk <->
   exists file, rom = Some file /\ 1 <= Z.of_nat (length file) <= 3584) /\
  (snd (init_chip8 c name rom) <> InitOk ->
   fst (init_chip8 c name rom) = set_ram (ram (fst (init_chip8 c name rom))) c /\
   (forall a : nat, (a < 80)%nat ->
      ram (fst (init_chip8 c name rom)) !! a = font !! a) /\
   (forall a : nat, (80 <= a)%nat ->
      ram (fst (init_chip8 c name rom)) !! a = ram c !! a)).
Proof.
  intros Hlen. unfold init_chip8. cbn [ram set_ram].
  rewrite length_inserts, Hlen. change (Z.of_nat 4096 - entry_point) with 3584.
  assert (Hfont : length font = 80%nat) by reflexivity.
  assert (Hfail :
    (forall a : nat, (a < 80)%nat -> list_inserts 0 font (ram c) !! a = font !! a) /\
    (forall a : nat, (80 <= a)%nat -> list_inserts 0 font (ram c) !! a = ram c !! a)).
  { split; intros a Ha.
    - rewrite list_lookup_inserts by lia. f_equal. lia.
    - by rewrite list_lookup_inserts_ge by lia. }
  destruct rom as [file|]; cbn [fst snd].
  - set (L := Z.of_nat (length file)).
    destruct (Z.gtb_spec L 3584) as [Hbig|Hfit]; cbn [fst snd].
    { split; [|done]. split; [done|]. intros (f & [= <-] & ?). lia. }
    unfold fread_items. fold L.
    destruct (Z.eqb_spec L 0) as [H0|H0]; cbn [orb negb Z.eqb fst snd].
    { split; [|done]. split; [done|]. intros (f & [= <-] & ?). lia. }
    change (1 =? 0) with false. cbv iota.
    rewrite Z.div_same by lia. change (Z.min 1 1 =? 1) with true.
    cbn [negb fst snd]. split; [|done].
    split; [|done]. intros _. exists file. split; [done|lia].
  - split; [|done]. split; [done|]. by intros (f & [=] & _).
Qed.

(** An instance: no ROM file. *)
Lemma init_succeeds_iff_witness :
  (snd (init_chip8 zero_chip8 String.EmptyString None) = InitOk <->
   exists file : list Z, None = Some file /\ 1 <= Z.of_nat (length file) <= 3584) /\
  (snd (init_chip8 zero_chip8 String.EmptyString None) <> InitOk ->
   fst (init_chip8 zero_chip8 String.EmptyString None)
   = set_ram (ram (fst (init_chip8 zero_chip8 String.EmptyString None))) zero_chip8 /\
   (forall a : nat, (a < 80)%nat ->
      ram (fst (init_chip8 zero_chip8 String.EmptyString None)) !! a = font !! a) /\
   (forall a : nat, (80 <= a)%nat ->
      ram (fst (init_chip8 zero_chip8 String.EmptyString None)) !! a
      = ram zero_chip8 !! a)).
Proof.
  apply (init_succeeds_iff zero_chip8 String.EmptyString None). reflexivity.
Defined.

(** ** handle_input *)

Lemma handle_event_layout sym c :
  match keypad_layout sym with
  | Some k =>
    (k < 16)%nat /\
    handle_event c (SDL_KEYDOWN sym) = (set_key k true c, false) /\
    handle_event c (SDL_KEYUP sym) = (set_key k false c, false)
  | None =>
    keypad (fst (handle_event c (SDL_KEYDOWN sym))) = keypad c /\
    handle_event c (SDL_KEYUP sym) = (c, false)
  end.
Proof.
  destruct sym; cbn [keypad_layout handle_event fst];
    first [ split; [by destruct (state c)|done]
          | split; [lia|split; reflexivity]
          | split; reflexivity ].
Qed.

(** The two switches of [handle_input] follow the layout of its comment:
    a mapped key sets its keypad entry on key-down and clears the same entry
    on key-up; Escape and all other keys touch no entry.  The layout is
    one-to-one and reaches each of the 16 entries. *)
Theorem keys_follow_layout :
  (forall sym c,
     match keypad_layout sym with
     | Some k =>
       (k < 16)%nat /\
       handle_event c (SDL_KEYDOWN sym) = (set_key k true c, false) /\
       handle_event c (SDL_KEYUP sym) = (set_key k false c, false)
     | None =>
       keypad (fst (handle_event c (SDL_KEYDOWN sym))) = keypad c /\
       handle_event c (SDL_KEYUP sym) = (c, false)
     end) /\
  (forall s1 s2 k,
     keypad_layout s1 = Some k -> keypad_layout s2 = Some k -> s1 = s2) /\
  (forall k, (k < 16)%nat -> exists sym, keypad_layout sym = Some k).
Proof.
  split; [exact handle_event_layout|split].
  - intros s1 s2 k H1 H2. destruct s1; cbn in H1; try discriminate;
      injection H1 as <-; destruct s2; cbn in H2; try discriminate; done.
  - intros k Hk.
    do 16 (destruct k as [|k];
           [first [ by exists SDLK_x | by exists SDLK_1 | by exists SDLK_2
                  | by exists SDLK_3 | by exists SDLK_q | by exists SDLK_w
                  | by exists SDLK_e | by exists SDLK_a | by exists SDLK_s
                  | by exists SDLK_d | by exists SDLK_z | by exists SDLK_c
                  | by exists SDLK_4 | by exists SDLK_r | by exists SDLK_f
                  | by exists SDLK_v ]|]).
    lia.
Qed.

Lemma handle_event_frame c e :
  wf c ->
  wf (fst (handle_event c e)) /\
  fst (handle_event c e)
  = set_keypad (keypad (fst (handle_event c e)))
      (set_state (state (fst (handle_event c e))) c).
Proof.
  intros Hwf.
  assert (Hk : forall k b, wf (set_key k b c)).
  { intros k b. destruct Hwf. split; cbn; rewrite ?length_insert; done. }
  destruct e as [|sym|sym|]; [| destruct sym | destruct sym |];
    cbn [handle_event fst]; try (split; [apply Hk|by destruct c]);
    try (split; [done|by destruct c]).
  - split; [by destruct Hwf|by destruct c].
  - destruct (state c); (split; [by destruct Hwf|by destruct c]).
Qed.

Lemma frame_trans c c1 c2 k1 s1 k2 s2 :
  c1 = set_keypad k1 (set_state s1 c) ->
  c2 = set_keypad k2 (set_state s2 c1) ->
  c2 = set_keypad k2 (set_state s2 c).
Proof. by intros -> ->. Qed.

Lemma handle_input_frame events : forall c,
  wf c ->
  wf (fst (handle_input c events)) /\
  fst (handle_input c events)
  = set_keypad (keypad (fst (handle_input c events)))
      (set_state (state (fst (handle_input c events))) c) /\
  exists taken, events = taken ++ snd (handle_input c events).
Proof.
  induction events as [|e rest IH]; intros c Hwf.
  - cbn. split; [done|]. split; [by destruct c|]. by exists [].
  - cbn [handle_input].
    destruct (handle_event_frame c e Hwf) as (Hwf1 & Hf1).
    destruct (handle_event c e) as [c1 returns] eqn:He. cbn [fst] in *.
    destruct returns; cbn [fst snd].
    + split; [done|]. split; [done|]. by exists [e].
    + destruct (IH c1 Hwf1) as (Hwf2 & Hf2 & taken & Ht).
      split; [done|]. split.
      * exact (frame_trans _ _ _ _ _ _ _ Hf1 Hf2).
      * exists (e :: taken). cbn. by rewrite <- Ht.
Qed.

(** Whatever the events, [handle_input] changes nothing of the machine but
    the run state and the keypad (which keeps its 16 entries), and what it
    leaves in the queue is a tail of the queue it found. *)
Theorem input_touches_state_and_keypad events c :
  wf c ->
  wf (fst (handle_input c events)) /\
  fst (handle_input c events)
  = set_keypad (keypad (fst (handle_input c events)))
      (set_state (state (fst (handle_input c events))) c) /\
  exists taken, events = taken ++ snd (handle_input c events).
Proof. apply handle_input_frame. Qed.

(** An instance: a key press, a quit and a key release queued on a fresh
    boot. *)
Lemma input_touches_state_and_keypad_witness :
  let c := boot rom_twice in
  let events := [SDL_KEYDOWN SDLK_q; SDL_QUIT; SDL_KEYUP SDLK_q] in
  wf (fst (handle_input c events)) /\
  fst (handle_input c events)
  = set_keypad (keypad (fst (handle_input c events)))
      (set_state (state (fst (handle_input c events))) c) /\
  exists taken, events = taken ++ snd (handle_input c events).
Proof.
  intros c events. apply (input_touches_state_and_keypad events c). wf_run.
Defined.

Lemma handle_input_no_stop events : forall c,
  Forall (fun e => stops e = false) events ->
  snd (handle_input c events) = [] /\
  state (fst (handle_input c events)) = state c /\
  forall rest e,
    handle_input c (events ++ e :: rest)
    = handle_input (fst (handle_input c events)) (e :: rest).
Proof.
  induction events as [|e0 evs IH]; intros c Hns; [done|].
  apply Forall_cons in Hns as [He0 Hevs].
  cbn [handle_input app].
  assert (Hr : snd (handle_event c e0) = false /\
               state (fst (handle_event c e0)) = state c).
  { destruct e0 as [|sym|sym|]; try done; destruct sym; done. }
  destruct (handle_event c e0) as [c1 returns]. cbn [fst snd] in Hr.
  destruct Hr as [-> Hst].
  destruct (IH c1 Hevs) as (Hq & Hs & Happ).
  split; [done|]. split; [congruence|]. intros rest e. apply Happ.
Qed.

(** [handle_input] returns at the first quit or Escape key-down: the events
    before it are all applied and leave the run state alone, a quit sets
    [QUIT] and Escape flips between [RUNNING] and [PAUSED], and the events
    after it stay in the queue.  Two Escapes bring a running or paused
    machine back to where it was. *)
Theorem input_returns_at_quit_or_escape events c rest :
  Forall (fun e => stops e = false) events ->
  snd (handle_input c events) = [] /\
  state (fst (handle_input c events)) = state c /\
  handle_input c (events ++ SDL_QUIT :: rest)
  = (set_state QUIT (fst (handle_input c events)), rest) /\
  handle_input c (events ++ SDL_KEYDOWN SDLK_ESCAPE :: rest)
  = (toggle_pause (fst (handle_input c events)), rest) /\
  (state c <> QUIT -> toggle_pause (toggle_pause c) = c).
Proof.
  intros Hns.
  destruct (handle_input_no_stop events c Hns) as (Hq & Hs & Happ).
  split; [done|]. split; [done|]. rewrite !Happ. split; [done|].
  split; [done|]. intros Hst. unfold toggle_pause.
  destruct c as [[] ? ? ? ? ? ? ? ? ? ? ? ? ?]; done.
Qed.

(** An instance: a press and a release, then a quit with one more event
    behind it. *)
Lemma input_returns_at_quit_or_escape_witness :
  let c := boot rom_twice in
  let events := [SDL_KEYDOWN SDLK_q; SDL_KEYUP SDLK_q] in
  let rest := [SDL_KEYDOWN SDLK_w] in
  snd (handle_input c events) = [] /\
  state (fst (handle_input c events)) = state c /\
  handle_input c (events ++ SDL_QUIT :: rest)
  = (set_state QUIT (fst (handle_input c events)), rest) /\
  handle_input c (events ++ SDL_KEYDOWN SDLK_ESCAPE :: rest)
  = (toggle_pause (fst (handle_input c events)), rest) /\
  (state c <> QUIT -> toggle_pause (toggle_pause c) = c).
Proof.
  intros c events rest.
  apply (input_returns_at_quit_or_escape events c rest).
  repeat constructor.
Defined.

(** The last event of a key decides: after any events at which
    [handle_input] does not return, a key-up of a mapped key leaves its
    keypad entry off and a key-down leaves it on; the other entries are what
    the earlier events made them, and the queue is empty. *)
Theorem last_key_event_wins events c sym k :
  wf c -> keypad_layout sym = Some k ->
  Forall (fun e => stops e = false) events ->
  let before := fst (handle_input c events) in
  handle_input c (events ++ [SDL_KEYUP sym]) = (set_key k false before, []) /\
  handle_input c (events ++ [SDL_KEYDOWN sym]) = (set_key k true before, []) /\
  (forall b, keypad (set_key k b before) !! k = Some b) /\
  (forall b j, j <> k -> keypad (set_key k b before) !! j = keypad before !! j).
Proof.
  intros Hwf Hk Hns before.
  destruct (handle_input_no_stop events c Hns) as (_ & _ & Happ).
  destruct (handle_input_frame events c Hwf) as (Hwf1 & _).
  pose proof (handle_event_layout sym before) as Hl. rewrite Hk in Hl.
  destruct Hl as (Hlt & Hdown & Hup).
  rewrite !Happ. fold before. cbn [handle_input]. rewrite Hup, Hdown.
  split; [done|]. split; [done|]. split.
  - intros b. cbn. apply list_lookup_insert_eq. fold before in Hwf1.
    destruct Hwf1; lia.
  - intros b j Hj. cbn. by apply list_lookup_insert_ne.
Qed.

(** An instance: [q] pressed, [w] pressed, [q] released. *)
Lemma last_key_event_wins_witness :
  let c := boot rom_twice in
  let events := [SDL_KEYDOWN SDLK_q; SDL_KEYDOWN SDLK_w] in
  let before := fst (handle_input c events) in
  handle_input c (events ++ [SDL_KEYUP SDLK_q]) = (set_key 4 false before, []) /\
  handle_input c (events ++ [SDL_KEYDOWN SDLK_q]) = (set_key 4 true before, []) /\
  (forall b, keypad (set_key 4 b before) !! 4%nat = Some b) /\
  (forall b j, j <> 4%nat ->
     keypad (set_key 4 b before) !! j = keypad before !! j).
Proof.
  intros c events before.
  apply (last_key_event_wins events c SDLK_q 4);
    first [ wf_run | reflexivity | repeat constructor ].
Defined.

(** ** clear_screen and redraw_screen *)

(** The four channels taken from a 32-bit RGBA8888 colour are bytes and put
    the colour together again. *)
Theorem channels_lossless color :
  0 <= color < 2 ^ 32 ->
  exists r g b a,
    channels color = (r, g, b, a) /\
    0 <= r < 256 /\ 0 <= g < 256 /\ 0 <= b < 256 /\ 0 <= a < 256 /\
    color = r * 2 ^ 24 + g * 2 ^ 16 + b * 2 ^ 8 + a.
Proof.
  intros Hc. unfold channels. change 0xFF with (Z.ones 8).
  rewrite !Z.land_ones, !Z.shiftr_div_pow2, Z.pow_0_r, Z.div_1_r by lia.
  eexists _, _, _, _. split; [done|].
  change (2 ^ 32) with 4294967296 in Hc.
  change (2 ^ 24) with 16777216. change (2 ^ 16) with 65536.
  change (2 ^ 8) with 256.
  repeat split; Z.to_euclidean_division_equations; lia.
Qed.

(** An instance: the background colour of [set_config]. *)
Lemma channels_lossless_witness :
  exists r g b a,
    channels (bg_color set_config) = (r, g, b, a) /\
    0 <= r < 256 /\ 0 <= g < 256 /\ 0 <= b < 256 /\ 0 <= a < 256 /\
    bg_color set_config = r * 2 ^ 24 + g * 2 ^ 16 + b * 2 ^ 8 + a.
Proof. apply (channels_lossless (bg_color set_config)). by_run. Defined.

Lemma fills_from_cells pixels : forall i col,
  0 <= i -> i + Z.of_nat (length pixels) <= 2048 ->
  fills_from col (redraw_cells set_config pixels i ++ [SDL_RenderPresent])
  = imap (fun j p => (square (i + Z.of_nat j), cell_colour p)) pixels.
Proof.
  induction pixels as [|p rest IH]; intros i col Hi Hlen; [done|].
  cbn [length] in Hlen. cbn [redraw_cells].
  change (window_width set_config) with 64.
  change (scale_factor set_config) with 20.
  change (pixel_outlines set_config) with true.
  change (set_color (fg_color set_config))
    with (SDL_SetRenderDrawColor 255 255 255 255).
  change (set_color (bg_color set_config))
    with (SDL_SetRenderDrawColor 0 0 0 255).
  change (2 ^ 32) with 4294967296.
  assert (Hx : (i mod 64 * 20) mod 4294967296 = 20 * (i mod 64)).
  { rewrite Z.mod_small; Z.to_euclidean_division_equations; lia. }
  assert (Hy : (i / 64 * 20) mod 4294967296 = 20 * (i / 64)).
  { rewrite Z.mod_small; Z.to_euclidean_division_equations; lia. }
  rewrite Hx, Hy, (Z.mod_small (i + 1)) by lia.
  change (mk_rect (20 * (i mod 64)) (20 * (i / 64)) 20 20) with (square i).
  rewrite imap_cons.
  assert (Hrest : forall col',
    fills_from col' (redraw_cells set_config rest (i + 1) ++ [SDL_RenderPresent])
    = imap ((fun j p => (square (i + Z.of_nat j), cell_colour p)) ∘ S) rest).
  { intros col'. rewrite IH by lia. apply imap_ext. intros j q _. cbn.
    do 2 f_equal. lia. }
  replace (i + Z.of_nat 0) with i by lia.
  destruct p; cbn [app fills_from cell_colour]; by rewrite Hrest.
Qed.

Lemma square_of_cell x y :
  0 <= x < 64 -> 0 <= y ->
  square (Z.of_nat (cell x y)) = mk_rect (20 * x) (20 * y) 20 20.
Proof.
  intros Hx Hy. unfold square, cell. rewrite Z2Nat.id by lia.
  f_equal; Z.to_euclidean_division_equations; lia.
Qed.

(** [redraw_screen] under [set_config]: one fill per display cell, in
    order, then the present.  The fill of cell [(x, y)] (the cell DXYN
    addresses as [display[y*64 + x]]) is the 20x20 square at [(20x, 20y)],
    in the foreground colour when the cell is on and the background colour
    when it is off; the squares lie in the 1280x640 window and each window
    pixel lies in the square of exactly one cell. *)
Theorem redraw_paints_every_cell c :
  wf c ->
  let calls := redraw_screen set_config c in
  last calls = Some SDL_RenderPresent /\
  length (fills calls) = 2048%nat /\
  (forall x y (p : bool), 0 <= x < 64 -> 0 <= y < 32 ->
     display c !! cell x y = Some p ->
     fills calls !! cell x y
     = Some (mk_rect (20 * x) (20 * y) 20 20,
             if p then (255, 255, 255, 255) else (0, 0, 0, 255))) /\
  window_size set_config = (1280, 640) /\
  (forall x y wx wy,
     0 <= x < 64 -> 0 <= y < 32 -> 0 <= wx < 1280 -> 0 <= wy < 640 ->
     covers (mk_rect (20 * x) (20 * y) 20 20) wx wy
     <-> x = wx / 20 /\ y = wy / 20).
Proof.
  intros Hwf calls. pose proof (wf_display _ Hwf) as Hlen.
  assert (Hf : fills calls
               = imap (fun j p => (square (0 + Z.of_nat j), cell_colour p))
                      (display c)).
  { apply fills_from_cells; lia. }
  split; [apply last_snoc|]. split; [by rewrite Hf, length_imap|].
  split; [|split; [done|]].
  - intros x y p Hx Hy Hp. rewrite Hf, list_lookup_imap, Hp. cbn.
    rewrite Z.add_0_l, square_of_cell by lia. by destruct p.
  - intros x y wx wy Hx Hy Hwx Hwy. unfold covers. cbn.
    split; [intros [? ?]|intros [-> ->]]; Z.to_euclidean_division_equations; lia.
Qed.

(** An instance: the screen after the first draw of [rom_twice]. *)
Lemma redraw_paints_every_cell_witness :
  let c := run 4 rom_twice in
  let calls := redraw_screen set_config c in
  display c !! cell 7 3 = Some true /\
  last calls = Some SDL_RenderPresent /\
  length (fills calls) = 2048%nat /\
  (forall x y (p : bool), 0 <= x < 64 -> 0 <= y < 32 ->
     display c !! cell x y = Some p ->
     fills calls !! cell x y
     = Some (mk_rect (20 * x) (20 * y) 20 20,
             if p then (255, 255, 255, 255) else (0, 0, 0, 255))) /\
  window_size set_config = (1280, 640) /\
  (forall x y wx wy,
     0 <= x < 64 -> 0 <= y < 32 -> 0 <= wx < 1280 -> 0 <= wy < 640 ->
     covers (mk_rect (20 * x) (20 * y) 20 20) wx wy
     <-> x = wx / 20 /\ y = wy / 20).
Proof.
  intros c calls. split; [by_run|].
  apply (redraw_paints_every_cell c). wf_run.
Defined.

(** ** FX0A with a key down, and the jump to itself *)

(** An instance of [wait_key_with_key_down]: with the keys 3 and 9 down,
    F50A puts 3 in [V5]. *)
Lemma wait_key_with_key_down_witness :
  reg_after 5 (emulate_chip8 keys_3_9_down set_config 0) = Some 3 /\
  emulate_chip8 keys_3_9_down set_config 0
  = Done (set_V (<[Z.to_nat 5 := 3]> (V keys_3_9_down))
            (fetched keys_3_9_down (nibbles 0xF 5 0 0xA))).
Proof.
  split; [by_run|].
  apply (wait_key_with_key_down keys_3_9_down set_config 0 5 3);
    first [ wf_run | lia | by_run | idtac ].
  intros j Hj.
  assert (j = 0 \/ j = 1 \/ j = 2) as [->|[->| ->]] by lia; by_run.
Defined.

(** A 1NNN that jumps to its own address holds the machine still: after
    one or more instructions the machine is the one it started as, with the
    decoded instruction filled in. *)
Theorem jump_to_self_halts k : forall c cfg rnds x y n,
  wf c -> 0 <= x < 16 -> 0 <= y < 16 -> 0 <= n < 16 ->
  fetch_opcode c = Done (nibbles 1 x y n) ->
  PC c = 256 * x + 16 * y + n ->
  emulate_many (S k) c cfg rnds
  = Done (set_inst (decode (nibbles 1 x y n)) c).
Proof.
  assert (Hstep : forall c cfg rnd x y n,
    0 <= x < 16 -> 0 <= y < 16 -> 0 <= n < 16 ->
    fetch_opcode c = Done (nibbles 1 x y n) ->
    PC c = 256 * x + 16 * y + n ->
    emulate_chip8 c cfg rnd = Done (set_inst (decode (nibbles 1 x y n)) c)).
  { intros c cfg rnd x y n Hx Hy Hn Hf HPC.
    rewrite (emulate_fetched _ _ _ _ Hf).
    unfold execute. rewrite inst_fetched, decode_top, decode_NNN by lia.
    cbv iota. rewrite <- HPC. by destruct c. }
  induction k as [|k IH]; intros c cfg rnds x y n Hwf Hx Hy Hn Hf HPC.
  - cbn [emulate_many]. by rewrite (Hstep c cfg _ x y n).
  - change (emulate_many (S (S k)) c cfg rnds)
      with (let* c1 := emulate_chip8 c cfg (rnds O) in
            emulate_many (S k) c1 cfg (fun j => rnds (S j))).
    rewrite (Hstep c cfg _ x y n) by done. cbn [bind].
    rewrite (IH _ cfg _ x y n); try done.
    by destruct Hwf.
Qed.

(** An instance: 1000 instructions of [rom_halt]. *)
Lemma jump_to_self_halts_witness :
  emulate_many 1000 (boot rom_halt) set_config (fun _ => 0)
  = Done (set_inst (decode (nibbles 1 2 0 0)) (boot rom_halt)).
Proof.
  apply (jump_to_self_halts 999 (boot rom_halt) set_config (fun _ => 0) 2 0 0);
    first [ wf_run | lia | by_run ].
Defined.
